(** * A BGP anomaly-detection pipeline: embedding and verification

    The pipeline is a set of Python workers around one PostgreSQL store:
    a feature aggregator, a heuristic detector, an ML detector, an RPKI
    detector and a correlation engine.  Part I embeds the workers, one
    module per source file, with the names of the source.  Part II states
    and proves the properties of the specification; Part III proves
    further properties of the workers: what they count, what they keep,
    how they fail.

    Conventions of the embedding.
    - A PostgreSQL [timestamp] is the integer count of microseconds since
      the epoch.  [double precision] columns and Python floats are IEEE
      binary64 values ([float]); integers are [Z].
    - A table is the list of its rows in insertion order.
    - A Python function that can raise, or that talks to the database or
      the network, is a computation over a world ([py.M]): it returns a
      value or a raised exception together with the new world, so that
      effects made before an exception stay made. *)

From Stdlib Require Import ZArith List String Ascii Bool Lia Floats Uint63 DecimalString.
From Stdlib Require Import Sorted Permutation.
Import ListNotations.

Set Warnings "-inexact-float,-register-all".

Local Open Scope string_scope.
Local Open Scope Z_scope.

(* ===================================================================== *)
(** * Part I.  The embedding                                              *)
(* ===================================================================== *)

(** ** Python values and control flow *)

Module py.

(** A raised exception: its class and its message. *)
Record exn := Exn { exn_class : string; exn_msg : string }.

Inductive result (A : Type) : Type :=
| Ok (a : A)
| Raise (e : exn).

Arguments Ok {A} a.
Arguments Raise {A} e.

(** Computations over a world [W]: the world is threaded through, and is
    kept when the computation raises. *)
Definition M (W A : Type) : Type := W -> result A * W.

Definition ret {W A} (a : A) : M W A := fun w => (Ok a, w).

Definition raise {W A} (e : exn) : M W A := fun w => (Raise e, w).

Definition bind {W A B} (m : M W A) (k : A -> M W B) : M W B :=
  fun w => match m w with
           | (Ok a, w') => k a w'
           | (Raise e, w') => (Raise e, w')
           end.

(** [try: m except Exception as e: h e]. *)
Definition try_except {W A} (m : M W A) (h : exn -> M W A) : M W A :=
  fun w => match m w with
           | (Ok a, w') => (Ok a, w')
           | (Raise e, w') => h e w'
           end.

(** [try: m finally: f]: [f] runs on both exits; an exception of [m]
    is raised again after it. *)
Definition try_finally {W A} (m : M W A) (f : M W unit) : M W A :=
  fun w => match m w with
           | (Ok a, w') => match f w' with
                           | (Ok _, w'') => (Ok a, w'')
                           | (Raise e, w'') => (Raise e, w'')
                           end
           | (Raise e, w') => match f w' with
                              | (Ok _, w'') => (Raise e, w'')
                              | (Raise e', w'') => (Raise e', w'')
                              end
           end.

Definition get {W} : M W W := fun w => (Ok w, w).

Definition modify {W} (f : W -> W) : M W unit := fun w => (Ok tt, f w).

Definition lift {W A} (r : result A) : M W A := fun w => (r, w).

(** [for x in l: body x]. *)
Fixpoint for_each {W A} (l : list A) (body : A -> M W unit) : M W unit :=
  match l with
  | [] => ret tt
  | x :: l' => bind (body x) (fun _ => for_each l' body)
  end.

(** The pure error monad, for code that only computes. *)
Definition rbind {A B} (r : result A) (k : A -> result B) : result B :=
  match r with
  | Ok a => k a
  | Raise e => Raise e
  end.

(** *** Strings *)

Definition lower_ascii (c : ascii) : ascii :=
  let n := nat_of_ascii c in
  if (Nat.leb 65 n && Nat.leb n 90)%bool then ascii_of_nat (n + 32) else c.

(** [s.lower()], on ASCII text. *)
Fixpoint lower (s : string) : string :=
  match s with
  | EmptyString => EmptyString
  | String c s' => String (lower_ascii c) (lower s')
  end.

(** [needle in hay], for two strings. *)
Fixpoint contains (needle hay : string) : bool :=
  match hay with
  | EmptyString => prefix needle hay
  | String _ rest => prefix needle hay || contains needle rest
  end.

(** [s.split(sep)]. *)
Fixpoint split (sep : ascii) (s : string) : list string :=
  match s with
  | EmptyString => [ EmptyString ]
  | String c s' =>
      if Ascii.eqb c sep then EmptyString :: split sep s'
      else match split sep s' with
           | [] => [ String c EmptyString ]
           | h :: t => String c h :: t
           end
  end.

(** [str(n)] for an integer. *)
Definition str_int (z : Z) : string := NilZero.string_of_int (Z.to_int z).

(** [float(n)] for an integer. *)
Definition float_of_Z (z : Z) : float :=
  if z <? 0 then PrimFloat.opp (PrimFloat.of_uint63 (Uint63.of_Z (- z)))
  else PrimFloat.of_uint63 (Uint63.of_Z z).

(** *** JSON values, as [json.loads] and psycopg's jsonb adapter give them *)

Inductive json : Type :=
| JNull
| JBool (b : bool)
| JInt (z : Z)
| JFloat (f : float)
| JStr (s : string)
| JList (l : list json)
| JDict (d : list (string * json)).

Fixpoint assoc {A} (k : string) (d : list (string * A)) : option A :=
  match d with
  | [] => None
  | (k', v) :: d' => if String.eqb k k' then Some v else assoc k d'
  end.

(** [d.get(k, default)]; on a value that is no dict the attribute is
    missing. *)
Definition dict_get (v : json) (k : string) (default : json) : result json :=
  match v with
  | JDict d => Ok (match assoc k d with Some x => x | None => default end)
  | _ => Raise (Exn "AttributeError" "object has no attribute 'get'")
  end.

(** [v.lower()]. *)
Definition str_lower (v : json) : result string :=
  match v with
  | JStr s => Ok (lower s)
  | _ => Raise (Exn "AttributeError" "object has no attribute 'lower'")
  end.

(** [bool(v)]. *)
Definition truthy (v : json) : bool :=
  match v with
  | JNull => false
  | JBool b => b
  | JInt z => negb (z =? 0)
  | JFloat f => negb (PrimFloat.eqb f 0%float)
  | JStr s => negb (String.eqb s "")
  | JList l => match l with [] => false | _ => true end
  | JDict d => match d with [] => false | _ => true end
  end.

(** [for x in v]: the elements of a list, the characters of a string,
    the keys of a dict. *)
Definition iterate (v : json) : result (list json) :=
  match v with
  | JList l => Ok l
  | JStr s => Ok (map (fun c => JStr (String c EmptyString)) (list_ascii_of_string s))
  | JDict d => Ok (map (fun kv => JStr (fst kv)) d)
  | _ => Raise (Exn "TypeError" "object is not iterable")
  end.

(** [s in v] for a string [s]: an element equal to [s] in a list, a
    substring in a string, a key in a dict. *)
Definition str_in (s : string) (v : json) : result bool :=
  match v with
  | JList l => Ok (existsb (fun x => match x with JStr t => String.eqb s t | _ => false end) l)
  | JStr t => Ok (contains s t)
  | JDict d => Ok (existsb (fun kv => String.eqb s (fst kv)) d)
  | _ => Raise (Exn "TypeError" "argument is not iterable")
  end.

(** [v == s] for a string [s]. *)
Definition eq_str (v : json) (s : string) : bool :=
  match v with
  | JStr t => String.eqb t s
  | _ => false
  end.

(** [v == n] for an integer [n]. *)
Definition eq_int (v : json) (n : Z) : bool :=
  match v with
  | JInt z => z =? n
  | JBool b => (if b then 1 else 0) =? n
  | JFloat f => PrimFloat.eqb f (float_of_Z n)
  | _ => false
  end.

(** [n > v] for an integer [n]. *)
Definition int_gt (n : Z) (v : json) : result bool :=
  match v with
  | JInt z => Ok (z <? n)
  | JBool b => Ok ((if b then 1 else 0) <? n)
  | JFloat f => Ok (PrimFloat.ltb f (float_of_Z n))
  | _ => Raise (Exn "TypeError" "'>' not supported between instances")
  end.

(** *** [ipaddress] networks *)

(** An [IPv4Network] or [IPv6Network]: the version, the network address
    as an integer and the prefix length. *)
Record ip_net := {
  version : Z;
  network_address : Z;
  prefixlen : Z
}.

Definition max_prefixlen (n : ip_net) : Z := if version n =? 4 then 32 else 128.

Definition broadcast_address (n : ip_net) : Z :=
  network_address n + 2 ^ (max_prefixlen n - prefixlen n) - 1.

(** [addr in n], for an address of version [v]. *)
Definition address_in (v addr : Z) (n : ip_net) : bool :=
  (v =? version n) && (network_address n <=? addr) && (addr <=? broadcast_address n).

(** [a.overlaps(b)]. *)
Definition overlaps (a b : ip_net) : bool :=
  address_in (version a) (network_address a) b
  || address_in (version a) (broadcast_address a) b
  || address_in (version b) (network_address b) a
  || address_in (version b) (broadcast_address b) a.

(** *** Library functions the workers call

    They are parameters of the embedding: the properties proved hold for
    every function in their place. *)
Record lib := {
  (** [hashlib.sha256(s.encode()).hexdigest()] *)
  sha256_hexdigest : string -> string;
  (** [ipaddress.ip_network(s, strict)]; [None] when it raises ValueError *)
  ip_network : bool -> string -> option ip_net;
  (** [str(network.network_address)] *)
  str_address : ip_net -> string;
  (** [format(x, '.nf')] *)
  format_f : nat -> float -> string;
  (** [datetime.isoformat()] *)
  isoformat : Z -> string;
  (** [datetime.strftime('%Y%m%d%H%M%S')] *)
  strftime_compact : Z -> string;
  (** [int(s)]; [None] when it raises ValueError *)
  int_of_str : string -> option Z;
  (** [str(v)] of a decoded JSON value *)
  str_json : json -> string;
  (** the order of PostgreSQL's [inet] values, on their text *)
  inet_leb : string -> string -> bool
}.

(** A stable sort by insertion, for [ORDER BY] and [sorted]. *)
Fixpoint insert_sorted {A} (leb : A -> A -> bool) (x : A) (l : list A) : list A :=
  match l with
  | [] => [x]
  | y :: l' => if leb x y then x :: y :: l' else y :: insert_sorted leb x l'
  end.

Definition sort_by {A} (leb : A -> A -> bool) (l : list A) : list A :=
  fold_right (insert_sorted leb) [] l.

(** [acc = a0; for x in l: acc = body acc x]. *)
Fixpoint fold_for {W A S} (l : list A) (acc : S) (body : S -> A -> M W S) : M W S :=
  match l with
  | [] => ret acc
  | x :: l' => bind (body acc x) (fun acc' => fold_for l' acc' body)
  end.

(** [m] keeps the property [P] of the world, whether it returns or
    raises. *)
Definition preserves {W : Type} (P : W -> Prop) {A} (m : M W A) : Prop :=
  forall w, P w -> P (snd (m w)).

End py.

Declare Scope py_scope.
Delimit Scope py_scope with py.

Notation "x <- m ;; k" := (py.bind m (fun x => k))
  (at level 61, m at next level, right associativity) : py_scope.
Notation "m ;;; k" := (py.bind m (fun _ => k))
  (at level 61, right associativity) : py_scope.
Notation "x <-- r ;; k" := (py.rbind r (fun x => k))
  (at level 61, r at next level, right associativity) : py_scope.

(** ** The relational store *)

(** One module per table, with the columns the workers read and write. *)

Module ip_rib.
Record row := {
  base_attr_hash_id : string;
  peer_hash_id : string;
  origin_as : Z;
  prefix : string;
  timestamp : Z;
  iswithdrawn : bool
}.
End ip_rib.

Module base_attrs.
Record row := {
  hash_id : string;
  as_path_count : option Z
}.
End base_attrs.

Module bgp_features_1min.
Record row := {
  id : Z;
  window_start : Z;
  window_end : Z;
  prefix : string;
  origin_as : Z;
  announcements : Z;
  withdrawals : Z;
  total_updates : Z;
  withdrawal_ratio : float;
  flap_count : Z;
  path_length : option float;
  unique_peers : Z;
  message_rate : float;
  session_resets : Z
}.
(** The same columns under the id [id r + n]. *)
Definition shift_id (n : Z) (r : row) : row :=
  {| id := id r + n; window_start := window_start r; window_end := window_end r;
     prefix := prefix r; origin_as := origin_as r; announcements := announcements r;
     withdrawals := withdrawals r; total_updates := total_updates r;
     withdrawal_ratio := withdrawal_ratio r; flap_count := flap_count r;
     path_length := path_length r; unique_peers := unique_peers r;
     message_rate := message_rate r; session_resets := session_resets r |}.
End bgp_features_1min.

Module hybrid_anomaly_detections.
(** The columns a detector writes; [peer_ip], [peer_asn], [as_path] and
    [next_hop] are always NULL and are left out. *)
Record values := {
  timestamp : Z;
  detection_id : string;
  prefix : string;
  prefix_length : option Z;
  origin_as : Z;
  event_type : string;
  message_type : string;
  rpki_status : string;
  rpki_anomaly : bool;
  combined_anomaly : bool;
  combined_score : float;
  combined_severity : string;
  classification : string;
  metadata : py.json
}.
(** A stored row: the serial [id] and the columns. *)
Record row := {
  id : Z;
  cols : values
}.
End hybrid_anomaly_detections.

(** The state tables hold one row, [id = 1]. *)
Module inference_state.
Record row := {
  last_processed_timestamp : option Z;
  total_processed : Z
}.
End inference_state.

Module store.

Record database := {
  tbl_ip_rib : list ip_rib.row;
  tbl_base_attrs : list base_attrs.row;
  tbl_bgp_features_1min : list bgp_features_1min.row;
  seq_bgp_features_1min : Z;
  tbl_hybrid_anomaly_detections : list hybrid_anomaly_detections.row;
  seq_hybrid_anomaly_detections : Z;
  tbl_feature_aggregator_state : option (option Z);
  tbl_heuristic_inference_state : option inference_state.row;
  tbl_rpki_inference_state : option inference_state.row
}.

Definition set_features (fs : list bgp_features_1min.row) (seq : Z) (db : database) : database :=
  {| tbl_ip_rib := tbl_ip_rib db;
     tbl_base_attrs := tbl_base_attrs db;
     tbl_bgp_features_1min := fs;
     seq_bgp_features_1min := seq;
     tbl_hybrid_anomaly_detections := tbl_hybrid_anomaly_detections db;
     seq_hybrid_anomaly_detections := seq_hybrid_anomaly_detections db;
     tbl_feature_aggregator_state := tbl_feature_aggregator_state db;
     tbl_heuristic_inference_state := tbl_heuristic_inference_state db;
     tbl_rpki_inference_state := tbl_rpki_inference_state db |}.

Definition set_detections (ds : list hybrid_anomaly_detections.row) (seq : Z) (db : database) : database :=
  {| tbl_ip_rib := tbl_ip_rib db;
     tbl_base_attrs := tbl_base_attrs db;
     tbl_bgp_features_1min := tbl_bgp_features_1min db;
     seq_bgp_features_1min := seq_bgp_features_1min db;
     tbl_hybrid_anomaly_detections := ds;
     seq_hybrid_anomaly_detections := seq;
     tbl_feature_aggregator_state := tbl_feature_aggregator_state db;
     tbl_heuristic_inference_state := tbl_heuristic_inference_state db;
     tbl_rpki_inference_state := tbl_rpki_inference_state db |}.

Definition set_feature_aggregator_state (s : option (option Z)) (db : database) : database :=
  {| tbl_ip_rib := tbl_ip_rib db;
     tbl_base_attrs := tbl_base_attrs db;
     tbl_bgp_features_1min := tbl_bgp_features_1min db;
     seq_bgp_features_1min := seq_bgp_features_1min db;
     tbl_hybrid_anomaly_detections := tbl_hybrid_anomaly_detections db;
     seq_hybrid_anomaly_detections := seq_hybrid_anomaly_detections db;
     tbl_feature_aggregator_state := s;
     tbl_heuristic_inference_state := tbl_heuristic_inference_state db;
     tbl_rpki_inference_state := tbl_rpki_inference_state db |}.

Definition set_heuristic_inference_state (s : option inference_state.row) (db : database) : database :=
  {| tbl_ip_rib := tbl_ip_rib db;
     tbl_base_attrs := tbl_base_attrs db;
     tbl_bgp_features_1min := tbl_bgp_features_1min db;
     seq_bgp_features_1min := seq_bgp_features_1min db;
     tbl_hybrid_anomaly_detections := tbl_hybrid_anomaly_detections db;
     seq_hybrid_anomaly_detections := seq_hybrid_anomaly_detections db;
     tbl_feature_aggregator_state := tbl_feature_aggregator_state db;
     tbl_heuristic_inference_state := s;
     tbl_rpki_inference_state := tbl_rpki_inference_state db |}.

Definition set_rpki_inference_state (s : option inference_state.row) (db : database) : database :=
  {| tbl_ip_rib := tbl_ip_rib db;
     tbl_base_attrs := tbl_base_attrs db;
     tbl_bgp_features_1min := tbl_bgp_features_1min db;
     seq_bgp_features_1min := seq_bgp_features_1min db;
     tbl_hybrid_anomaly_detections := tbl_hybrid_anomaly_detections db;
     seq_hybrid_anomaly_detections := seq_hybrid_anomaly_detections db;
     tbl_feature_aggregator_state := tbl_feature_aggregator_state db;
     tbl_heuristic_inference_state := tbl_heuristic_inference_state db;
     tbl_rpki_inference_state := s |}.

(** [UPDATE <state table> SET last_processed_timestamp = ts,
    total_processed = total_processed + n WHERE id = 1]: no row, no
    change. *)
Definition update_state_row (ts : Z) (n : Z) (s : option inference_state.row)
  : option inference_state.row :=
  match s with
  | None => None
  | Some r => Some {| inference_state.last_processed_timestamp := Some ts;
                      inference_state.total_processed := inference_state.total_processed r + n |}
  end.

End store.

(** ** PostgreSQL's numeric type *)

(** What the aggregator's query needs of [numeric]: the division of two
    integers, which is how AVG over an integer column ends (the sum by
    the count, [numeric_div]), and the cast to [double precision]. *)
Module numeric.

(** The value [unscaled / 10 ^ dscale]. *)
Record t := { unscaled : Z; dscale : Z }.

(** Digits are kept in base 10000, four decimal digits each. *)
Definition NBASE : Z := 10000.
Definition DEC_DIGITS : Z := 4.
Definition NUMERIC_MIN_SIG_DIGITS : Z := 16.
Definition NUMERIC_MAX_DISPLAY_SCALE : Z := 1000.

(** The weight of the first base-10000 digit of a natural number: the
    number of the digits that follow it. *)
Fixpoint weight_from (fuel : nat) (n : Z) : Z :=
  match fuel with
  | O => 0
  | S fuel' => if n <? NBASE then 0 else 1 + weight_from fuel' (n / NBASE)
  end.

Definition weight (n : Z) : Z := weight_from (S (Z.to_nat (Z.log2 (Z.abs n)))) (Z.abs n).

Definition first_digit (n : Z) : Z := Z.abs n / NBASE ^ weight n.

(** [select_div_scale], for two integers: the scale that gives the
    quotient NUMERIC_MIN_SIG_DIGITS significant digits at least, the
    weight of the quotient being estimated from the first digits. *)
Definition select_div_scale (var1 var2 : Z) : Z :=
  let qweight := weight var1 - weight var2
                 - (if first_digit var1 <=? first_digit var2 then 1 else 0) in
  Z.min NUMERIC_MAX_DISPLAY_SCALE (Z.max 0 (NUMERIC_MIN_SIG_DIGITS - qweight * DEC_DIGITS)).

(** [numeric_div], for two integers, the second not zero: the quotient
    rounded to the selected scale, a half away from zero. *)
Definition div (var1 var2 : Z) : t :=
  let rscale := select_div_scale var1 var2 in
  {| unscaled := Z.sgn var1 * Z.sgn var2
                 * ((2 * Z.abs var1 * 10 ^ rscale + Z.abs var2) / (2 * Z.abs var2));
     dscale := rscale |}.

Definition spec_float_of_Z (z : Z) : spec_float :=
  match z with
  | Z0 => S754_zero false
  | Zpos p => S754_finite false p 0
  | Zneg p => S754_finite true p 0
  end.

(** The cast to [double precision]: the binary64 value nearest to the
    decimal one, ties to even.  (A value out of the range of binary64
    is refused by the server; the quotients of two 64-bit integers are
    within it.) *)
Definition to_float8 (x : t) : float :=
  SF2Prim (SFdiv prec emax (spec_float_of_Z (unscaled x)) (spec_float_of_Z (10 ^ dscale x))).

End numeric.

(** ** services/feature_aggregator.py *)

Module feature_aggregator.

Import store.

(** INITIAL_LOOKBACK = 10 minutes. *)
Definition INITIAL_LOOKBACK : Z := 10 * 60 * 1000000.

(** Modelled from the spec: the SQL function [public.floor_to_1min] is
    declared in schema.sql, which is not among the sources; the spec
    says it truncates a timestamp to its minute. *)
Definition floor_to_1min (t : Z) : Z := 60000000 * (t / 60000000).

(** [interval '1 minute']. *)
Definition one_minute : Z := 60000000.

(** A row of [ip_rib r LEFT JOIN base_attrs ba ON r.base_attr_hash_id =
    ba.hash_id]: the columns of [ba] are NULL when no row matches. *)
Record joined := {
  j_rib : ip_rib.row;
  j_ba : option base_attrs.row
}.

Definition left_join (ribs : list ip_rib.row) (bas : list base_attrs.row) : list joined :=
  flat_map
    (fun r =>
       match filter (fun ba => String.eqb (ip_rib.base_attr_hash_id r) (base_attrs.hash_id ba)) bas with
       | [] => [ {| j_rib := r; j_ba := None |} ]
       | ms => map (fun ba => {| j_rib := r; j_ba := Some ba |}) ms
       end)
    ribs.

(** [WHERE r.timestamp > from_ts AND r.timestamp <= to_ts]. *)
Definition in_range (from_ts to_ts : Z) (j : joined) : bool :=
  (from_ts <? ip_rib.timestamp (j_rib j)) && (ip_rib.timestamp (j_rib j) <=? to_ts).

(** [GROUP BY floor_to_1min(r.timestamp), r.prefix, r.origin_as]. *)
Definition group_key : Type := Z * string * Z.

Definition key_of (j : joined) : group_key :=
  (floor_to_1min (ip_rib.timestamp (j_rib j)), ip_rib.prefix (j_rib j), ip_rib.origin_as (j_rib j)).

Definition key_eqb (a b : group_key) : bool :=
  match a, b with
  | (w1, p1, o1), (w2, p2, o2) => (w1 =? w2) && String.eqb p1 p2 && (o1 =? o2)
  end.

(** The distinct values of a list, each at its first occurrence. *)
Fixpoint distinct {A} (eqb : A -> A -> bool) (l : list A) : list A :=
  match l with
  | [] => []
  | x :: l' => x :: filter (fun y => negb (eqb x y)) (distinct eqb l')
  end.

Definition group_by (l : list joined) : list (group_key * list joined) :=
  map (fun k => (k, filter (fun j => key_eqb (key_of j) k) l)) (distinct key_eqb (map key_of l)).

(** [COUNT( * ) FILTER (WHERE p)]. *)
Definition count_filter (p : joined -> bool) (g : list joined) : Z :=
  Z.of_nat (List.length (filter p g)).

Definition is_announcement (j : joined) : bool := negb (ip_rib.iswithdrawn (j_rib j)).

Definition is_withdrawal (j : joined) : bool := ip_rib.iswithdrawn (j_rib j).

(** The non-NULL values of [ba.as_path_count] in a group. *)
Definition as_path_counts (g : list joined) : list Z :=
  flat_map (fun j => match j_ba j with
                     | Some ba => match base_attrs.as_path_count ba with
                                  | Some n => [n]
                                  | None => []
                                  end
                     | None => []
                     end) g.

Definition sum_Z (l : list Z) : Z := fold_right Z.add 0 l.

(** [AVG(x)] over an integer column: NULL over no value, else the sum
    over the count, as a [numeric]. *)
Definition avg (l : list Z) : option numeric.t :=
  match l with
  | [] => None
  | _ => Some (numeric.div (sum_Z l) (Z.of_nat (List.length l)))
  end.

(** [COALESCE(AVG(ba.as_path_count), 2.0 + MOD(r.origin_as,
    3)::double precision)::double precision]: the second argument is
    [double precision], so the [numeric] average is cast to it.  SQL's
    [MOD] takes the sign of the dividend. *)
Definition path_length_of (origin_as : Z) (g : list joined) : float :=
  match avg (as_path_counts g) with
  | Some m => numeric.to_float8 m
  | None => (2.0 + py.float_of_Z (Z.rem origin_as 3))%float
  end.

(** [COUNT(DISTINCT r.peer_hash_id)]. *)
Definition count_distinct_peers (g : list joined) : Z :=
  Z.of_nat (List.length (distinct String.eqb (map (fun j => ip_rib.peer_hash_id (j_rib j)) g))).

(** The SELECT list, for one group; [n] is the id the sequence gives
    the inserted row. *)
Definition feature_of (n : Z) (kg : group_key * list joined) : bgp_features_1min.row :=
  match kg with
  | ((w, p, o), g) =>
    {| bgp_features_1min.id := n;
       bgp_features_1min.window_start := w;
       bgp_features_1min.window_end := w + one_minute;
       bgp_features_1min.prefix := p;
       bgp_features_1min.origin_as := o;
       bgp_features_1min.announcements := count_filter is_announcement g;
       bgp_features_1min.withdrawals := count_filter is_withdrawal g;
       bgp_features_1min.total_updates := Z.of_nat (List.length g);
       bgp_features_1min.withdrawal_ratio :=
         (py.float_of_Z (count_filter is_withdrawal g)
          / py.float_of_Z (Z.max (count_filter is_announcement g) 1))%float;
       bgp_features_1min.flap_count :=
         Z.quot (count_filter is_withdrawal g + count_filter is_announcement g) 2;
       bgp_features_1min.path_length := Some (path_length_of o g);
       bgp_features_1min.unique_peers := count_distinct_peers g;
       bgp_features_1min.message_rate := (py.float_of_Z (Z.of_nat (List.length g)) / 60.0)%float;
       bgp_features_1min.session_resets := 0 |}
  end.

(** The groups the query selects from the store. *)
Definition selected_groups (db : database) (from_ts to_ts : Z) : list (group_key * list joined) :=
  group_by (filter (in_range from_ts to_ts) (left_join (tbl_ip_rib db) (tbl_base_attrs db))).

(** Rows get consecutive ids from the table's sequence. *)
Fixpoint number_rows (seq : Z) (gs : list (group_key * list joined)) : list bgp_features_1min.row :=
  match gs with
  | [] => []
  | kg :: gs' => feature_of (seq + 1) kg :: number_rows (seq + 1) gs'
  end.

(** [aggregate_once]: one [INSERT INTO bgp_features_1min ... SELECT ...
    GROUP BY ...].  The statement has no ON CONFLICT clause, and the
    table of [ensure_tables] has no constraint but the primary key [id],
    so every selected group is inserted.  Returns [cur.rowcount]. *)
Definition aggregate_once (db : database) (from_ts to_ts : Z) : Z * database :=
  let gs := selected_groups db from_ts to_ts in
  let rows := number_rows (seq_bgp_features_1min db) gs in
  (Z.of_nat (List.length rows),
   set_features (tbl_bgp_features_1min db ++ rows)
                (seq_bgp_features_1min db + Z.of_nat (List.length rows)) db).

(** [get_last_processed_timestamp], at wall-clock time [now]: the stored
    timestamp, or [now - 10 minutes], which is then inserted unless a
    row is there already. *)
Definition get_last_processed_timestamp (now : Z) (db : database) : Z * database :=
  match tbl_feature_aggregator_state db with
  | Some (Some ts) => (ts, db)
  | Some None => (now - INITIAL_LOOKBACK, db)
  | None => (now - INITIAL_LOOKBACK,
             set_feature_aggregator_state (Some (Some (now - INITIAL_LOOKBACK))) db)
  end.

Definition update_last_processed_timestamp (ts : Z) (db : database) : database :=
  match tbl_feature_aggregator_state db with
  | Some _ => set_feature_aggregator_state (Some (Some ts)) db
  | None => db
  end.

(** One turn of the loop of [main], at wall-clock time [now]. *)
Definition main_iteration (now : Z) (db : database) : database :=
  let (from_ts, db1) := get_last_processed_timestamp now db in
  let to_ts := now in
  if to_ts <=? from_ts then db1
  else
    let (_, db2) := aggregate_once db1 from_ts to_ts in
    update_last_processed_timestamp to_ts db2.

End feature_aggregator.

(** ** Faults of the database connection *)

Module pg.

(** What the server or the network does to one executed statement: it
    runs, or it fails and the connection stays usable (a constraint or
    data error), or the connection is lost while it runs. *)
Inductive fault : Type :=
| NoFault
| StatementError (msg : string)
| ConnectionLost (msg : string).

(** The fault of the next statement of a stream, and the rest of the
    stream; a stream that has run out holds no fault. *)
Definition next_fault (fs : list fault) : fault * list fault :=
  match fs with
  | [] => (NoFault, [])
  | f :: fs' => (f, fs')
  end.

(** [a || b] on [jsonb]: two objects give the union of their keys, with
    the value of [b] for a key of both; in every other case each
    operand that is no array is wrapped into one, and the arrays are
    concatenated.  [JNull] stands for a column that is NULL, which stays
    NULL. *)
Definition as_array (v : py.json) : list py.json :=
  match v with
  | py.JList l => l
  | _ => [ v ]
  end.

Definition jsonb_concat (a b : py.json) : py.json :=
  match a, b with
  | py.JNull, _ => py.JNull
  | _, py.JNull => py.JNull
  | py.JDict x, py.JDict y =>
      py.JDict (filter (fun kv => negb (existsb (fun kv' => String.eqb (fst kv) (fst kv')) y)) x
                ++ y)%list
  | _, _ => py.JList (as_array a ++ as_array b)%list
  end.

(** What the server takes for [json] or [jsonb] of the text psycopg
    sends: [json.dumps] writes a NaN or an infinite float as the token
    [NaN], [Infinity] or [-Infinity], and the server refuses the three
    of them ([invalid input syntax for type json]). *)
Fixpoint json_accepted (v : py.json) : bool :=
  match v with
  | py.JFloat f => PrimFloat.is_finite f
  | py.JList l => forallb json_accepted l
  | py.JDict d => forallb (fun kv => json_accepted (snd kv)) d
  | _ => true
  end.

End pg.

(** ** services/heuristic_detector.py *)

Module heuristic_detector.

Import store.

Local Open Scope py_scope.

Definition VERSION : string := "v1.0".

(** THRESHOLDS *)
Definition THRESHOLDS_churn_moderate : Z := 1212.
Definition THRESHOLDS_churn_severe : Z := 6012.
Definition THRESHOLDS_churn_critical : Z := 24000.
Definition THRESHOLDS_flapping_medium : Z := 132.
Definition THRESHOLDS_flapping_high : Z := 372.
Definition THRESHOLDS_flapping_critical : Z := 1200.
Definition THRESHOLDS_path_length_mild : Z := 16.
Definition THRESHOLDS_path_length_severe : Z := 25.
Definition THRESHOLDS_withdrawal_ratio_high : float := 0.70%float.
Definition THRESHOLDS_withdrawal_ratio_critical : float := 0.90%float.
Definition THRESHOLDS_path_inflation_high : Z := 5.
Definition THRESHOLDS_path_inflation_critical : Z := 10.
Definition THRESHOLDS_volume_spike_high : Z := 100000.
Definition THRESHOLDS_volume_spike_critical : Z := 500000.
Definition THRESHOLDS_session_resets_medium : Z := 6.
Definition THRESHOLDS_session_resets_high : Z := 11.
Definition THRESHOLDS_session_resets_critical : Z := 50.

Definition BOGON_ASN_RANGES : list (Z * Z) :=
  [ (64512, 65534); (4200000000, 4294967294) ].

Definition BOGON_PREFIXES : list string :=
  [ "0.0.0.0/8"; "10.0.0.0/8"; "100.64.0.0/10"; "127.0.0.0/8";
    "169.254.0.0/16"; "172.16.0.0/12"; "192.0.0.0/24"; "192.0.2.0/24";
    "192.168.0.0/16"; "198.18.0.0/15"; "198.51.100.0/24"; "203.0.113.0/24";
    "224.0.0.0/4"; "240.0.0.0/4"; "255.255.255.255/32" ].

(** @dataclass HeuristicHit *)
Record HeuristicHit := {
  rule_name : string;
  severity : string;
  score : float;
  reason : string
}.

(** The world of the worker: the store behind a psycopg 3 connection in
    autocommit mode, the faults to come (of the INSERTs into
    [hybrid_anomaly_detections], and of every other statement), and the
    warnings and errors logged so far, latest first. *)
Record world := {
  db : database;
  conn_open : bool;
  insert_faults : list pg.fault;
  query_faults : list pg.fault;
  log : list (string * string)
}.

Definition set_db (d : database) (w : world) : world :=
  {| db := d; conn_open := conn_open w; insert_faults := insert_faults w;
     query_faults := query_faults w; log := log w |}.

Definition set_log (l : list (string * string)) (w : world) : world :=
  {| db := db w; conn_open := conn_open w; insert_faults := insert_faults w;
     query_faults := query_faults w; log := l |}.

Definition logger (level msg : string) : py.M world unit :=
  py.modify (fun w => set_log ((level, msg) :: log w) w).

(** [conn.cursor()]: psycopg refuses a cursor on a closed connection. *)
Definition cursor : py.M world unit :=
  fun w => if conn_open w then (py.Ok tt, w)
           else (py.Raise (py.Exn "OperationalError" "the connection is closed"), w).

(** What a fault does to a statement: nothing, an error, or an error
    that leaves the connection closed. *)
Definition suffer (f : pg.fault) (w : world) : py.result unit * world :=
  match f with
  | pg.NoFault => (py.Ok tt, w)
  | pg.StatementError m => (py.Raise (py.Exn "DatabaseError" m), w)
  | pg.ConnectionLost m =>
      (py.Raise (py.Exn "OperationalError" m),
       {| db := db w; conn_open := false; insert_faults := insert_faults w;
          query_faults := query_faults w; log := log w |})
  end.

(** [cur.execute] of a statement that reads: [q] is what it returns. *)
Definition execute_query {A} (q : database -> A) : py.M world A :=
  fun w =>
    if negb (conn_open w)
    then (py.Raise (py.Exn "OperationalError" "the connection is closed"), w)
    else
      let (f, rest) := pg.next_fault (query_faults w) in
      let w1 := {| db := db w; conn_open := conn_open w; insert_faults := insert_faults w;
                   query_faults := rest; log := log w |} in
      match suffer f w1 with
      | (py.Ok _, w2) => (py.Ok (q (db w2)), w2)
      | (py.Raise e, w2) => (py.Raise e, w2)
      end.

(** [cur.execute] of a statement that writes, other than the INSERT of a
    detection. *)
Definition execute_update (u : database -> database) : py.M world unit :=
  fun w =>
    if negb (conn_open w)
    then (py.Raise (py.Exn "OperationalError" "the connection is closed"), w)
    else
      let (f, rest) := pg.next_fault (query_faults w) in
      let w1 := {| db := db w; conn_open := conn_open w; insert_faults := insert_faults w;
                   query_faults := rest; log := log w |} in
      match suffer f w1 with
      | (py.Ok _, w2) => (py.Ok tt, set_db (u (db w2)) w2)
      | (py.Raise e, w2) => (py.Raise e, w2)
      end.

(** [cur.execute] of the INSERT of a detection. *)
Definition execute_insert (u : database -> database) : py.M world unit :=
  fun w =>
    if negb (conn_open w)
    then (py.Raise (py.Exn "OperationalError" "the connection is closed"), w)
    else
      let (f, rest) := pg.next_fault (insert_faults w) in
      let w1 := {| db := db w; conn_open := conn_open w; insert_faults := rest;
                   query_faults := query_faults w; log := log w |} in
      match suffer f w1 with
      | (py.Ok _, w2) => (py.Ok tt, set_db (u (db w2)) w2)
      | (py.Raise e, w2) => (py.Raise e, w2)
      end.

(** A feature row as [row.to_dict()] gives it: a NULL [path_length] is
    NaN in the DataFrame. *)
Definition row_path_length (row : bgp_features_1min.row) : float :=
  match bgp_features_1min.path_length row with
  | Some x => x
  | None => PrimFloat.nan
  end.

(** [a > b] and [a >= b] on floats. *)
Definition fgt (a b : float) : bool := PrimFloat.ltb b a.

Definition fge (a b : float) : bool := PrimFloat.leb b a.

Section with_library.

Variable L : py.lib.

Definition fmt0_int (n : Z) : string := py.format_f L 0 (py.float_of_Z n).

Definition check_churn (row : bgp_features_1min.row) : option HeuristicHit :=
  let total_updates := bgp_features_1min.total_updates row in
  let churn_per_hour := total_updates * 60 in
  if THRESHOLDS_churn_critical <? churn_per_hour then
    Some {| rule_name := "churn_critical"; severity := "critical"; score := 0.95%float;
            reason := "total_updates=" ++ py.str_int total_updates ++ " ("
                      ++ fmt0_int churn_per_hour ++ "/hr) exceeds critical threshold "
                      ++ py.str_int THRESHOLDS_churn_critical ++ "/hr" |}
  else if THRESHOLDS_churn_severe <? churn_per_hour then
    Some {| rule_name := "churn_severe"; severity := "high"; score := 0.8%float;
            reason := "total_updates=" ++ py.str_int total_updates ++ " ("
                      ++ fmt0_int churn_per_hour ++ "/hr) exceeds severe threshold "
                      ++ py.str_int THRESHOLDS_churn_severe ++ "/hr" |}
  else if THRESHOLDS_churn_moderate <? churn_per_hour then
    Some {| rule_name := "churn_moderate"; severity := "medium"; score := 0.6%float;
            reason := "total_updates=" ++ py.str_int total_updates ++ " ("
                      ++ fmt0_int churn_per_hour ++ "/hr) exceeds moderate threshold "
                      ++ py.str_int THRESHOLDS_churn_moderate ++ "/hr" |}
  else None.

Definition check_withdrawal_ratio (row : bgp_features_1min.row) : option HeuristicHit :=
  let ratio := bgp_features_1min.withdrawal_ratio row in
  let withdrawals := bgp_features_1min.withdrawals row in
  let withdrawals_per_hour := withdrawals * 60 in
  if fge ratio THRESHOLDS_withdrawal_ratio_critical && (300 <? withdrawals_per_hour) then
    Some {| rule_name := "withdrawal_storm_critical"; severity := "critical"; score := 0.95%float;
            reason := "withdrawal_ratio=" ++ py.format_f L 2 ratio ++ ", withdrawals="
                      ++ py.str_int withdrawals ++ " (" ++ fmt0_int withdrawals_per_hour
                      ++ "/hr) - withdrawal storm detected" |}
  else if fge ratio THRESHOLDS_withdrawal_ratio_high && (600 <? withdrawals_per_hour) then
    Some {| rule_name := "withdrawal_storm_high"; severity := "high"; score := 0.8%float;
            reason := "withdrawal_ratio=" ++ py.format_f L 2 ratio ++ ", withdrawals="
                      ++ py.str_int withdrawals ++ " (" ++ fmt0_int withdrawals_per_hour
                      ++ "/hr) - high withdrawal activity" |}
  else None.

Definition check_flapping (row : bgp_features_1min.row) : option HeuristicHit :=
  let flap_count := bgp_features_1min.flap_count row in
  let flap_per_hour := flap_count * 60 in
  if THRESHOLDS_flapping_critical <? flap_per_hour then
    Some {| rule_name := "flap_critical"; severity := "critical"; score := 0.95%float;
            reason := "flap_count=" ++ py.str_int flap_count ++ " (" ++ fmt0_int flap_per_hour
                      ++ "/hr) exceeds critical threshold "
                      ++ py.str_int THRESHOLDS_flapping_critical ++ "/hr" |}
  else if THRESHOLDS_flapping_high <? flap_per_hour then
    Some {| rule_name := "flap_high"; severity := "high"; score := 0.8%float;
            reason := "flap_count=" ++ py.str_int flap_count ++ " (" ++ fmt0_int flap_per_hour
                      ++ "/hr) exceeds high threshold "
                      ++ py.str_int THRESHOLDS_flapping_high ++ "/hr" |}
  else if THRESHOLDS_flapping_medium <? flap_per_hour then
    Some {| rule_name := "flap_medium"; severity := "medium"; score := 0.6%float;
            reason := "flap_count=" ++ py.str_int flap_count ++ " (" ++ fmt0_int flap_per_hour
                      ++ "/hr) exceeds medium threshold "
                      ++ py.str_int THRESHOLDS_flapping_medium ++ "/hr" |}
  else None.

Definition check_path_length (row : bgp_features_1min.row) : option HeuristicHit :=
  let path_length := row_path_length row in
  if fgt path_length (py.float_of_Z THRESHOLDS_path_length_severe) then
    Some {| rule_name := "path_length_severe"; severity := "high"; score := 0.85%float;
            reason := "path_length=" ++ py.format_f L 1 path_length
                      ++ " exceeds severe threshold "
                      ++ py.str_int THRESHOLDS_path_length_severe |}
  else if fgt path_length (py.float_of_Z THRESHOLDS_path_length_mild) then
    Some {| rule_name := "path_length_mild"; severity := "medium"; score := 0.6%float;
            reason := "path_length=" ++ py.format_f L 1 path_length
                      ++ " exceeds mild threshold "
                      ++ py.str_int THRESHOLDS_path_length_mild |}
  else None.

(** The loop over BOGON_ASN_RANGES returns at the first range that holds
    the origin. *)
Fixpoint bogon_asn_in (ranges : list (Z * Z)) (origin_as : Z) : option HeuristicHit :=
  match ranges with
  | [] => None
  | (start, end_) :: ranges' =>
      if (start <=? origin_as) && (origin_as <=? end_) then
        Some {| rule_name := "bogon_asn_critical"; severity := "critical"; score := 0.95%float;
                reason := "origin_as=" ++ py.str_int origin_as
                          ++ " is in private/reserved range [" ++ py.str_int start ++ "-"
                          ++ py.str_int end_ ++ "] - should not be in public routing" |}
      else bogon_asn_in ranges' origin_as
  end.

Definition check_bogon_asn (row : bgp_features_1min.row) : option HeuristicHit :=
  bogon_asn_in BOGON_ASN_RANGES (bgp_features_1min.origin_as row).

(** The loop over BOGON_PREFIXES: each entry is parsed (strictly) and
    tested; a parse error leaves the loop through the handler. *)
Fixpoint bogon_prefix_in (bogons : list string) (prefix_str : string) (announced : py.ip_net)
  : py.result (option HeuristicHit) :=
  match bogons with
  | [] => py.Ok None
  | bogon_str :: bogons' =>
      match py.ip_network L true bogon_str with
      | None => py.Raise (py.Exn "ValueError" (bogon_str ++ " does not appear to be an IPv4 or IPv6 network"))
      | Some bogon_network =>
          if py.overlaps announced bogon_network then
            py.Ok (Some {| rule_name := "bogon_prefix_critical"; severity := "critical";
                           score := 0.95%float;
                           reason := "prefix=" ++ prefix_str ++ " overlaps with bogon range "
                                     ++ bogon_str
                                     ++ " - reserved/private prefix should not be routed" |})
          else bogon_prefix_in bogons' prefix_str announced
      end
  end.

(** The body of the [try] of [check_bogon_prefix]. *)
Definition bogon_prefix_hit (prefix_str : string) : py.result (option HeuristicHit) :=
  match py.ip_network L false prefix_str with
  | None => py.Raise (py.Exn "ValueError" (prefix_str ++ " does not appear to be an IPv4 or IPv6 network"))
  | Some announced_network => bogon_prefix_in BOGON_PREFIXES prefix_str announced_network
  end.

Definition check_bogon_prefix (row : bgp_features_1min.row) : py.M world (option HeuristicHit) :=
  let prefix_str := bgp_features_1min.prefix row in
  if String.eqb prefix_str "" then py.ret None
  else
    py.try_except
      (py.lift (bogon_prefix_hit prefix_str))
      (fun e =>
         logger "WARNING" ("Failed to parse prefix " ++ prefix_str ++ ": " ++ py.exn_msg e) ;;;
         py.ret None).

Definition check_volume_spike (row : bgp_features_1min.row) : option HeuristicHit :=
  let message_rate := bgp_features_1min.message_rate row in
  if fgt message_rate (py.float_of_Z THRESHOLDS_volume_spike_critical) then
    Some {| rule_name := "volume_spike_critical"; severity := "critical"; score := 0.95%float;
            reason := "message_rate=" ++ py.format_f L 0 message_rate
                      ++ " msg/min exceeds critical threshold "
                      ++ py.str_int THRESHOLDS_volume_spike_critical ++ " - severe overload" |}
  else if fgt message_rate (py.float_of_Z THRESHOLDS_volume_spike_high) then
    Some {| rule_name := "volume_spike_high"; severity := "high"; score := 0.85%float;
            reason := "message_rate=" ++ py.format_f L 0 message_rate
                      ++ " msg/min exceeds high threshold "
                      ++ py.str_int THRESHOLDS_volume_spike_high ++ " - may stress devices" |}
  else None.

Definition check_session_resets (row : bgp_features_1min.row) : option HeuristicHit :=
  let session_resets := bgp_features_1min.session_resets row in
  if THRESHOLDS_session_resets_critical <? session_resets then
    Some {| rule_name := "session_resets_critical"; severity := "critical"; score := 0.95%float;
            reason := "session_resets=" ++ py.str_int session_resets
                      ++ " exceeds critical threshold "
                      ++ py.str_int THRESHOLDS_session_resets_critical ++ " - DoS-level issue" |}
  else if THRESHOLDS_session_resets_high <=? session_resets then
    Some {| rule_name := "session_resets_high"; severity := "high"; score := 0.85%float;
            reason := "session_resets=" ++ py.str_int session_resets
                      ++ " exceeds high threshold "
                      ++ py.str_int THRESHOLDS_session_resets_high ++ " - persistent instability" |}
  else if THRESHOLDS_session_resets_medium <=? session_resets then
    Some {| rule_name := "session_resets_medium"; severity := "medium"; score := 0.6%float;
            reason := "session_resets=" ++ py.str_int session_resets
                      ++ " exceeds medium threshold "
                      ++ py.str_int THRESHOLDS_session_resets_medium ++ " - investigate" |}
  else None.

(** [AVG(x)] over [double precision] values. *)
Definition avg_float (l : list float) : option float :=
  match l with
  | [] => None
  | _ => Some (fold_left PrimFloat.add l 0%float / py.float_of_Z (Z.of_nat (List.length l)))%float
  end.

Definition seven_days : Z := 7 * 24 * 3600 * 1000000.

Definition one_hour : Z := 3600 * 1000000.

(** The baseline query of [check_path_inflation]: the average
    [path_length] of the rows of the same prefix and origin whose window
    starts between seven days and one hour before [window_start]. *)
Definition baseline_path (prefix : string) (origin_as window_start : Z)
                         (features : list bgp_features_1min.row) : option float :=
  avg_float
    (flat_map
       (fun r =>
          if String.eqb (bgp_features_1min.prefix r) prefix
             && (bgp_features_1min.origin_as r =? origin_as)
             && (window_start - seven_days <=? bgp_features_1min.window_start r)
             && (bgp_features_1min.window_start r <=? window_start - one_hour)
          then match bgp_features_1min.path_length r with
               | Some x => [x]
               | None => []
               end
          else [])
       features).

Definition baseline_path_query (prefix : string) (origin_as window_start : Z) (d : database)
  : option float :=
  baseline_path prefix origin_as window_start (tbl_bgp_features_1min d).

(** What [check_path_inflation] makes of the baseline it has read. *)
Definition inflation_hit (current_path : float) (result : option float) : option HeuristicHit :=
  match result with
  | Some baseline_path =>
      let delta := (current_path - baseline_path)%float in
      if fgt delta (py.float_of_Z THRESHOLDS_path_inflation_critical) then
        Some {| rule_name := "path_inflation_critical"; severity := "critical";
                score := 0.95%float;
                reason := "path_length=" ++ py.format_f L 1 current_path
                          ++ ", baseline=" ++ py.format_f L 1 baseline_path
                          ++ ", delta=" ++ py.format_f L 1 delta
                          ++ " (>10 hop increase) - possible path poisoning" |}
      else if fgt delta (py.float_of_Z THRESHOLDS_path_inflation_high) then
        Some {| rule_name := "path_inflation_high"; severity := "high";
                score := 0.8%float;
                reason := "path_length=" ++ py.format_f L 1 current_path
                          ++ ", baseline=" ++ py.format_f L 1 baseline_path
                          ++ ", delta=" ++ py.format_f L 1 delta
                          ++ " (>5 hop increase) - suspicious path change" |}
      else None
  | None => None
  end.

(** The guard [if not all([prefix, origin_as, current_path,
    window_start])]: an empty prefix, a zero origin or a zero path
    length skips the rule. *)
Definition inflation_skipped (row : bgp_features_1min.row) : bool :=
  String.eqb (bgp_features_1min.prefix row) ""
  || (bgp_features_1min.origin_as row =? 0)
  || PrimFloat.eqb (row_path_length row) 0%float.

Definition check_path_inflation (row : bgp_features_1min.row) : py.M world (option HeuristicHit) :=
  let prefix := bgp_features_1min.prefix row in
  let origin_as := bgp_features_1min.origin_as row in
  let current_path := row_path_length row in
  let window_start := bgp_features_1min.window_start row in
  if inflation_skipped row
  then py.ret None
  else
    py.try_except
      (cursor ;;;
       result <- execute_query (baseline_path_query prefix origin_as window_start) ;;
       py.ret (inflation_hit current_path result))
      (fun e =>
         logger "WARNING" ("Failed to check path inflation for " ++ prefix ++ ": " ++ py.exn_msg e) ;;;
         py.ret None).

(** [hit for hit in checks if hit is not None]. *)
Definition not_none {A} (checks : list (option A)) : list A :=
  flat_map (fun c => match c with Some h => [h] | None => [] end) checks.

Definition apply_heuristics (row : bgp_features_1min.row) : py.M world (list HeuristicHit) :=
  let c1 := check_churn row in
  let c2 := check_withdrawal_ratio row in
  let c3 := check_flapping row in
  let c4 := check_path_length row in
  let c5 := check_bogon_asn row in
  c6 <- check_bogon_prefix row ;;
  c7 <- check_path_inflation row ;;
  let c8 := check_volume_spike row in
  let c9 := check_session_resets row in
  py.ret (not_none [c1; c2; c3; c4; c5; c6; c7; c8; c9]).

Definition generate_detection_id (window_start : Z) (prefix : string) (origin_as : Z) : string :=
  let data := "heuristic_" ++ py.isoformat L window_start ++ "_" ++ prefix ++ "_"
              ++ py.str_int origin_as in
  "heur_" ++ substring 0 32 (py.sha256_hexdigest L data).

Definition get_prefix_length (prefix_str : string) : Z :=
  match py.ip_network L false prefix_str with
  | Some network => py.prefixlen network
  | None => if py.contains ":" prefix_str then 128 else 32
  end.

Definition determine_classification (hits : list HeuristicHit) : py.result string :=
  match hits with
  | [] => py.Raise (py.Exn "IndexError" "list index out of range")
  | _ :: _ :: _ => py.Ok "multi_rule"
  | [hit] =>
      let n := rule_name hit in
      py.Ok (if py.contains "churn" n then "churn_spike"
             else if py.contains "withdrawal" n then "withdrawal_burst"
             else if py.contains "flap" n then "route_flap"
             else if py.contains "path_length" n then "path_anomaly"
             else if py.contains "path_inflation" n then "path_inflation"
             else if py.contains "bogon_asn" n then "bogon_asn"
             else if py.contains "bogon_prefix" n then "bogon_prefix"
             else if py.contains "volume_spike" n then "volume_spike"
             else if py.contains "session_resets" n then "session_instability"
             else "unknown")
  end.

Definition severity_order (s : string) : Z :=
  if String.eqb s "critical" then 4
  else if String.eqb s "high" then 3
  else if String.eqb s "medium" then 2
  else if String.eqb s "low" then 1
  else 0.

(** [max(l, key=key)]: the first element of the greatest key. *)
Fixpoint max_by_key {A} (key : A -> Z) (best : A) (l : list A) : A :=
  match l with
  | [] => best
  | x :: l' => max_by_key key (if key best <? key x then x else best) l'
  end.

Definition get_max_severity (hits : list HeuristicHit) : py.result string :=
  match hits with
  | [] => py.Raise (py.Exn "ValueError" "max() arg is an empty sequence")
  | h :: hits' => py.Ok (severity (max_by_key (fun h => severity_order (severity h)) h hits'))
  end.

(** [max(xs)] over floats. *)
Fixpoint max_float (best : float) (l : list float) : float :=
  match l with
  | [] => best
  | x :: l' => max_float (if fgt x best then x else best) l'
  end.

Definition max_score (hits : list HeuristicHit) : py.result float :=
  match hits with
  | [] => py.Raise (py.Exn "ValueError" "max() arg is an empty sequence")
  | h :: hits' => py.Ok (max_float (score h) (map score hits'))
  end.

(** [ORDER BY window_start, prefix, origin_as]. *)
Definition row_leb (a b : bgp_features_1min.row) : bool :=
  if bgp_features_1min.window_start a <? bgp_features_1min.window_start b then true
  else if bgp_features_1min.window_start b <? bgp_features_1min.window_start a then false
  else if negb (py.inet_leb L (bgp_features_1min.prefix a) (bgp_features_1min.prefix b)) then false
  else if negb (py.inet_leb L (bgp_features_1min.prefix b) (bgp_features_1min.prefix a)) then true
  else bgp_features_1min.origin_as a <=? bgp_features_1min.origin_as b.

(** The SELECT of [fetch_new_feature_rows]. *)
Definition new_feature_rows_query (last_ts : Z) (d : database) : list bgp_features_1min.row :=
  py.sort_by row_leb (filter (fun r => last_ts <? bgp_features_1min.window_start r) (tbl_bgp_features_1min d)).

Definition fetch_new_feature_rows (last_ts : Z) : py.M world (list bgp_features_1min.row) :=
  cursor ;;;
  execute_query (new_feature_rows_query last_ts).

(** [ON CONFLICT (detection_id) DO UPDATE SET combined_score,
    combined_anomaly, combined_severity, metadata, timestamp]. *)
Definition do_update (d : hybrid_anomaly_detections.values) (r : hybrid_anomaly_detections.row)
  : hybrid_anomaly_detections.row :=
  let c := hybrid_anomaly_detections.cols r in
  {| hybrid_anomaly_detections.id := hybrid_anomaly_detections.id r;
     hybrid_anomaly_detections.cols :=
       {| hybrid_anomaly_detections.timestamp := hybrid_anomaly_detections.timestamp d;
          hybrid_anomaly_detections.detection_id := hybrid_anomaly_detections.detection_id c;
          hybrid_anomaly_detections.prefix := hybrid_anomaly_detections.prefix c;
          hybrid_anomaly_detections.prefix_length := hybrid_anomaly_detections.prefix_length c;
          hybrid_anomaly_detections.origin_as := hybrid_anomaly_detections.origin_as c;
          hybrid_anomaly_detections.event_type := hybrid_anomaly_detections.event_type c;
          hybrid_anomaly_detections.message_type := hybrid_anomaly_detections.message_type c;
          hybrid_anomaly_detections.rpki_status := hybrid_anomaly_detections.rpki_status c;
          hybrid_anomaly_detections.rpki_anomaly := hybrid_anomaly_detections.rpki_anomaly c;
          hybrid_anomaly_detections.combined_anomaly := hybrid_anomaly_detections.combined_anomaly d;
          hybrid_anomaly_detections.combined_score := hybrid_anomaly_detections.combined_score d;
          hybrid_anomaly_detections.combined_severity := hybrid_anomaly_detections.combined_severity d;
          hybrid_anomaly_detections.classification := hybrid_anomaly_detections.classification c;
          hybrid_anomaly_detections.metadata := hybrid_anomaly_detections.metadata d |} |}.

Definition conflicts (d : hybrid_anomaly_detections.values) (r : hybrid_anomaly_detections.row) : bool :=
  String.eqb (hybrid_anomaly_detections.detection_id (hybrid_anomaly_detections.cols r))
             (hybrid_anomaly_detections.detection_id d).

(** The INSERT of [insert_detection], on the rows of the table: a row
    of the same [detection_id] ([detection_id] is unique in the table)
    is updated in place, else the detection is appended under the id
    [n]. *)
Definition on_conflict (d : hybrid_anomaly_detections.values) (r : hybrid_anomaly_detections.row)
  : hybrid_anomaly_detections.row :=
  if conflicts d r then do_update d r else r.

Definition upsert (n : Z) (d : hybrid_anomaly_detections.values)
                  (t : list hybrid_anomaly_detections.row) : list hybrid_anomaly_detections.row :=
  if existsb (conflicts d) t
  then map (on_conflict d) t
  else t ++ [ {| hybrid_anomaly_detections.id := n; hybrid_anomaly_detections.cols := d |} ].

(** The statement takes the next value of the sequence, whether it
    inserts or updates. *)
Definition insert_or_update (d : hybrid_anomaly_detections.values) (db0 : database) : database :=
  let n := seq_hybrid_anomaly_detections db0 + 1 in
  set_detections (upsert n d (tbl_hybrid_anomaly_detections db0)) n db0.

Definition insert_detection (detection : hybrid_anomaly_detections.values) : py.M world unit :=
  cursor ;;;
  py.try_finally
    (py.try_except
       (execute_insert (insert_or_update detection))
       (fun e => logger "ERROR" ("Failed to insert detection "
                                 ++ hybrid_anomaly_detections.detection_id detection
                                 ++ ": " ++ py.exn_msg e)))
    (py.ret tt).

Definition hit_json (hit : HeuristicHit) : py.json :=
  py.JDict [ ("rule_name", py.JStr (rule_name hit));
             ("severity", py.JStr (severity hit));
             ("score", py.JFloat (score hit));
             ("reason", py.JStr (reason hit)) ].

Definition build_metadata (row : bgp_features_1min.row) (hits : list HeuristicHit)
                          (heuristic_score : float) : py.json :=
  py.JDict
    [ ("triggered_rules", py.JList (map hit_json hits));
      ("raw_features",
       py.JDict [ ("announcements", py.JInt (bgp_features_1min.announcements row));
                  ("withdrawals", py.JInt (bgp_features_1min.withdrawals row));
                  ("total_updates", py.JInt (bgp_features_1min.total_updates row));
                  ("withdrawal_ratio", py.JFloat (bgp_features_1min.withdrawal_ratio row));
                  ("flap_count", py.JInt (bgp_features_1min.flap_count row));
                  ("path_length", py.JFloat (row_path_length row));
                  ("unique_peers", py.JInt (bgp_features_1min.unique_peers row));
                  ("message_rate", py.JFloat (bgp_features_1min.message_rate row));
                  ("session_resets", py.JInt (bgp_features_1min.session_resets row)) ]);
      ("heuristic_score", py.JFloat heuristic_score);
      ("detector_type", py.JStr "HeuristicDetector");
      ("version", py.JStr VERSION) ].

(** The detection record built for a row and its hits. *)
Definition build_detection (row : bgp_features_1min.row) (hits : list HeuristicHit)
  : py.result hybrid_anomaly_detections.values :=
  heuristic_score <-- max_score hits ;;
  severity <-- get_max_severity hits ;;
  classification <-- determine_classification hits ;;
  py.Ok
    {| hybrid_anomaly_detections.timestamp := bgp_features_1min.window_start row;
       hybrid_anomaly_detections.detection_id :=
         generate_detection_id (bgp_features_1min.window_start row)
                               (bgp_features_1min.prefix row)
                               (bgp_features_1min.origin_as row);
       hybrid_anomaly_detections.prefix := bgp_features_1min.prefix row;
       hybrid_anomaly_detections.prefix_length := Some (get_prefix_length (bgp_features_1min.prefix row));
       hybrid_anomaly_detections.origin_as := bgp_features_1min.origin_as row;
       hybrid_anomaly_detections.event_type := "heuristic";
       hybrid_anomaly_detections.message_type := "bgp_features_1min";
       hybrid_anomaly_detections.rpki_status := "unknown";
       hybrid_anomaly_detections.rpki_anomaly := false;
       hybrid_anomaly_detections.combined_anomaly :=
         String.eqb severity "medium" || String.eqb severity "high" || String.eqb severity "critical";
       hybrid_anomaly_detections.combined_score := heuristic_score;
       hybrid_anomaly_detections.combined_severity := severity;
       hybrid_anomaly_detections.classification := classification;
       hybrid_anomaly_detections.metadata := build_metadata row hits heuristic_score |}.

(** The body of the loop of [process_feature_rows]. *)
Definition process_row (detection_count : Z) (row : bgp_features_1min.row) : py.M world Z :=
  hits <- apply_heuristics row ;;
  match hits with
  | [] => py.ret detection_count
  | _ =>
      detection <- py.lift (build_detection row hits) ;;
      insert_detection detection ;;;
      py.ret (detection_count + 1)
  end.

Definition process_feature_rows (df : list bgp_features_1min.row) : py.M world Z :=
  py.fold_for df 0 process_row.

(** [get_last_processed_timestamp], at wall-clock time [now]: the stored
    timestamp, or [now] itself when there is no row or no timestamp. *)
Definition get_last_processed_timestamp (now : Z) : py.M world Z :=
  cursor ;;;
  row <- execute_query tbl_heuristic_inference_state ;;
  match row with
  | Some r => match inference_state.last_processed_timestamp r with
              | Some ts => py.ret ts
              | None => py.ret now
              end
  | None => py.ret now
  end.

Definition update_state (last_ts : Z) (processed_count : Z) : py.M world unit :=
  cursor ;;;
  execute_update (fun d => set_heuristic_inference_state
                             (update_state_row last_ts processed_count (tbl_heuristic_inference_state d)) d).

(** [df['window_start'].max()], for a DataFrame that is not empty. *)
Definition max_window_start (df : list bgp_features_1min.row) : Z :=
  match df with
  | [] => 0
  | r :: df' => fold_left Z.max (map bgp_features_1min.window_start df') (bgp_features_1min.window_start r)
  end.

(** One turn of the loop of [main], at wall-clock time [now]. *)
Definition main_iteration (now : Z) : py.M world unit :=
  py.try_except
    (last_ts <- get_last_processed_timestamp now ;;
     df <- fetch_new_feature_rows last_ts ;;
     match df with
     | [] => py.ret tt
     | _ =>
         detection_count <- process_feature_rows df ;;
         let latest_window := max_window_start df in
         update_state latest_window (Z.of_nat (List.length df))
     end)
    (fun e => logger "ERROR" ("Error in processing loop: " ++ py.exn_msg e)).

End with_library.

End heuristic_detector.

(** ** services/ml_inference_service.py *)

Module ml_inference_service.

(** The configuration read from the environment when the module loads:
    [os.getenv("ENSEMBLE_METHOD", "avg")] and
    [float(os.getenv("ANOMALY_THRESHOLD", "3.0"))]. *)
Record config := {
  ENSEMBLE_METHOD : string;
  ANOMALY_THRESHOLD : float
}.

Definition default_config : config :=
  {| ENSEMBLE_METHOD := "avg"; ANOMALY_THRESHOLD := 3.0%float |}.

(** [baseline_stats] of [load_models_and_baseline]. *)
Record baseline := {
  mean : float;
  std : float
}.

Definition baseline_isolation_forest : baseline :=
  {| mean := (-0.14)%float; std := 0.012%float |}.

Definition baseline_lstm : baseline :=
  {| mean := 13.99%float; std := 2.68%float |}.

(** One entry of the result of [compute_z_score_ensemble]. *)
Record scores := {
  iso_raw : float;
  lstm_raw : float;
  z_iso : float;
  z_lstm : float;
  combined_score : float;
  combined_anomaly : bool;
  combined_severity : string
}.

(** [max(a, b)] of Python: [b] when [b > a], else [a]. *)
Definition py_max (a b : float) : float := if PrimFloat.ltb a b then b else a.

(** [(raw - mean) / std if std > 0 else 0.0]. *)
Definition z_score (raw : float) (b : baseline) : float :=
  if PrimFloat.ltb 0%float (std b) then ((raw - mean b) / std b)%float else 0.0%float.

Definition severity_of (combined : float) : string :=
  if PrimFloat.ltb combined 2.0%float then "low"
  else if PrimFloat.ltb combined 3.0%float then "low"
  else if PrimFloat.ltb combined 4.0%float then "medium"
  else if PrimFloat.ltb combined 5.0%float then "high"
  else "critical".

(** The body of the loop of [compute_z_score_ensemble], for the raw
    scores of one row. *)
Definition score_row (cfg : config) (iso lstm : float) : scores :=
  let zi := PrimFloat.opp (z_score iso baseline_isolation_forest) in
  let zl := z_score lstm baseline_lstm in
  let combined :=
    if String.eqb (ENSEMBLE_METHOD cfg) "max" then py_max zi zl
    else ((zi + zl) / 2.0)%float in
  {| iso_raw := iso;
     lstm_raw := lstm;
     z_iso := zi;
     z_lstm := zl;
     combined_score := combined;
     combined_anomaly := PrimFloat.leb (ANOMALY_THRESHOLD cfg) combined;
     combined_severity := severity_of combined |}.

(** The keys of the LSTM scores: [(str(prefix), int(origin_as),
    Timestamp(window_start))]. *)
Definition score_key : Type := string * Z * Z.

Definition score_key_eqb (a b : score_key) : bool :=
  match a, b with
  | (p1, o1, w1), (p2, o2, w2) => String.eqb p1 p2 && (o1 =? o2) && (w1 =? w2)
  end.

Fixpoint lookup_score (k : score_key) (d : list (score_key * float)) : option float :=
  match d with
  | [] => None
  | (k', v) :: d' => if score_key_eqb k k' then Some v else lookup_score k d'
  end.

(** The loop over [df.iterrows()], from index [i] on. *)
Fixpoint ensemble_from (cfg : config) (i : nat) (iso_scores : list float)
                       (lstm_scores_dict : list (score_key * float))
                       (df : list bgp_features_1min.row) : list scores :=
  match df with
  | [] => []
  | row :: df' =>
      let iso := nth i iso_scores 0.0%float in
      let key := (bgp_features_1min.prefix row, bgp_features_1min.origin_as row,
                  bgp_features_1min.window_start row) in
      let lstm := match lookup_score key lstm_scores_dict with
                  | Some v => v
                  | None => 0.0%float
                  end in
      score_row cfg iso lstm :: ensemble_from cfg (S i) iso_scores lstm_scores_dict df'
  end.

Definition compute_z_score_ensemble (cfg : config) (iso_scores : list float)
                                    (lstm_scores_dict : list (score_key * float))
                                    (df : list bgp_features_1min.row) : list scores :=
  ensemble_from cfg 0 iso_scores lstm_scores_dict df.

(** [generate_detection_id]: "ml_" and the first 16 hexadecimal digits
    of the SHA-256 of [window_start|prefix|origin_as]. *)
Definition generate_detection_id (L : py.lib) (window_start : Z) (prefix : string) (origin_as : Z)
  : string :=
  let key := py.isoformat L window_start ++ "|" ++ prefix ++ "|" ++ py.str_int origin_as in
  "ml_" ++ substring 0 16 (py.sha256_hexdigest L key).

Definition MODEL_VERSION : string := "v1.0".

Definition FEATURE_COLUMNS : list string :=
  [ "announcements"; "withdrawals"; "total_updates"; "withdrawal_ratio"; "flap_count";
    "path_length"; "unique_peers"; "message_rate"; "session_resets" ].

(** [int(prefix_str.split('/')[-1]) if '/' in prefix_str else 32]. *)
Definition prefix_length_of (L : py.lib) (prefix_str : string) : py.result Z :=
  if py.contains "/" prefix_str then
    match py.int_of_str L (last (py.split "/"%char prefix_str) "") with
    | Some n => py.Ok n
    | None => py.Raise (py.Exn "ValueError" "invalid literal for int() with base 10")
    end
  else py.Ok 32.

(** The detection written for a feature row and its scores. *)
Definition detection_of (L : py.lib) (cfg : config) (row : bgp_features_1min.row)
                        (score_row : scores) (prefix_length : Z)
  : hybrid_anomaly_detections.values :=
  {| hybrid_anomaly_detections.timestamp := bgp_features_1min.window_start row;
     hybrid_anomaly_detections.detection_id :=
       generate_detection_id L (bgp_features_1min.window_start row)
                             (bgp_features_1min.prefix row) (bgp_features_1min.origin_as row);
     hybrid_anomaly_detections.prefix := bgp_features_1min.prefix row;
     hybrid_anomaly_detections.prefix_length := Some prefix_length;
     hybrid_anomaly_detections.origin_as := bgp_features_1min.origin_as row;
     hybrid_anomaly_detections.event_type := "ml_anomaly";
     hybrid_anomaly_detections.message_type := "bgp_features_5min";
     hybrid_anomaly_detections.rpki_status := "unknown";
     hybrid_anomaly_detections.rpki_anomaly := false;
     hybrid_anomaly_detections.combined_anomaly := combined_anomaly score_row;
     hybrid_anomaly_detections.combined_score := combined_score score_row;
     hybrid_anomaly_detections.combined_severity := combined_severity score_row;
     hybrid_anomaly_detections.classification := "lstm_if_ensemble";
     hybrid_anomaly_detections.metadata :=
       py.JDict [ ("iso_score", py.JFloat (iso_raw score_row));
                  ("lstm_score", py.JFloat (lstm_raw score_row));
                  ("z_iso", py.JFloat (z_iso score_row));
                  ("z_lstm", py.JFloat (z_lstm score_row));
                  ("ensemble_method", py.JStr (ENSEMBLE_METHOD cfg));
                  ("model_version", py.JStr MODEL_VERSION);
                  ("feature_columns", py.JList (map py.JStr FEATURE_COLUMNS));
                  ("threshold", py.JFloat (ANOMALY_THRESHOLD cfg)) ] |}.

(** [ON CONFLICT (detection_id) DO UPDATE SET combined_score,
    combined_anomaly, combined_severity, metadata]. *)
Definition do_update (d : hybrid_anomaly_detections.values) (r : hybrid_anomaly_detections.row)
  : hybrid_anomaly_detections.row :=
  let c := hybrid_anomaly_detections.cols r in
  {| hybrid_anomaly_detections.id := hybrid_anomaly_detections.id r;
     hybrid_anomaly_detections.cols :=
       {| hybrid_anomaly_detections.timestamp := hybrid_anomaly_detections.timestamp c;
          hybrid_anomaly_detections.detection_id := hybrid_anomaly_detections.detection_id c;
          hybrid_anomaly_detections.prefix := hybrid_anomaly_detections.prefix c;
          hybrid_anomaly_detections.prefix_length := hybrid_anomaly_detections.prefix_length c;
          hybrid_anomaly_detections.origin_as := hybrid_anomaly_detections.origin_as c;
          hybrid_anomaly_detections.event_type := hybrid_anomaly_detections.event_type c;
          hybrid_anomaly_detections.message_type := hybrid_anomaly_detections.message_type c;
          hybrid_anomaly_detections.rpki_status := hybrid_anomaly_detections.rpki_status c;
          hybrid_anomaly_detections.rpki_anomaly := hybrid_anomaly_detections.rpki_anomaly c;
          hybrid_anomaly_detections.combined_anomaly := hybrid_anomaly_detections.combined_anomaly d;
          hybrid_anomaly_detections.combined_score := hybrid_anomaly_detections.combined_score d;
          hybrid_anomaly_detections.combined_severity := hybrid_anomaly_detections.combined_severity d;
          hybrid_anomaly_detections.classification := hybrid_anomaly_detections.classification c;
          hybrid_anomaly_detections.metadata := hybrid_anomaly_detections.metadata d |} |}.

Definition upsert (n : Z) (d : hybrid_anomaly_detections.values)
                  (t : list hybrid_anomaly_detections.row) : list hybrid_anomaly_detections.row :=
  if existsb (heuristic_detector.conflicts d) t
  then map (fun r => if heuristic_detector.conflicts d r then do_update d r else r) t
  else t ++ [ {| hybrid_anomaly_detections.id := n; hybrid_anomaly_detections.cols := d |} ].

Definition insert_or_update (d : hybrid_anomaly_detections.values) (db0 : store.database)
  : store.database :=
  let n := store.seq_hybrid_anomaly_detections db0 + 1 in
  store.set_detections (upsert n d (store.tbl_hybrid_anomaly_detections db0)) n db0.

Local Open Scope py_scope.

(** [cur.execute] of the INSERT, with [Json(metadata)] for its last
    parameter: the server rejects the statement when the metadata hold
    a float that is NaN or infinite, and the table stays as it is. *)
Definition execute_insert (d : hybrid_anomaly_detections.values)
  : py.M heuristic_detector.world unit :=
  if pg.json_accepted (hybrid_anomaly_detections.metadata d)
  then heuristic_detector.execute_insert (insert_or_update d)
  else heuristic_detector.execute_insert (fun db0 => db0) ;;;
       py.raise (py.Exn "InvalidTextRepresentation" "invalid input syntax for type json").

(** The body of the loop of [insert_hybrid_anomaly_detections], for the
    row of index [i].  The connection is a psycopg 3 connection in
    autocommit mode, as the heuristic detector's; the world is the
    same. *)
Definition insert_row (L : py.lib) (cfg : config) (scores_df : list scores)
                      (inserted : Z) (i_row : nat * bgp_features_1min.row)
  : py.M heuristic_detector.world Z :=
  let (i, row) := i_row in
  score_row <- py.lift (match nth_error scores_df i with
                        | Some s => py.Ok s
                        | None => py.Raise (py.Exn "IndexError"
                                                   "single positional indexer is out-of-bounds")
                        end) ;;
  let detection_id :=
    generate_detection_id L (bgp_features_1min.window_start row)
                          (bgp_features_1min.prefix row) (bgp_features_1min.origin_as row) in
  py.try_except
    (prefix_length <- py.lift (prefix_length_of L (bgp_features_1min.prefix row)) ;;
     execute_insert (detection_of L cfg row score_row prefix_length) ;;;
     py.ret (inserted + 1))
    (fun e =>
       heuristic_detector.logger "ERROR" ("Failed to insert detection for " ++ detection_id
                                          ++ ": " ++ py.exn_msg e) ;;;
       py.ret inserted).

(** [df.iterrows()]: the rows with their index. *)
Definition iterrows {A} (df : list A) : list (nat * A) := combine (seq 0 (List.length df)) df.

Definition insert_hybrid_anomaly_detections (L : py.lib) (cfg : config)
                                            (df : list bgp_features_1min.row)
                                            (scores_df : list scores)
  : py.M heuristic_detector.world Z :=
  heuristic_detector.cursor ;;;
  py.fold_for (iterrows df) 0 (insert_row L cfg scores_df).

End ml_inference_service.

(** ** services/rpki_validator_service.py *)

Module rpki_validator_service.

Import store.

Local Open Scope py_scope.

Definition ROUTINATOR_API_URL : string := "http://localhost:8323/api/v1/validity".
Definition POLL_INTERVAL : Z := 30.
Definition REQUEST_TIMEOUT : Z := 5.
Definition MAX_RETRIES : nat := 3.

(** What [requests.get] does: a response with its status and its body
    as JSON ([None] when the body is no JSON), a timeout, a failure to
    connect, or another exception. *)
Inductive http_outcome : Type :=
| Response (status_code : Z) (body : option py.json)
| Timeout
| ConnectionError
| RequestError (e : py.exn).

(** The world of the worker: the store behind a psycopg2 connection
    (what is committed, the view of the transaction in progress, and
    whether a statement of this transaction has failed: the server then
    refuses its statements until a rollback), the faults of the
    statements to come, the outcomes of the requests
    to come, the requests made (URL and timeout, latest first), the
    sleeps made, the clock and the log (warnings and errors, latest
    first). *)
Record world := {
  committed : database;
  session : database;
  txn_failed : bool;
  conn_open : bool;
  db_faults : list pg.fault;
  http : list http_outcome;
  requests : list (string * Z);
  sleeps : list Z;
  now : Z;
  log : list (string * string)
}.

Definition set_session (d : database) (w : world) : world :=
  {| committed := committed w; session := d; txn_failed := txn_failed w; conn_open := conn_open w;
     db_faults := db_faults w; http := http w; requests := requests w;
     sleeps := sleeps w; now := now w; log := log w |}.

Definition set_committed (d : database) (w : world) : world :=
  {| committed := d; session := session w; txn_failed := txn_failed w; conn_open := conn_open w;
     db_faults := db_faults w; http := http w; requests := requests w;
     sleeps := sleeps w; now := now w; log := log w |}.

Definition set_conn_open (b : bool) (w : world) : world :=
  {| committed := committed w; session := session w; txn_failed := txn_failed w; conn_open := b;
     db_faults := db_faults w; http := http w; requests := requests w;
     sleeps := sleeps w; now := now w; log := log w |}.

Definition set_db_faults (fs : list pg.fault) (w : world) : world :=
  {| committed := committed w; session := session w; txn_failed := txn_failed w; conn_open := conn_open w;
     db_faults := fs; http := http w; requests := requests w;
     sleeps := sleeps w; now := now w; log := log w |}.

Definition logger (level msg : string) : py.M world unit :=
  py.modify (fun w =>
    {| committed := committed w; session := session w; txn_failed := txn_failed w; conn_open := conn_open w;
       db_faults := db_faults w; http := http w; requests := requests w;
       sleeps := sleeps w; now := now w; log := (level, msg) :: log w |}).

(** [time.sleep(n)]: the clock moves on by [n] seconds. *)
Definition sleep (n : Z) : py.M world unit :=
  py.modify (fun w =>
    {| committed := committed w; session := session w; txn_failed := txn_failed w; conn_open := conn_open w;
       db_faults := db_faults w; http := http w; requests := requests w;
       sleeps := n :: sleeps w; now := now w + n * 1000000; log := log w |}).

(** [requests.get(url, timeout=timeout)]; a server that is not there
    refuses the connection. *)
Definition requests_get (url : string) (timeout : Z) : py.M world http_outcome :=
  fun w =>
    let o := match http w with [] => ConnectionError | o :: _ => o end in
    (py.Ok o,
     {| committed := committed w; session := session w; txn_failed := txn_failed w; conn_open := conn_open w;
        db_faults := db_faults w; http := tl (http w);
        requests := (url, timeout) :: requests w;
        sleeps := sleeps w; now := now w; log := log w |}).

Definition closed_error : py.exn := py.Exn "InterfaceError" "connection already closed".

(** [conn.cursor()]. *)
Definition cursor : py.M world unit :=
  fun w => if conn_open w then (py.Ok tt, w) else (py.Raise closed_error, w).

(** How psycopg2 binds parameters.  [cur.execute(sql, vars)] with
    [vars] formats the statement on the client, and raises when the
    count of the parameters is not the count of its [%s] placeholders.
    [cur.execute(sql)] sends the text as it is: the server rejects a
    text that still holds a placeholder.  [nargs] is the count of the
    parameters passed, [None] when none is passed at all. *)
Definition bind_parameters (holes : nat) (nargs : option nat) : py.result bool :=
  match nargs with
  | Some n =>
      if Nat.eqb n holes then py.Ok true
      else if Nat.ltb n holes then py.Raise (py.Exn "IndexError" "tuple index out of range")
      else py.Raise (py.Exn "TypeError" "not all arguments converted during string formatting")
  | None => py.Ok (Nat.eqb holes 0)
  end.

Definition set_txn_failed (b : bool) (w : world) : world :=
  {| committed := committed w; session := session w; txn_failed := b; conn_open := conn_open w;
     db_faults := db_faults w; http := http w; requests := requests w;
     sleeps := sleeps w; now := now w; log := log w |}.

(** The statement reaches the server: the connection may be lost; a
    transaction that has failed refuses the statement; the statement
    may fail; a placeholder left unbound is a syntax error.  A failure
    of the statement marks the transaction. *)
Definition send (bound : bool) : py.M world unit :=
  fun w =>
    if negb (conn_open w) then (py.Raise closed_error, w)
    else
      let (f, rest) := pg.next_fault (db_faults w) in
      let w1 := set_db_faults rest w in
      match f with
      | pg.ConnectionLost m => (py.Raise (py.Exn "OperationalError" m), set_conn_open false w1)
      | pg.StatementError m =>
          if txn_failed w1
          then (py.Raise (py.Exn "InFailedSqlTransaction" "current transaction is aborted"), w1)
          else (py.Raise (py.Exn "DatabaseError" m), set_txn_failed true w1)
      | pg.NoFault =>
          if txn_failed w1
          then (py.Raise (py.Exn "InFailedSqlTransaction" "current transaction is aborted"), w1)
          else if bound then (py.Ok tt, w1)
          else (py.Raise (py.Exn "SyntaxError" "syntax error at or near %"), set_txn_failed true w1)
      end.

(** [cur.execute] of a statement of [holes] placeholders with [nargs]
    parameters; [q] is what the statement reads once its parameters are
    bound. *)
Definition execute_query {A} (holes : nat) (nargs : option nat) (q : database -> A) : py.M world A :=
  bound <- py.lift (bind_parameters holes nargs) ;;
  send bound ;;;
  w <- py.get ;;
  py.ret (q (session w)).

(** The same for a statement that writes: [u] is its effect once its
    parameters are bound. *)
Definition execute_update (holes : nat) (nargs : option nat) (u : database -> database)
  : py.M world unit :=
  bound <- py.lift (bind_parameters holes nargs) ;;
  send bound ;;;
  py.modify (fun w => set_session (u (session w)) w).

(** [conn.commit()]: the COMMIT of a failed transaction rolls it back. *)
Definition commit : py.M world unit :=
  fun w =>
    if conn_open w
    then if txn_failed w
         then (py.Ok tt, set_txn_failed false (set_session (committed w) w))
         else (py.Ok tt, set_committed (session w) w)
    else (py.Raise closed_error, w).

Definition rollback : py.M world unit :=
  fun w =>
    if conn_open w
    then (py.Ok tt, set_txn_failed false (set_session (committed w) w))
    else (py.Raise closed_error, w).

Definition one_hour : Z := 3600 * 1000000.

Definition get_last_processed_timestamp : py.M world Z :=
  py.try_except
    (cursor ;;;
     result <- execute_query 0 None tbl_rpki_inference_state ;;
     w <- py.get ;;
     match result with
     | Some r => match inference_state.last_processed_timestamp r with
                 | Some ts => py.ret ts
                 | None => py.ret (now w - one_hour)
                 end
     | None => py.ret (now w - one_hour)
     end)
    (fun e =>
       logger "ERROR" ("Error getting last processed timestamp: " ++ py.exn_msg e) ;;;
       w <- py.get ;;
       py.ret (now w - one_hour)).

(** The SELECT of [fetch_new_features]: [ORDER BY window_start ASC]. *)
Definition new_features_query (last_processed_timestamp : Z) (d : database)
  : list bgp_features_1min.row :=
  py.sort_by (fun a b => bgp_features_1min.window_start a <=? bgp_features_1min.window_start b)
             (filter (fun r => last_processed_timestamp <? bgp_features_1min.window_start r)
                     (tbl_bgp_features_1min d)).

Definition fetch_new_features (last_processed_timestamp : Z)
  : py.M world (list bgp_features_1min.row) :=
  py.try_except
    (cursor ;;;
     execute_query 1 (Some 1%nat) (new_features_query last_processed_timestamp))
    (fun e =>
       logger "ERROR" ("Error fetching new features: " ++ py.exn_msg e) ;;;
       py.ret []).

(** [update_state]: the UPDATE has two placeholders, and [cur.execute]
    is called with the statement alone. *)
Definition update_state (last_timestamp : Z) (processed_count : Z) : py.M world unit :=
  py.try_except
    (cursor ;;;
     execute_update 2 None
       (fun d => set_rpki_inference_state
                   (update_state_row last_timestamp processed_count (tbl_rpki_inference_state d)) d) ;;;
     commit)
    (fun e =>
       logger "ERROR" ("Error updating state: " ++ py.exn_msg e) ;;;
       rollback).

(** The result of [validate_rpki] when it reports a detection. *)
Record rpki_result := {
  validity_state : string;
  severity : string;
  description : string;
  vrps : py.json
}.

Definition get_severity_score (severity : string) : Z :=
  let s := py.lower severity in
  if String.eqb s "critical" then 10
  else if String.eqb s "high" then 7
  else if String.eqb s "medium" then 5
  else if String.eqb s "low" then 2
  else 5.

(** The loops that collect [roa_origins] from one list of VRPs. *)
Fixpoint collect_roa_origins (origin_as : Z) (vrp_list : list py.json) : py.result (list py.json) :=
  match vrp_list with
  | [] => py.Ok []
  | vrp :: rest =>
      roa_origin <-- py.dict_get vrp "asn" py.JNull ;;
      tail <-- collect_roa_origins origin_as rest ;;
      py.Ok (if py.truthy roa_origin && negb (py.eq_int roa_origin origin_as)
             then roa_origin :: tail else tail)
  end.

(** The loop over the matched VRPs: the first [max_length] that the
    prefix length exceeds. *)
Fixpoint first_maxlength_violation (prefix_length : Z) (matched_vrps : list py.json)
  : py.result (option py.json) :=
  match matched_vrps with
  | [] => py.Ok None
  | vrp :: rest =>
      max_length <-- py.dict_get vrp "max_length" py.JNull ;;
      if py.truthy max_length then
        exceeds <-- py.int_gt prefix_length max_length ;;
        if exceeds then py.Ok (Some max_length)
        else first_maxlength_violation prefix_length rest
      else first_maxlength_violation prefix_length rest
  end.

(** What [validate_rpki] makes of a response: no detection, a
    detection, or a state it does not know. *)
Inductive verdict : Type :=
| NoDetection
| Detection (r : rpki_result)
| UnexpectedState (state : py.json).

Section with_library.

Variable L : py.lib.

Definition get_prefix_length (prefix_str : string) : option Z :=
  match nth_error (py.split "/"%char prefix_str) 1 with
  | Some n => py.int_of_str L n
  | None => None
  end.

(** The branch [elif state == 'invalid'] of [validate_rpki]. *)
Definition assess_invalid (origin_as prefix_length : Z) (validity vrps : py.json)
  : py.result verdict :=
  reason_v <-- py.dict_get validity "reason" (py.JStr "") ;;
  reason_lower <-- py.str_lower reason_v ;;
  let reason := match reason_v with py.JStr r => r | _ => "" end in
  hijack <--
    (if py.contains "as" reason_lower || py.contains "origin" reason_lower then
       matched_vrps <-- py.dict_get vrps "matched" (py.JList []) ;;
       unmatched_vrps <-- py.dict_get vrps "unmatched" (py.JList []) ;;
       matched_list <-- py.iterate matched_vrps ;;
       from_matched <-- collect_roa_origins origin_as matched_list ;;
       unmatched_list <-- py.iterate unmatched_vrps ;;
       from_unmatched <-- collect_roa_origins origin_as unmatched_list ;;
       py.Ok (hd_error (from_matched ++ from_unmatched)%list)
     else py.Ok None) ;;
  match hijack with
  | Some roa_origin =>
      py.Ok (Detection
               {| validity_state := "invalid"; severity := "critical";
                  description := "Origin AS mismatch: announced AS" ++ py.str_int origin_as
                                 ++ ", ROA expects AS" ++ py.str_json L roa_origin
                                 ++ " - HIJACK SIGNAL";
                  vrps := vrps |})
  | None =>
      violation <--
        (if py.contains "length" reason_lower || py.contains "max" reason_lower then
           matched_vrps <-- py.dict_get vrps "matched" (py.JList []) ;;
           matched_list <-- py.iterate matched_vrps ;;
           first_maxlength_violation prefix_length matched_list
         else py.Ok None) ;;
      match violation with
      | Some max_length =>
          py.Ok (Detection
                   {| validity_state := "invalid"; severity := "high";
                      description := "MaxLength violation: prefix /" ++ py.str_int prefix_length
                                     ++ " exceeds max_length /" ++ py.str_json L max_length
                                     ++ " - LEAK/CONFIG ERROR";
                      vrps := vrps |})
      | None =>
          py.Ok (Detection
                   {| validity_state := "invalid"; severity := "high";
                      description := "RPKI invalid: " ++ reason;
                      vrps := vrps |})
      end
  end.

(** The part of [validate_rpki] under "Parse Routinator response" and
    "Document Logic Implementation". *)
Definition assess_response (prefix : string) (origin_as prefix_length : Z)
                           (api_response : py.json) : py.result verdict :=
  validated_route <-- py.dict_get api_response "validated_route" (py.JDict []) ;;
  validity <-- py.dict_get validated_route "validity" (py.JDict []) ;;
  state <-- py.dict_get validity "state" (py.JStr "unknown") ;;
  vrps <-- py.dict_get validated_route "vrps" (py.JDict []) ;;
  if py.eq_str state "valid" then py.Ok NoDetection
  else if py.eq_str state "invalid" then assess_invalid origin_as prefix_length validity vrps
  else if py.eq_str state "not-found" || py.eq_str state "unknown" then
    py.Ok (Detection
             {| validity_state := "unknown"; severity := "low";
                description := "No ROA found for prefix " ++ prefix ++ " origin AS"
                               ++ py.str_int origin_as ++ " - INFORMATIONAL";
                vrps := vrps |})
  else py.Ok (UnexpectedState state).

(** The loop [for attempt in range(MAX_RETRIES)] of
    [query_routinator_api]; Python's [None] is [JNull]. *)
Fixpoint attempts (url prefix : string) (asn : Z) (range : list nat) : py.M world py.json :=
  match range with
  | [] => py.ret py.JNull
  | attempt :: range' =>
      outcome <- requests_get url REQUEST_TIMEOUT ;;
      match outcome with
      | Response status_code body =>
          if status_code =? 200 then
            match body with
            | Some j => py.ret j
            | None => py.raise (py.Exn "JSONDecodeError" "Expecting value")
            end
          else if status_code =? 503 then
            logger "WARNING" ("Routinator initializing, waiting... (attempt "
                              ++ py.str_int (Z.of_nat (attempt + 1)) ++ "/"
                              ++ py.str_int (Z.of_nat MAX_RETRIES) ++ ")") ;;;
            sleep 5 ;;;
            attempts url prefix asn range'
          else
            logger "WARNING" ("Routinator API returned status " ++ py.str_int status_code
                              ++ " for " ++ prefix ++ " AS" ++ py.str_int asn) ;;;
            py.ret py.JNull
      | Timeout =>
          logger "WARNING" ("Routinator API timeout (attempt "
                            ++ py.str_int (Z.of_nat (attempt + 1)) ++ "/"
                            ++ py.str_int (Z.of_nat MAX_RETRIES) ++ ")") ;;;
          (if Nat.ltb attempt (MAX_RETRIES - 1) then sleep 2 else py.ret tt) ;;;
          attempts url prefix asn range'
      | ConnectionError =>
          logger "ERROR" ("Cannot connect to Routinator API at " ++ ROUTINATOR_API_URL) ;;;
          py.ret py.JNull
      | RequestError e => py.raise e
      end
  end.

Definition query_routinator_api (asn : Z) (prefix : string) : py.M world py.json :=
  py.try_except
    (match py.ip_network L false prefix with
     | None => py.raise (py.Exn "ValueError" (prefix ++ " does not appear to be an IPv4 or IPv6 network"))
     | Some network =>
         let ip_addr := py.str_address L network in
         let prefix_length := py.prefixlen network in
         let url := ROUTINATOR_API_URL ++ "/" ++ py.str_int asn ++ "/" ++ ip_addr ++ "/"
                    ++ py.str_int prefix_length in
         attempts url prefix asn (seq 0 MAX_RETRIES)
     end)
    (fun e =>
       logger "ERROR" ("Error querying Routinator API: " ++ py.exn_msg e) ;;;
       py.ret py.JNull).

(** [validate_rpki]: [None] when there is nothing to report. *)
Definition validate_rpki (row : bgp_features_1min.row) : py.M world (option rpki_result) :=
  let prefix := bgp_features_1min.prefix row in
  let origin_as := bgp_features_1min.origin_as row in
  py.try_except
    (match get_prefix_length prefix with
     | None =>
         logger "WARNING" ("Invalid prefix format: " ++ prefix) ;;;
         py.ret None
     | Some prefix_length =>
         api_response <- query_routinator_api origin_as prefix ;;
         match api_response with
         | py.JNull => py.ret None
         | _ =>
             v <- py.lift (assess_response prefix origin_as prefix_length api_response) ;;
             match v with
             | NoDetection => py.ret None
             | Detection r => py.ret (Some r)
             | UnexpectedState state =>
                 logger "WARNING" ("Unexpected RPKI state: " ++ py.str_json L state ++ " for "
                                   ++ prefix ++ " AS" ++ py.str_int origin_as) ;;;
                 py.ret None
             end
         end
     end)
    (fun e =>
       logger "ERROR" ("Error validating RPKI for " ++ prefix ++ " AS" ++ py.str_int origin_as
                       ++ ": " ++ py.exn_msg e) ;;;
       py.ret None).

(** The INSERT of [insert_rpki_detection]: [ON CONFLICT (detection_id)
    DO NOTHING]. *)
Definition insert_or_nothing (d : hybrid_anomaly_detections.values) (db0 : database) : database :=
  let t := tbl_hybrid_anomaly_detections db0 in
  let n := seq_hybrid_anomaly_detections db0 + 1 in
  if existsb (fun r => String.eqb (hybrid_anomaly_detections.detection_id (hybrid_anomaly_detections.cols r))
                                   (hybrid_anomaly_detections.detection_id d)) t
  then set_detections t n db0
  else set_detections (t ++ [ {| hybrid_anomaly_detections.id := n;
                                 hybrid_anomaly_detections.cols := d |} ]) n db0.

Definition detection_of (validation_time : Z) (row : bgp_features_1min.row) (r : rpki_result)
  : hybrid_anomaly_detections.values :=
  {| hybrid_anomaly_detections.timestamp := bgp_features_1min.window_start row;
     hybrid_anomaly_detections.detection_id :=
       "rpki_" ++ py.strftime_compact L (bgp_features_1min.window_start row) ++ "_"
       ++ bgp_features_1min.prefix row ++ "_" ++ py.str_int (bgp_features_1min.origin_as row);
     hybrid_anomaly_detections.prefix := bgp_features_1min.prefix row;
     hybrid_anomaly_detections.prefix_length := get_prefix_length (bgp_features_1min.prefix row);
     hybrid_anomaly_detections.origin_as := bgp_features_1min.origin_as row;
     hybrid_anomaly_detections.event_type := "rpki";
     hybrid_anomaly_detections.message_type := "rpki_validation";
     hybrid_anomaly_detections.rpki_status := validity_state r;
     hybrid_anomaly_detections.rpki_anomaly :=
       String.eqb (validity_state r) "invalid" || String.eqb (validity_state r) "unknown";
     hybrid_anomaly_detections.combined_anomaly := true;
     hybrid_anomaly_detections.combined_score := py.float_of_Z (get_severity_score (severity r));
     hybrid_anomaly_detections.combined_severity := severity r;
     hybrid_anomaly_detections.classification := "UNKNOWN";
     hybrid_anomaly_detections.metadata :=
       py.JDict [ ("vrps", vrps r);
                  ("validation_time", py.JStr (py.isoformat L validation_time));
                  ("announcements", py.JInt (bgp_features_1min.announcements row));
                  ("withdrawals", py.JInt (bgp_features_1min.withdrawals row));
                  ("unique_peers", py.JInt (bgp_features_1min.unique_peers row));
                  ("rpki_description", py.JStr (description r)) ] |}.

Definition insert_rpki_detection (row : bgp_features_1min.row) (r : rpki_result) : py.M world unit :=
  py.try_except
    (cursor ;;;
     w <- py.get ;;
     execute_update 18 (Some 18%nat) (insert_or_nothing (detection_of (now w) row r)) ;;;
     commit)
    (fun e =>
       logger "ERROR" ("Error inserting RPKI detection: " ++ py.exn_msg e) ;;;
       rollback).

(** The body of the loop of [process_feature_rows]. *)
Definition process_row (detection_count : Z) (row : bgp_features_1min.row) : py.M world Z :=
  py.try_except
    (rpki_result <- validate_rpki row ;;
     match rpki_result with
     | Some r =>
         insert_rpki_detection row r ;;;
         py.ret (detection_count + 1)
     | None => py.ret detection_count
     end)
    (fun e =>
       logger "ERROR" ("Error processing row: " ++ py.exn_msg e) ;;;
       py.ret detection_count).

Definition process_feature_rows (df : list bgp_features_1min.row) : py.M world Z :=
  py.fold_for df 0 process_row.

(** [df['window_start'].max()], for a DataFrame that is not empty. *)
Definition max_window_start (df : list bgp_features_1min.row) : Z :=
  match df with
  | [] => 0
  | r :: df' => fold_left Z.max (map bgp_features_1min.window_start df') (bgp_features_1min.window_start r)
  end.

(** One turn of the loop of [main]. *)
Definition main_iteration : py.M world unit :=
  last_processed <- get_last_processed_timestamp ;;
  df <- fetch_new_features last_processed ;;
  match df with
  | [] => py.ret tt
  | _ =>
      detection_count <- process_feature_rows df ;;
      let last_timestamp := max_window_start df in
      update_state last_timestamp (Z.of_nat (List.length df))
  end.

End with_library.

End rpki_validator_service.

(** ** services/correlation_engine.py *)

Module correlation_engine.

Local Open Scope py_scope.

(** TIME_WINDOW = 60 seconds. *)
Definition TIME_WINDOW : Z := 60 * 1000000.

Definition severity_order (x : string) : Z :=
  if String.eqb x "low" then 1
  else if String.eqb x "medium" then 2
  else if String.eqb x "high" then 3
  else if String.eqb x "critical" then 4
  else 0.

(** [[k for k, v in severity_order.items() if v == max_severity][0]]. *)
Definition severity_label (max_severity : Z) : py.result string :=
  if max_severity =? 1 then py.Ok "low"
  else if max_severity =? 2 then py.Ok "medium"
  else if max_severity =? 3 then py.Ok "high"
  else if max_severity =? 4 then py.Ok "critical"
  else py.Raise (py.Exn "IndexError" "list index out of range").

(** The distinct values of a list, each at its first occurrence
    ([Series.unique()]). *)
Fixpoint unique (l : list string) : list string :=
  match l with
  | [] => []
  | x :: l' => x :: filter (fun y => negb (String.eqb x y)) (unique l')
  end.

Definition event_type_is (t : string) (r : hybrid_anomaly_detections.row) : bool :=
  String.eqb (hybrid_anomaly_detections.event_type (hybrid_anomaly_detections.cols r)) t.

Definition metadata_of (r : hybrid_anomaly_detections.row) : py.json :=
  hybrid_anomaly_detections.metadata (hybrid_anomaly_detections.cols r).

(** The loop over the invalid RPKI rows: the two flags
    [(has_rpki_origin_mismatch, has_rpki_maxlength)]. *)
Fixpoint scan_rpki_invalid (rows : list hybrid_anomaly_detections.row) (flags : bool * bool)
  : py.result (bool * bool) :=
  match rows with
  | [] => py.Ok flags
  | row :: rows' =>
      match metadata_of row with
      | py.JDict _ =>
          d <-- py.dict_get (metadata_of row) "rpki_description" (py.JStr "") ;;
          desc <-- py.str_lower d ;;
          let mismatch := py.contains "origin as mismatch" desc || py.contains "hijack" desc in
          let maxlength := py.contains "maxlength" desc || py.contains "leak" desc in
          scan_rpki_invalid rows' (fst flags || mismatch, snd flags || maxlength)
      | _ => scan_rpki_invalid rows' flags
      end
  end.

(** The loop over the heuristic rows: the flag [has_path_inflation]. *)
Fixpoint scan_heuristic (rows : list hybrid_anomaly_detections.row) (flag : bool) : py.result bool :=
  match rows with
  | [] => py.Ok flag
  | row :: rows' =>
      match metadata_of row with
      | py.JDict _ =>
          rules <-- py.dict_get (metadata_of row) "triggered_rules" (py.JList []) ;;
          found <-- py.str_in "path_inflation" rules ;;
          scan_heuristic rows' (flag || found)
      | _ => scan_heuristic rows' flag
      end
  end.

(** [max(xs)] over integers, from a first value on. *)
Definition max_from (x : Z) (l : list Z) : Z := fold_left Z.max l x.

(** [classify_detection_group]: [(classification, final_severity,
    source_count, reasoning)]. *)
Definition classify_detection_group (detections_df : list hybrid_anomaly_detections.row)
  : py.result (string * string * Z * string) :=
  let event_types :=
    unique (map (fun r => hybrid_anomaly_detections.event_type (hybrid_anomaly_detections.cols r))
                detections_df) in
  let source_count := Z.of_nat (List.length event_types) in
  let rpki_detections := filter (event_type_is "rpki") detections_df in
  let rpki_invalid :=
    filter (fun r => String.eqb (hybrid_anomaly_detections.rpki_status (hybrid_anomaly_detections.cols r))
                                "invalid") rpki_detections in
  let has_rpki_invalid := match rpki_invalid with [] => false | _ => true end in
  flags <-- scan_rpki_invalid rpki_invalid (false, false) ;;
  let has_rpki_origin_mismatch := fst flags in
  let has_rpki_maxlength := snd flags in
  let heuristic_detections := filter (event_type_is "heuristic") detections_df in
  let has_heuristic := match heuristic_detections with [] => false | _ => true end in
  has_path_inflation <-- scan_heuristic heuristic_detections false ;;
  max_severity <--
    match map (fun r => severity_order
                          (hybrid_anomaly_detections.combined_severity (hybrid_anomaly_detections.cols r)))
              detections_df with
    | [] => py.Raise (py.Exn "ValueError" "max() arg is an empty sequence")
    | x :: l => py.Ok (max_from x l)
    end ;;
  max_severity_label <-- severity_label max_severity ;;
  if has_rpki_origin_mismatch then
    py.Ok ("HIJACK", "critical", source_count, "RPKI Origin AS mismatch detected - hijack signal")
  else if has_rpki_maxlength && has_path_inflation then
    py.Ok ("LEAK", "critical", source_count, "RPKI MaxLength violation + Path inflation - route leak")
  else if has_rpki_maxlength then
    py.Ok ("LEAK", "high", source_count, "RPKI MaxLength violation - potential route leak")
  else if has_rpki_invalid && has_heuristic then
    py.Ok ("INVALID", "high", source_count, "RPKI invalid + Heuristic anomalies detected")
  else if has_rpki_invalid then
    py.Ok ("INVALID", "high", source_count, "RPKI validation failed")
  else if 4 <=? source_count then
    py.Ok ("SUSPICIOUS", "critical", source_count,
           "Severe systemic issue - " ++ py.str_int source_count ++ " detection sources")
  else if source_count =? 3 then
    py.Ok ("SUSPICIOUS", "high", source_count, "Broad evidence - 3 detection sources")
  else if source_count =? 2 then
    py.Ok ("SUSPICIOUS", "medium", source_count, "Stronger evidence - 2 detection sources")
  else if source_count =? 1 then
    if String.eqb max_severity_label "high" || String.eqb max_severity_label "critical" then
      py.Ok ("SUSPICIOUS", max_severity_label, source_count,
             "Single detector with " ++ max_severity_label ++ " severity")
    else
      py.Ok ("NORMAL", max_severity_label, source_count, "Single weak signal - informational")
  else
    py.Ok ("NORMAL", "low", source_count, "No significant anomaly").

(** The key of a correlation group: [(prefix, origin_as, time_window)],
    the window being the timestamp floored to TIME_WINDOW. *)
Definition time_window (timestamp : Z) : Z := TIME_WINDOW * (timestamp / TIME_WINDOW).

Definition group_key : Type := string * Z * Z.

Definition key_of (r : hybrid_anomaly_detections.row) : group_key :=
  let c := hybrid_anomaly_detections.cols r in
  (hybrid_anomaly_detections.prefix c, hybrid_anomaly_detections.origin_as c,
   time_window (hybrid_anomaly_detections.timestamp c)).

Definition key_eqb (a b : group_key) : bool :=
  match a, b with
  | (p1, o1, w1), (p2, o2, w2) => String.eqb p1 p2 && (o1 =? o2) && (w1 =? w2)
  end.

Fixpoint distinct_keys (l : list group_key) : list group_key :=
  match l with
  | [] => []
  | x :: l' => x :: filter (fun y => negb (key_eqb x y)) (distinct_keys l')
  end.

(** [df.groupby(['prefix', 'origin_as', 'time_window'])]. *)
Definition groupby (df : list hybrid_anomaly_detections.row)
  : list (group_key * list hybrid_anomaly_detections.row) :=
  map (fun k => (k, filter (fun r => key_eqb (key_of r) k) df)) (distinct_keys (map key_of df)).

(** One entry of [batch_updates], without the metadata. *)
Record batch_update := {
  classification : string;
  final_severity : string;
  source_count : Z;
  reasoning : string;
  detection_id : string
}.

(** The part of [correlate_detections] that fills [batch_updates]. *)
Fixpoint correlate_groups (groups : list (group_key * list hybrid_anomaly_detections.row))
  : py.result (list batch_update) :=
  match groups with
  | [] => py.Ok []
  | (_, group_df) :: groups' =>
      c <-- classify_detection_group group_df ;;
      rest <-- correlate_groups groups' ;;
      match c with
      | (cl, sev, n, why) =>
          py.Ok (map (fun row => {| classification := cl; final_severity := sev;
                                    source_count := n; reasoning := why;
                                    detection_id := hybrid_anomaly_detections.detection_id
                                                      (hybrid_anomaly_detections.cols row) |})
                     group_df ++ rest)%list
      end
  end.

Definition correlate_detections (df : list hybrid_anomaly_detections.row)
  : py.result (list batch_update) :=
  correlate_groups (groupby df).

(** The [metadata_update] of an entry of the batch: the correlation of
    the group, its window and the time of the correlation. *)
Definition metadata_update (L : py.lib) (u : batch_update) (time_window correlated_at : Z)
  : py.json :=
  py.JDict
    [ ("correlation",
       py.JDict [ ("source_count", py.JInt (source_count u));
                  ("classification", py.JStr (classification u));
                  ("final_severity", py.JStr (final_severity u));
                  ("reasoning", py.JStr (reasoning u));
                  ("time_window", py.JStr (py.isoformat L time_window));
                  ("correlated_at", py.JStr (py.isoformat L correlated_at)) ]) ].

(** What the UPDATE of [batch_update_detections] sets in a row: [SET
    classification = %s, combined_severity = %s, metadata = metadata ||
    %s::jsonb]. *)
Definition update_detection (classification final_severity : string) (metadata_update : py.json)
                            (r : hybrid_anomaly_detections.row) : hybrid_anomaly_detections.row :=
  let c := hybrid_anomaly_detections.cols r in
  {| hybrid_anomaly_detections.id := hybrid_anomaly_detections.id r;
     hybrid_anomaly_detections.cols :=
       {| hybrid_anomaly_detections.timestamp := hybrid_anomaly_detections.timestamp c;
          hybrid_anomaly_detections.detection_id := hybrid_anomaly_detections.detection_id c;
          hybrid_anomaly_detections.prefix := hybrid_anomaly_detections.prefix c;
          hybrid_anomaly_detections.prefix_length := hybrid_anomaly_detections.prefix_length c;
          hybrid_anomaly_detections.origin_as := hybrid_anomaly_detections.origin_as c;
          hybrid_anomaly_detections.event_type := hybrid_anomaly_detections.event_type c;
          hybrid_anomaly_detections.message_type := hybrid_anomaly_detections.message_type c;
          hybrid_anomaly_detections.rpki_status := hybrid_anomaly_detections.rpki_status c;
          hybrid_anomaly_detections.rpki_anomaly := hybrid_anomaly_detections.rpki_anomaly c;
          hybrid_anomaly_detections.combined_anomaly := hybrid_anomaly_detections.combined_anomaly c;
          hybrid_anomaly_detections.combined_score := hybrid_anomaly_detections.combined_score c;
          hybrid_anomaly_detections.combined_severity := final_severity;
          hybrid_anomaly_detections.classification := classification;
          hybrid_anomaly_detections.metadata :=
            pg.jsonb_concat (hybrid_anomaly_detections.metadata c) metadata_update |} |}.

(** One statement of the batch: [UPDATE hybrid_anomaly_detections SET
    ... WHERE detection_id = %s]. *)
Definition update_where_detection_id (u : batch_update) (metadata_update : py.json)
                                     (t : list hybrid_anomaly_detections.row)
  : list hybrid_anomaly_detections.row :=
  map (fun r =>
         if String.eqb (hybrid_anomaly_detections.detection_id (hybrid_anomaly_detections.cols r))
                       (detection_id u)
         then update_detection (classification u) (final_severity u) metadata_update r
         else r) t.

End correlation_engine.

(** ** Worked inputs *)

(** Concrete inputs for the worked examples of Part II.  The theorems
    hold for every library [py.lib]; a worked example needs one to run
    on, and [example.lib] is enough of one: decimal integers,
    dotted-quad IPv4 networks, and plain stand-ins for the digest and
    the formatters, on which no example depends. *)

Module example.

Definition digit (c : ascii) : option Z :=
  let n := nat_of_ascii c in
  if (Nat.leb 48 n && Nat.leb n 57)%bool then Some (Z.of_nat (n - 48)) else None.

Fixpoint digits (s : string) (acc : Z) : option Z :=
  match s with
  | EmptyString => Some acc
  | String c s' => match digit c with
                   | Some d => digits s' (10 * acc + d)
                   | None => None
                   end
  end.

Definition int_of_str (s : string) : option Z :=
  match s with
  | EmptyString => None
  | _ => digits s 0
  end.

Definition octets (s : string) : option Z :=
  match map int_of_str (py.split "."%char s) with
  | [Some a; Some b; Some c; Some d] =>
      if (a <? 256) && (b <? 256) && (c <? 256) && (d <? 256)
      then Some (((a * 256 + b) * 256 + c) * 256 + d)
      else None
  | _ => None
  end.

Definition ip_network (strict : bool) (s : string) : option py.ip_net :=
  match py.split "/"%char s with
  | [addr; len] =>
      match octets addr, int_of_str len with
      | Some a, Some n =>
          if n <=? 32 then
            let host := a mod 2 ^ (32 - n) in
            if strict && negb (host =? 0) then None
            else Some {| py.version := 4; py.network_address := a - host; py.prefixlen := n |}
          else None
      | _, _ => None
      end
  | _ => None
  end.

Definition str_address (n : py.ip_net) : string :=
  let a := py.network_address n in
  py.str_int (a / 16777216) ++ "." ++ py.str_int ((a / 65536) mod 256) ++ "."
  ++ py.str_int ((a / 256) mod 256) ++ "." ++ py.str_int (a mod 256).

Definition str_json (v : py.json) : string :=
  match v with
  | py.JStr s => s
  | py.JInt z => py.str_int z
  | _ => ""
  end.

Definition lib : py.lib :=
  {| py.sha256_hexdigest := fun s => s;
     py.ip_network := ip_network;
     py.str_address := str_address;
     py.format_f := fun _ _ => "";
     py.isoformat := py.str_int;
     py.strftime_compact := py.str_int;
     py.int_of_str := int_of_str;
     py.str_json := str_json;
     py.inet_leb := String.leb |}.

(** A feature row: one announcement of 8.8.8.0/24 by AS 15169 in the
    minute that starts at [window_start]. *)
Definition feature_row (id window_start : Z) : bgp_features_1min.row :=
  {| bgp_features_1min.id := id;
     bgp_features_1min.window_start := window_start;
     bgp_features_1min.window_end := window_start + 60000000;
     bgp_features_1min.prefix := "8.8.8.0/24";
     bgp_features_1min.origin_as := 15169;
     bgp_features_1min.announcements := 1;
     bgp_features_1min.withdrawals := 0;
     bgp_features_1min.total_updates := 1;
     bgp_features_1min.withdrawal_ratio := 0%float;
     bgp_features_1min.flap_count := 0;
     bgp_features_1min.path_length := Some 3%float;
     bgp_features_1min.unique_peers := 1;
     bgp_features_1min.message_rate := (1 / 60)%float;
     bgp_features_1min.session_resets := 0 |}.

(** A store with no row. *)
Definition empty_db : store.database :=
  {| store.tbl_ip_rib := [];
     store.tbl_base_attrs := [];
     store.tbl_bgp_features_1min := [];
     store.seq_bgp_features_1min := 0;
     store.tbl_hybrid_anomaly_detections := [];
     store.seq_hybrid_anomaly_detections := 0;
     store.tbl_feature_aggregator_state := None;
     store.tbl_heuristic_inference_state := None;
     store.tbl_rpki_inference_state := None |}.

(** A store with one raw update, a withdrawal received 90 seconds
    after the epoch, whose path attributes hold an AS path of length 3. *)
Definition rib_db : store.database :=
  {| store.tbl_ip_rib :=
       [ {| ip_rib.base_attr_hash_id := "attrs-1";
            ip_rib.peer_hash_id := "peer-1";
            ip_rib.origin_as := 64500;
            ip_rib.prefix := "203.0.113.0/24";
            ip_rib.timestamp := 90000000;
            ip_rib.iswithdrawn := true |} ];
     store.tbl_base_attrs :=
       [ {| base_attrs.hash_id := "attrs-1"; base_attrs.as_path_count := Some 3 |} ];
     store.tbl_bgp_features_1min := [];
     store.seq_bgp_features_1min := 0;
     store.tbl_hybrid_anomaly_detections := [];
     store.seq_hybrid_anomaly_detections := 0;
     store.tbl_feature_aggregator_state := Some (Some 0);
     store.tbl_heuristic_inference_state := None;
     store.tbl_rpki_inference_state := None |}.

(** A raw update of 203.0.113.0/24 by AS 64500, with the path
    attributes [attrs]. *)
Definition update (attrs : string) (timestamp : Z) (iswithdrawn : bool) : ip_rib.row :=
  {| ip_rib.base_attr_hash_id := attrs;
     ip_rib.peer_hash_id := "peer-1";
     ip_rib.origin_as := 64500;
     ip_rib.prefix := "203.0.113.0/24";
     ip_rib.timestamp := timestamp;
     ip_rib.iswithdrawn := iswithdrawn |}.

(** A store with a busy minute: in the second minute after the epoch,
    six announcements and four withdrawals of 203.0.113.0/24, seven of
    them with an AS path of length 1, two with one of length 2, and one
    whose path attributes hold no length; an update of another prefix in
    the same minute; and an update of 203.0.113.0/24 in the third
    minute. *)
Definition busy_minute_db : store.database :=
  {| store.tbl_ip_rib :=
       [ update "path-1" 61000000 false; update "path-1" 62000000 false;
         update "path-1" 63000000 false; update "path-1" 64000000 false;
         update "path-1" 65000000 false; update "path-2" 66000000 false;
         update "path-1" 70000000 true; update "path-1" 71000000 true;
         update "path-2" 72000000 true; update "no-path" 73000000 true;
         {| ip_rib.base_attr_hash_id := "path-2";
            ip_rib.peer_hash_id := "peer-2";
            ip_rib.origin_as := 64501;
            ip_rib.prefix := "198.51.100.0/24";
            ip_rib.timestamp := 80000000;
            ip_rib.iswithdrawn := false |};
         update "path-2" 130000000 false ];
     store.tbl_base_attrs :=
       [ {| base_attrs.hash_id := "path-1"; base_attrs.as_path_count := Some 1 |};
         {| base_attrs.hash_id := "path-2"; base_attrs.as_path_count := Some 2 |};
         {| base_attrs.hash_id := "no-path"; base_attrs.as_path_count := None |} ];
     store.tbl_bgp_features_1min := [];
     store.seq_bgp_features_1min := 0;
     store.tbl_hybrid_anomaly_detections := [];
     store.seq_hybrid_anomaly_detections := 0;
     store.tbl_feature_aggregator_state := Some (Some 0);
     store.tbl_heuristic_inference_state := None;
     store.tbl_rpki_inference_state := None |}.



(** The route-leak scenario: ten hours after a first window in which
    the path of 8.8.8.0/24 has length 3, the path has length 9; the
    validator knows a VRP of the origin up to /23. *)
Definition ten_hours : Z := 10 * 3600 * 1000000.

Definition inflated_row : bgp_features_1min.row :=
  {| bgp_features_1min.id := 2;
     bgp_features_1min.window_start := ten_hours;
     bgp_features_1min.window_end := ten_hours + 60000000;
     bgp_features_1min.prefix := "8.8.8.0/24";
     bgp_features_1min.origin_as := 15169;
     bgp_features_1min.announcements := 1;
     bgp_features_1min.withdrawals := 0;
     bgp_features_1min.total_updates := 1;
     bgp_features_1min.withdrawal_ratio := 0%float;
     bgp_features_1min.flap_count := 0;
     bgp_features_1min.path_length := Some 9%float;
     bgp_features_1min.unique_peers := 1;
     bgp_features_1min.message_rate := (1 / 60)%float;
     bgp_features_1min.session_resets := 0 |}.

Definition leak_db : store.database :=
  {| store.tbl_ip_rib := [];
     store.tbl_base_attrs := [];
     store.tbl_bgp_features_1min := [ feature_row 1 0; inflated_row ];
     store.seq_bgp_features_1min := 2;
     store.tbl_hybrid_anomaly_detections := [];
     store.seq_hybrid_anomaly_detections := 0;
     store.tbl_feature_aggregator_state := Some (Some ten_hours);
     store.tbl_heuristic_inference_state :=
       Some {| inference_state.last_processed_timestamp := Some 0;
               inference_state.total_processed := 1 |};
     store.tbl_rpki_inference_state :=
       Some {| inference_state.last_processed_timestamp := Some 0;
               inference_state.total_processed := 1 |} |}.

Definition response_invalid_length : py.json :=
  py.JDict
    [ ("validated_route",
       py.JDict
         [ ("validity", py.JDict [ ("state", py.JStr "invalid"); ("reason", py.JStr "length") ]);
           ("vrps",
            py.JDict
              [ ("matched",
                 py.JList [ py.JDict [ ("asn", py.JInt 15169);
                                        ("prefix", py.JStr "8.8.0.0/16");
                                        ("max_length", py.JInt 23) ] ]);
                ("unmatched", py.JList []) ]) ]) ].

(** The heuristic detector scores the row of the scenario. *)
Definition heuristic_run : py.result Z * heuristic_detector.world :=
  heuristic_detector.process_feature_rows lib [ inflated_row ]
    {| heuristic_detector.db := leak_db;
       heuristic_detector.conn_open := true;
       heuristic_detector.insert_faults := [];
       heuristic_detector.query_faults := [];
       heuristic_detector.log := [] |}.

(** The RPKI detector validates it, on the store the heuristic detector
    leaves. *)
Definition rpki_run : py.result Z * rpki_validator_service.world :=
  rpki_validator_service.process_feature_rows lib [ inflated_row ]
    {| rpki_validator_service.committed := heuristic_detector.db (snd heuristic_run);
       rpki_validator_service.session := heuristic_detector.db (snd heuristic_run);
       rpki_validator_service.txn_failed := false;
       rpki_validator_service.conn_open := true;
       rpki_validator_service.db_faults := [];
       rpki_validator_service.http :=
         [ rpki_validator_service.Response 200 (Some response_invalid_length) ];
       rpki_validator_service.requests := [];
       rpki_validator_service.sleeps := [];
       rpki_validator_service.now := ten_hours + 90000000;
       rpki_validator_service.log := [] |}.

(** The detections of the scenario, as the correlation engine fetches
    them. *)
Definition leak_detections : list hybrid_anomaly_detections.row :=
  store.tbl_hybrid_anomaly_detections (rpki_validator_service.committed (snd rpki_run)).

(** The environment [ENSEMBLE_METHOD=median]: neither "avg" nor "max". *)
Definition median_config : ml_inference_service.config :=
  {| ml_inference_service.ENSEMBLE_METHOD := "median";
     ml_inference_service.ANOMALY_THRESHOLD := 3.0%float |}.

(** A feature row whose origin is the private AS 64512, in the minute
    that starts at [window_start]: the rule [bogon_asn] fires on it. *)
Definition bogon_row (id window_start : Z) : bgp_features_1min.row :=
  {| bgp_features_1min.id := id;
     bgp_features_1min.window_start := window_start;
     bgp_features_1min.window_end := window_start + 60000000;
     bgp_features_1min.prefix := "8.8.8.0/24";
     bgp_features_1min.origin_as := 64512;
     bgp_features_1min.announcements := 1;
     bgp_features_1min.withdrawals := 0;
     bgp_features_1min.total_updates := 1;
     bgp_features_1min.withdrawal_ratio := 0%float;
     bgp_features_1min.flap_count := 0;
     bgp_features_1min.path_length := Some 3%float;
     bgp_features_1min.unique_peers := 1;
     bgp_features_1min.message_rate := (1 / 60)%float;
     bgp_features_1min.session_resets := 0 |}.

Definition one_hour : Z := 3600 * 1000000.

Definition one_day : Z := 24 * one_hour.

(** The time of the polls of the scenarios below. *)
Definition poll_time : Z := 3 * one_day.

(** Two such rows, two hours and one hour before [poll_time], not yet
    seen by the heuristic detector, whose state row stands a day before
    [poll_time]. *)
Definition bogon_db : store.database :=
  {| store.tbl_ip_rib := [];
     store.tbl_base_attrs := [];
     store.tbl_bgp_features_1min :=
       [ bogon_row 1 (poll_time - 2 * one_hour); bogon_row 2 (poll_time - one_hour) ];
     store.seq_bgp_features_1min := 2;
     store.tbl_hybrid_anomaly_detections := [];
     store.seq_hybrid_anomaly_detections := 0;
     store.tbl_feature_aggregator_state := Some (Some poll_time);
     store.tbl_heuristic_inference_state :=
       Some {| inference_state.last_processed_timestamp := Some (poll_time - one_day);
               inference_state.total_processed := 0 |};
     store.tbl_rpki_inference_state := None |}.

(** The heuristic detector connected to [bogon_db], with the faults
    [faults] ahead of its INSERTs. *)
Definition bogon_world (faults : list pg.fault) : heuristic_detector.world :=
  {| heuristic_detector.db := bogon_db;
     heuristic_detector.conn_open := true;
     heuristic_detector.insert_faults := faults;
     heuristic_detector.query_faults := [];
     heuristic_detector.log := [] |}.

(** The detector has polled [bogon_db] once, and its state row is then
    deleted. *)
Definition restarted_world : heuristic_detector.world :=
  let w := snd (heuristic_detector.main_iteration lib (poll_time - one_hour / 2) (bogon_world [])) in
  heuristic_detector.set_log []
    (heuristic_detector.set_db
       (store.set_heuristic_inference_state None (heuristic_detector.db w)) w).

(** A detection of the heuristic detector, cut down to what the table
    keys on. *)
Definition sample_detection : hybrid_anomaly_detections.values :=
  {| hybrid_anomaly_detections.timestamp := poll_time;
     hybrid_anomaly_detections.detection_id := "heur_0123456789abcdef0123456789abcdef";
     hybrid_anomaly_detections.prefix := "8.8.8.0/24";
     hybrid_anomaly_detections.prefix_length := Some 24;
     hybrid_anomaly_detections.origin_as := 64512;
     hybrid_anomaly_detections.event_type := "heuristic";
     hybrid_anomaly_detections.message_type := "bgp_features_1min";
     hybrid_anomaly_detections.rpki_status := "unknown";
     hybrid_anomaly_detections.rpki_anomaly := false;
     hybrid_anomaly_detections.combined_anomaly := true;
     hybrid_anomaly_detections.combined_score := 0.95%float;
     hybrid_anomaly_detections.combined_severity := "critical";
     hybrid_anomaly_detections.classification := "bogon_asn";
     hybrid_anomaly_detections.metadata := py.JDict [] |}.

(** A feature row whose prefix is a bare address. *)
Definition bare_address_row : bgp_features_1min.row :=
  {| bgp_features_1min.id := 3;
     bgp_features_1min.window_start := poll_time;
     bgp_features_1min.window_end := poll_time + 60000000;
     bgp_features_1min.prefix := "8.8.8.8";
     bgp_features_1min.origin_as := 15169;
     bgp_features_1min.announcements := 1;
     bgp_features_1min.withdrawals := 0;
     bgp_features_1min.total_updates := 1;
     bgp_features_1min.withdrawal_ratio := 0%float;
     bgp_features_1min.flap_count := 0;
     bgp_features_1min.path_length := Some 3%float;
     bgp_features_1min.unique_peers := 1;
     bgp_features_1min.message_rate := (1 / 60)%float;
     bgp_features_1min.session_resets := 0 |}.

(** The RPKI detector connected to [bogon_db], with the answers
    [answers] of the validator ahead. *)
Definition rpki_world (answers : list rpki_validator_service.http_outcome)
  : rpki_validator_service.world :=
  {| rpki_validator_service.committed := bogon_db;
     rpki_validator_service.session := bogon_db;
     rpki_validator_service.txn_failed := false;
     rpki_validator_service.conn_open := true;
     rpki_validator_service.db_faults := [];
     rpki_validator_service.http := answers;
     rpki_validator_service.requests := [];
     rpki_validator_service.sleeps := [];
     rpki_validator_service.now := poll_time;
     rpki_validator_service.log := [] |}.

(** A detection of 8.8.8.0/24 AS15169 in the minute of [poll_time],
    as a detector of type [event_type] writes it. *)
Definition detection_row (id : Z) (event_type severity rpki_status : string) (metadata : py.json)
  : hybrid_anomaly_detections.row :=
  {| hybrid_anomaly_detections.id := id;
     hybrid_anomaly_detections.cols :=
       {| hybrid_anomaly_detections.timestamp := poll_time;
          hybrid_anomaly_detections.detection_id := event_type ++ "_" ++ py.str_int id;
          hybrid_anomaly_detections.prefix := "8.8.8.0/24";
          hybrid_anomaly_detections.prefix_length := Some 24;
          hybrid_anomaly_detections.origin_as := 15169;
          hybrid_anomaly_detections.event_type := event_type;
          hybrid_anomaly_detections.message_type := "bgp_features_1min";
          hybrid_anomaly_detections.rpki_status := rpki_status;
          hybrid_anomaly_detections.rpki_anomaly := false;
          hybrid_anomaly_detections.combined_anomaly := true;
          hybrid_anomaly_detections.combined_score := 0.95%float;
          hybrid_anomaly_detections.combined_severity := severity;
          hybrid_anomaly_detections.classification := "UNKNOWN";
          hybrid_anomaly_detections.metadata := metadata |} |}.

(** A critical heuristic detection and a low ML detection of the same
    route and minute. *)
Definition two_source_group : list hybrid_anomaly_detections.row :=
  [ detection_row 1 "heuristic" "critical" "unknown" (py.JDict [ ("triggered_rules", py.JList []) ]);
    detection_row 2 "ml_anomaly" "low" "unknown" (py.JDict []) ].

(** An RPKI detection of an origin mismatch beside a heuristic one. *)
Definition hijack_group : list hybrid_anomaly_detections.row :=
  [ detection_row 1 "heuristic" "medium" "unknown" (py.JDict [ ("triggered_rules", py.JList []) ]);
    detection_row 2 "rpki" "critical" "invalid"
      (py.JDict [ ("rpki_description",
                   py.JStr "Origin AS mismatch: announced AS15169, ROA expects AS64500 - HIJACK SIGNAL") ]) ].

(** A store with two raw updates of the same route in the second
    minute after the epoch, received 70 and 110 seconds after it. *)
Definition split_minute_db : store.database :=
  {| store.tbl_ip_rib :=
       [ {| ip_rib.base_attr_hash_id := "attrs-1";
            ip_rib.peer_hash_id := "peer-1";
            ip_rib.origin_as := 64500;
            ip_rib.prefix := "203.0.113.0/24";
            ip_rib.timestamp := 70000000;
            ip_rib.iswithdrawn := false |};
         {| ip_rib.base_attr_hash_id := "attrs-1";
            ip_rib.peer_hash_id := "peer-1";
            ip_rib.origin_as := 64500;
            ip_rib.prefix := "203.0.113.0/24";
            ip_rib.timestamp := 110000000;
            ip_rib.iswithdrawn := true |} ];
     store.tbl_base_attrs :=
       [ {| base_attrs.hash_id := "attrs-1"; base_attrs.as_path_count := Some 3 |} ];
     store.tbl_bgp_features_1min := [];
     store.seq_bgp_features_1min := 0;
     store.tbl_hybrid_anomaly_detections := [];
     store.seq_hybrid_anomaly_detections := 0;
     store.tbl_feature_aggregator_state := Some (Some 0);
     store.tbl_heuristic_inference_state := None;
     store.tbl_rpki_inference_state := None |}.

End example.

(** ** Vocabulary of the properties *)

Module spec.

(** The session_resets rule fires with severity [s] on [row]. *)
Definition fires (s : string) (row : bgp_features_1min.row) : Prop :=
  option_map heuristic_detector.severity (heuristic_detector.check_session_resets row) = Some s.

(** The sum of a list of integers. *)
Definition total (l : list Z) : Z := fold_left Z.add l 0.

(** The mean of a group's AS path lengths as a [double precision]
    column holds it: the quotient of their sum by their number, a
    [numeric], cast to [double precision]; the fallback
    [2 + (origin_as mod 3)] when there is none. *)
Definition mean_or_fallback (origin_as : Z) (counts : list Z) : float :=
  match counts with
  | [] => (2.0 + py.float_of_Z (Z.rem origin_as 3))%float
  | _ => numeric.to_float8 (numeric.div (total counts) (Z.of_nat (List.length counts)))
  end.

(** [x] is the mean of [l] rounded to [dscale x] decimal digits: it is
    within half a unit of its last digit of the mean, and has sixteen
    significant digits at least (unless the scale is the greatest
    there is). *)
Definition rounded_mean (l : list Z) (x : numeric.t) : Prop :=
  let n := Z.of_nat (List.length l) in
  0 <= numeric.dscale x
  /\ 2 * Z.abs (numeric.unscaled x * n - total l * 10 ^ numeric.dscale x) <= n
  /\ (total l <> 0 -> numeric.dscale x < 1000 ->
      10 ^ 16 * n <= Z.abs (total l) * 10 ^ numeric.dscale x).

(** The identity of a FeatureRow in the spec: [(window_start, prefix,
    origin_as)]. *)
Definition feature_key (f : bgp_features_1min.row) : Z * string * Z :=
  (bgp_features_1min.window_start f, bgp_features_1min.prefix f, bgp_features_1min.origin_as f).




(** The names of the rules a heuristic detection lists in its
    metadata, under [triggered_rules]. *)
Definition triggered_rule_names (r : hybrid_anomaly_detections.row) : list py.json :=
  match py.dict_get (hybrid_anomaly_detections.metadata (hybrid_anomaly_detections.cols r))
                    "triggered_rules" (py.JList []) with
  | py.Ok (py.JList rules) =>
      map (fun rule => match py.dict_get rule "rule_name" py.JNull with
                       | py.Ok n => n
                       | py.Raise _ => py.JNull
                       end) rules
  | _ => []
  end.

(** The description an RPKI detection carries in its metadata. *)
Definition rpki_description (r : hybrid_anomaly_detections.row) : py.json :=
  match py.dict_get (hybrid_anomaly_detections.metadata (hybrid_anomaly_detections.cols r))
                    "rpki_description" py.JNull with
  | py.Ok d => d
  | py.Raise _ => py.JNull
  end.

(** A detection as the heuristic detector writes it: its metadata is
    built by [build_metadata]. *)
Definition written_by_heuristic_detector (r : hybrid_anomaly_detections.row) : Prop :=
  exists row hits heuristic_score,
    hybrid_anomaly_detections.metadata (hybrid_anomaly_detections.cols r)
    = heuristic_detector.build_metadata row hits heuristic_score.

(** The hits of a feature row, read off the features table: the
    rules in the order of [apply_heuristics], a rule that fails giving
    no hit. *)
Definition hits_of (L : py.lib) (features : list bgp_features_1min.row)
                   (row : bgp_features_1min.row) : list heuristic_detector.HeuristicHit :=
  heuristic_detector.not_none
    [ heuristic_detector.check_churn L row;
      heuristic_detector.check_withdrawal_ratio L row;
      heuristic_detector.check_flapping L row;
      heuristic_detector.check_path_length L row;
      heuristic_detector.check_bogon_asn row;
      (if String.eqb (bgp_features_1min.prefix row) "" then None
       else match heuristic_detector.bogon_prefix_hit L (bgp_features_1min.prefix row) with
            | py.Ok h => h
            | py.Raise _ => None
            end);
      (if heuristic_detector.inflation_skipped row then None
       else heuristic_detector.inflation_hit L (heuristic_detector.row_path_length row)
              (heuristic_detector.baseline_path (bgp_features_1min.prefix row)
                 (bgp_features_1min.origin_as row) (bgp_features_1min.window_start row) features));
      heuristic_detector.check_volume_spike L row;
      heuristic_detector.check_session_resets row ].

(** The detection of a feature row, when a rule fires. *)
Definition detection_of (L : py.lib) (features : list bgp_features_1min.row)
                        (row : bgp_features_1min.row) : option hybrid_anomaly_detections.values :=
  match hits_of L features row with
  | [] => None
  | hits => match heuristic_detector.build_detection L row hits with
            | py.Ok d => Some d
            | py.Raise _ => None
            end
  end.

(** The detections of a batch, in the order of the batch. *)
Definition detections_of (L : py.lib) (features : list bgp_features_1min.row)
                         (rows : list bgp_features_1min.row) : list hybrid_anomaly_detections.values :=
  flat_map (fun row => match detection_of L features row with Some d => [d] | None => [] end) rows.



(** The store after the INSERT of [d] under the fault [f]: the
    statement takes effect when there is no fault. *)
Definition insert_under (f : pg.fault) (d : hybrid_anomaly_detections.values)
                        (db0 : store.database) : store.database :=
  match f with
  | pg.NoFault => heuristic_detector.insert_or_update d db0
  | _ => db0
  end.

(** The store after the INSERTs of the detections [ds] under the
    faults [fs], in order. *)
Fixpoint run_inserts (ds : list hybrid_anomaly_detections.values) (fs : list pg.fault)
                     (db0 : store.database) : store.database :=
  match ds with
  | [] => db0
  | d :: ds' => run_inserts ds' (snd (pg.next_fault fs)) (insert_under (fst (pg.next_fault fs)) d db0)
  end.

(** The checkpoint the heuristic detector starts from, at time [now]. *)
Definition checkpoint (now : Z) (state : option inference_state.row) : Z :=
  match state with
  | Some r => match inference_state.last_processed_timestamp r with
              | Some ts => ts
              | None => now
              end
  | None => now
  end.

(** No fault of the stream loses the connection. *)
Definition connection_kept (faults : list pg.fault) : Prop :=
  Forall (fun f => forall m, f <> pg.ConnectionLost m) faults.



(** The connection of the heuristic detector is open and no statement
    but the INSERT of a detection is going to fail; the INSERTs may
    fail, without losing the connection. *)
Definition inserts_may_fail (w : heuristic_detector.world) : Prop :=
  heuristic_detector.conn_open w = true
  /\ heuristic_detector.query_faults w = []
  /\ connection_kept (heuristic_detector.insert_faults w).

(** The store after one poll of the heuristic detector at time [now],
    under the faults [fs] of its INSERTs: the detections of the batch
    are inserted, then the state row is updated. *)
Definition after_poll (L : py.lib) (now : Z) (fs : list pg.fault) (db0 : store.database)
  : store.database :=
  let batch := heuristic_detector.new_feature_rows_query L
                 (checkpoint now (store.tbl_heuristic_inference_state db0)) db0 in
  match batch with
  | [] => db0
  | _ =>
      let db1 := run_inserts (detections_of L (store.tbl_bgp_features_1min db0) batch) fs db0 in
      store.set_heuristic_inference_state
        (store.update_state_row (heuristic_detector.max_window_start batch)
                                (Z.of_nat (List.length batch))
                                (store.tbl_heuristic_inference_state db1)) db1
  end.

(** The requests made between the worlds [w] and [w'] of the RPKI
    detector: at most [n] of them, each for [url] with the timeout
    REQUEST_TIMEOUT. *)
Definition made_by (url : string) (w w' : rpki_validator_service.world) (n : nat) : Prop :=
  exists reqs, rpki_validator_service.requests w'
               = (reqs ++ rpki_validator_service.requests w)%list
               /\ (List.length reqs <= n)%nat
               /\ Forall (fun r => r = (url, rpki_validator_service.REQUEST_TIMEOUT)) reqs.

(** The requests made between two worlds stay within the budget:
    at most MAX_RETRIES of them, each with the timeout REQUEST_TIMEOUT. *)
Definition within_budget (w w' : rpki_validator_service.world) : Prop :=
  exists reqs, rpki_validator_service.requests w'
               = (reqs ++ rpki_validator_service.requests w)%list
               /\ (List.length reqs <= rpki_validator_service.MAX_RETRIES)%nat
               /\ Forall (fun r => snd r = rpki_validator_service.REQUEST_TIMEOUT) reqs.

(** The store of the RPKI detector, committed and in the session. *)
Definition store_is (c s : store.database) (w : rpki_validator_service.world) : Prop :=
  rpki_validator_service.committed w = c /\ rpki_validator_service.session w = s.

(** The feature rows a run of the aggregator has appended to the
    table. *)
Definition appended (before after : store.database) : list bgp_features_1min.row :=
  skipn (List.length (store.tbl_bgp_features_1min before)) (store.tbl_bgp_features_1min after).

(** The raw updates a list of feature rows accounts for. *)
Definition updates_counted (rows : list bgp_features_1min.row) : Z :=
  feature_aggregator.sum_Z (map bgp_features_1min.total_updates rows).

(** The raw updates of the store received in the interval
    ( [from_ts], [to_ts] ]. *)
Definition received (db : store.database) (from_ts to_ts : Z) : list ip_rib.row :=
  filter (fun r => (from_ts <? ip_rib.timestamp r) && (ip_rib.timestamp r <=? to_ts))
         (store.tbl_ip_rib db).

(** The raw updates of a list that are stamped in the interval
    ( [from_ts], [to_ts] ]. *)
Definition stamped_in (from_ts to_ts : Z) (l : list ip_rib.row) : list ip_rib.row :=
  filter (fun r => (from_ts <? ip_rib.timestamp r) && (ip_rib.timestamp r <=? to_ts)) l.

(** The store after the raw updates [news] have been written to
    [ip_rib], and the path attributes [attrs] to [base_attrs]. *)
Definition collected (news : list ip_rib.row) (attrs : list base_attrs.row)
                     (db : store.database) : store.database :=
  {| store.tbl_ip_rib := (store.tbl_ip_rib db ++ news)%list;
     store.tbl_base_attrs := (store.tbl_base_attrs db ++ attrs)%list;
     store.tbl_bgp_features_1min := store.tbl_bgp_features_1min db;
     store.seq_bgp_features_1min := store.seq_bgp_features_1min db;
     store.tbl_hybrid_anomaly_detections := store.tbl_hybrid_anomaly_detections db;
     store.seq_hybrid_anomaly_detections := store.seq_hybrid_anomaly_detections db;
     store.tbl_feature_aggregator_state := store.tbl_feature_aggregator_state db;
     store.tbl_heuristic_inference_state := store.tbl_heuristic_inference_state db;
     store.tbl_rpki_inference_state := store.tbl_rpki_inference_state db |}.

(** [hash_id] is the key of [base_attrs]. *)
Definition base_attrs_keyed (db : store.database) : Prop :=
  NoDup (map base_attrs.hash_id (store.tbl_base_attrs db)).

(** Two raw updates of the same group: the same minute, prefix and
    origin AS. *)
Definition same_group (r r' : ip_rib.row) : bool :=
  (feature_aggregator.floor_to_1min (ip_rib.timestamp r')
   =? feature_aggregator.floor_to_1min (ip_rib.timestamp r))
  && String.eqb (ip_rib.prefix r') (ip_rib.prefix r)
  && (ip_rib.origin_as r' =? ip_rib.origin_as r).

(** The raw updates of the group of [r] received in the interval
    ( [from_ts], [to_ts] ]. *)
Definition group_of (db : store.database) (from_ts to_ts : Z) (r : ip_rib.row) : list ip_rib.row :=
  filter (same_group r) (received db from_ts to_ts).

(** The BaseAttrs joined to a raw update: those whose [hash_id] is its
    [base_attr_hash_id]. *)
Definition joined_attrs (db : store.database) (r : ip_rib.row) : list base_attrs.row :=
  filter (fun ba => String.eqb (ip_rib.base_attr_hash_id r) (base_attrs.hash_id ba))
         (store.tbl_base_attrs db).

(** The rows the join gives a raw update: one for each of its
    BaseAttrs, and one when it has none. *)
Definition join_rows (db : store.database) (r : ip_rib.row) : Z :=
  Z.max 1 (Z.of_nat (List.length (joined_attrs db r))).

(** The rows the join gives a list of raw updates. *)
Definition joined_count (db : store.database) (us : list ip_rib.row) : Z :=
  total (map (join_rows db) us).

(** The [as_path_count]s of the BaseAttrs joined to a list of raw
    updates, those that are NULL left out. *)
Definition joined_as_path_counts (db : store.database) (us : list ip_rib.row) : list Z :=
  flat_map (fun r => flat_map (fun ba => match base_attrs.as_path_count ba with
                                         | Some n => [ n ]
                                         | None => []
                                         end) (joined_attrs db r)) us.

(** The [detection_id]s of a table of detections, in the order of the
    table. *)
Definition detection_ids (t : list hybrid_anomaly_detections.row) : list string :=
  map (fun r => hybrid_anomaly_detections.detection_id (hybrid_anomaly_detections.cols r)) t.

(** A rule of the heuristic detector fires on [row]. *)
Definition has_hits (L : py.lib) (features : list bgp_features_1min.row)
                    (row : bgp_features_1min.row) : bool :=
  match hits_of L features row with
  | [] => false
  | _ => true
  end.

(** The order of [ORDER BY window_start]. *)
Definition window_order (a b : bgp_features_1min.row) : Prop :=
  bgp_features_1min.window_start a <= bgp_features_1min.window_start b.

(** The names of the rules of the heuristic detector. *)
Definition rule_names : list string :=
  [ "churn_critical"; "churn_severe"; "churn_moderate";
    "withdrawal_storm_critical"; "withdrawal_storm_high";
    "flap_critical"; "flap_high"; "flap_medium";
    "path_length_severe"; "path_length_mild";
    "bogon_asn_critical"; "bogon_prefix_critical";
    "path_inflation_critical"; "path_inflation_high";
    "volume_spike_critical"; "volume_spike_high";
    "session_resets_critical"; "session_resets_high"; "session_resets_medium" ].

(** The classifications [determine_classification] gives a single
    rule. *)
Definition rule_classifications : list string :=
  [ "churn_spike"; "withdrawal_burst"; "route_flap"; "path_anomaly"; "path_inflation";
    "bogon_asn"; "bogon_prefix"; "volume_spike"; "session_instability" ].

(** Between the worlds [w] and [w'] the RPKI detector has slept at
    most [n] seconds in all, and its clock has moved by what it
    slept. *)
Definition slept (w w' : rpki_validator_service.world) (n : Z) : Prop :=
  exists naps, rpki_validator_service.sleeps w' = (naps ++ rpki_validator_service.sleeps w)%list
               /\ Forall (fun nap => 0 <= nap) naps
               /\ feature_aggregator.sum_Z naps <= n
               /\ rpki_validator_service.now w'
                  = rpki_validator_service.now w + feature_aggregator.sum_Z naps * 1000000.

(** A poll of the RPKI detector that does nothing: it returns, and
    leaves the store, the transaction and the requests made as they
    were. *)
Definition idle_poll (L : py.lib) (w : rpki_validator_service.world) : Prop :=
  let run := rpki_validator_service.main_iteration L w in
  fst run = py.Ok tt
  /\ rpki_validator_service.txn_failed (snd run) = rpki_validator_service.txn_failed w
  /\ rpki_validator_service.committed (snd run) = rpki_validator_service.committed w
  /\ rpki_validator_service.session (snd run) = rpki_validator_service.session w
  /\ rpki_validator_service.requests (snd run) = rpki_validator_service.requests w.

(** An RPKI detection of status invalid. *)
Definition rpki_invalid (r : hybrid_anomaly_detections.row) : bool :=
  correlation_engine.event_type_is "rpki" r
  && String.eqb (hybrid_anomaly_detections.rpki_status (hybrid_anomaly_detections.cols r)) "invalid".

(** An RPKI detection of status invalid whose description speaks of
    an origin mismatch or of a hijack. *)
Definition signals_hijack (r : hybrid_anomaly_detections.row) : Prop :=
  rpki_invalid r = true
  /\ exists d desc,
       correlation_engine.metadata_of r = py.JDict d
       /\ py.dict_get (py.JDict d) "rpki_description" (py.JStr "") = py.Ok (py.JStr desc)
       /\ (py.contains "origin as mismatch" (py.lower desc)
           || py.contains "hijack" (py.lower desc)) = true.

(** The detection sources of a group: its distinct event types. *)
Definition sources (g : list hybrid_anomaly_detections.row) : list string :=
  correlation_engine.unique
    (map (fun r => hybrid_anomaly_detections.event_type (hybrid_anomaly_detections.cols r)) g).

(** The classifications and the severities of the decision matrix. *)
Definition classifications : list string :=
  [ "HIJACK"; "LEAK"; "INVALID"; "SUSPICIOUS"; "NORMAL" ].

Definition severities : list string := [ "low"; "medium"; "high"; "critical" ].

(** A [metadata_update] of the correlation engine: an object of the one
    key [correlation]. *)
Definition is_metadata_update (v : py.json) : Prop :=
  exists c, v = py.JDict [ ("correlation", c) ].

(** The prefix of the row has a length the ML detector can read. *)
Definition length_reads (L : py.lib) (row : bgp_features_1min.row) : bool :=
  match ml_inference_service.prefix_length_of L (bgp_features_1min.prefix row) with
  | py.Ok _ => true
  | py.Raise _ => false
  end.

(** The raw scores and the z-scores of a row, and the threshold, are
    numbers: none of them is NaN or infinite. *)
Definition finite_scores (cfg : ml_inference_service.config) (s : ml_inference_service.scores)
  : bool :=
  PrimFloat.is_finite (ml_inference_service.iso_raw s)
  && PrimFloat.is_finite (ml_inference_service.lstm_raw s)
  && PrimFloat.is_finite (ml_inference_service.z_iso s)
  && PrimFloat.is_finite (ml_inference_service.z_lstm s)
  && PrimFloat.is_finite (ml_inference_service.ANOMALY_THRESHOLD cfg).

(** A feature row and its scores of which the ML detector can store a
    detection: the prefix length reads and the scores are finite. *)
Definition storable (L : py.lib) (cfg : ml_inference_service.config)
                    (scored : bgp_features_1min.row * ml_inference_service.scores) : bool :=
  length_reads L (fst scored) && finite_scores cfg (snd scored).

(** The [detection_id] the ML detector gives a feature row. *)
Definition ml_detection_id (L : py.lib) (row : bgp_features_1min.row) : string :=
  ml_inference_service.generate_detection_id L (bgp_features_1min.window_start row)
    (bgp_features_1min.prefix row) (bgp_features_1min.origin_as row).

(** The connection is open and no statement is going to fail. *)
Definition healthy (w : heuristic_detector.world) : Prop :=
  heuristic_detector.conn_open w = true
  /\ heuristic_detector.query_faults w = []
  /\ heuristic_detector.insert_faults w = [].

End spec.

(* ===================================================================== *)
(** * Part II.  Verification                                              *)
(* ===================================================================== *)
(* ===================================================================== *)

(** ** PostgreSQL's numeric division *)

Section Numeric.

Import numeric.

(** The weight is the number of base-10000 digits after the first. *)
Lemma weight_from_spec (fuel : nat) (n : Z) :
  0 < n < 2 ^ Z.of_nat fuel ->
  0 <= weight_from fuel n /\ NBASE ^ weight_from fuel n <= n < NBASE ^ (weight_from fuel n + 1).
Proof.
  revert n. induction fuel as [ | fuel IH ]; intros n [Hpos Hlt].
  - change (2 ^ Z.of_nat 0) with 1 in Hlt. lia.
  - cbn [weight_from]. destruct (n <? NBASE) eqn:Hsmall.
    + apply Z.ltb_lt in Hsmall. unfold NBASE in *. rewrite Z.pow_0_r, Z.pow_1_r. lia.
    + apply Z.ltb_ge in Hsmall. unfold NBASE in *.
      rewrite Nat2Z.inj_succ, Z.pow_succ_r in Hlt by lia.
      assert (Hq : 0 < n / 10000 < 2 ^ Z.of_nat fuel).
      { split.
        - apply Z.div_str_pos. lia.
        - apply Z.div_lt_upper_bound; lia. }
      destruct (IH _ Hq) as (Hw & Hlo & Hhi).
      split; [ lia | ].
      replace (1 + weight_from fuel (n / 10000)) with (Z.succ (weight_from fuel (n / 10000))) by lia.
      replace (Z.succ (weight_from fuel (n / 10000)) + 1)
        with (Z.succ (weight_from fuel (n / 10000) + 1)) by lia.
      rewrite !Z.pow_succ_r by lia.
      pose proof (Z.div_mod n 10000 ltac:(lia)) as Hdm.
      pose proof (Z.mod_pos_bound n 10000 ltac:(lia)) as Hmod.
      lia.
Qed.

Lemma weight_spec (n : Z) :
  n <> 0 ->
  0 <= weight n /\ NBASE ^ weight n <= Z.abs n < NBASE ^ (weight n + 1).
Proof.
  intros Hn. unfold weight. apply weight_from_spec.
  split; [ lia | ].
  rewrite Nat2Z.inj_succ, Z2Nat.id by apply Z.log2_nonneg.
  apply Z.log2_spec. lia.
Qed.

Lemma first_digit_spec (n : Z) :
  n <> 0 ->
  1 <= first_digit n < NBASE
  /\ first_digit n * NBASE ^ weight n <= Z.abs n < (first_digit n + 1) * NBASE ^ weight n.
Proof.
  intros Hn. destruct (weight_spec n Hn) as (Hw & Hlo & Hhi).
  unfold first_digit.
  assert (Hp : 0 < NBASE ^ weight n) by (apply Z.pow_pos_nonneg; unfold NBASE; lia).
  replace (weight n + 1) with (Z.succ (weight n)) in Hhi by lia.
  rewrite Z.pow_succ_r in Hhi by lia.
  pose proof (Z.div_mod (Z.abs n) (NBASE ^ weight n) ltac:(lia)) as Hdm.
  pose proof (Z.mod_pos_bound (Z.abs n) (NBASE ^ weight n) Hp) as Hmod.
  set (q := Z.abs n / NBASE ^ weight n) in *.
  set (P := NBASE ^ weight n) in *.
  unfold NBASE in *.
  split; [ split | split ]; nia.
Qed.


(** The quotient is the exact one, rounded to [dscale] decimal digits:
    it is off by half a unit of the last digit at most. *)
Lemma div_rounds (a n : Z) :
  0 < n ->
  0 <= dscale (div a n) <= NUMERIC_MAX_DISPLAY_SCALE
  /\ 2 * Z.abs (unscaled (div a n) * n - a * 10 ^ dscale (div a n)) <= n.
Proof.
  intros Hn. unfold div. cbn [unscaled dscale].
  set (s := select_div_scale a n).
  assert (Hs : 0 <= s <= NUMERIC_MAX_DISPLAY_SCALE).
  { unfold s, select_div_scale, NUMERIC_MAX_DISPLAY_SCALE. lia. }
  split; [ exact Hs | ].
  assert (HT : 0 < 10 ^ s) by (apply Z.pow_pos_nonneg; lia).
  set (T := 10 ^ s) in *.
  rewrite (Z.abs_eq n), (Z.sgn_pos n) by lia.
  pose proof (Z.div_mod (2 * Z.abs a * T + n) (2 * n) ltac:(lia)) as Hdm.
  pose proof (Z.mod_pos_bound (2 * Z.abs a * T + n) (2 * n) ltac:(lia)) as Hmod.
  set (q := (2 * Z.abs a * T + n) / (2 * n)) in *.
  set (r := (2 * Z.abs a * T + n) mod (2 * n)) in *.
  destruct (Z.sgn_spec a) as [ (Ha & ->) | [ (Ha & ->) | (Ha & ->) ] ].
  - rewrite (Z.abs_eq a) in * by lia. nia.
  - subst a. cbn [Z.abs] in *. nia.
  - rewrite (Z.abs_neq a) in * by lia. nia.
Qed.

(** The quotient has sixteen significant digits at least, unless the
    scale is at its greatest. *)
Lemma div_significant (a n : Z) :
  0 < n -> a <> 0 -> dscale (div a n) < NUMERIC_MAX_DISPLAY_SCALE ->
  10 ^ 16 * n <= Z.abs a * 10 ^ dscale (div a n).
Proof.
  intros Hn Ha. unfold div. cbn [dscale]. unfold select_div_scale.
  destruct (weight_spec a Ha) as (Hw1 & _).
  destruct (weight_spec n ltac:(lia)) as (Hw2 & _ & Hn2).
  destruct (first_digit_spec a Ha) as ((Hd1 & _) & Ha1 & _).
  destruct (first_digit_spec n ltac:(lia)) as (_ & _ & Hn1).
  rewrite (Z.abs_eq n) in * by lia.
  unfold NUMERIC_MAX_DISPLAY_SCALE, NUMERIC_MIN_SIG_DIGITS, DEC_DIGITS.
  set (delta := if first_digit a <=? first_digit n then 1 else 0).
  set (w1 := weight a) in *. set (w2 := weight n) in *.
  intros Hcap.
  assert (Hdelta : (delta = 1 /\ first_digit a <= first_digit n)
                   \/ (delta = 0 /\ first_digit n < first_digit a)).
  { unfold delta. destruct (first_digit a <=? first_digit n) eqn:Hle;
      [ apply Z.leb_le in Hle | apply Z.leb_gt in Hle ]; lia. }
  assert (Hd : 0 <= delta) by lia.
  assert (HQ : 0 < NBASE ^ w2) by (apply Z.pow_pos_nonneg; unfold NBASE; lia).
  replace (w2 + 1) with (Z.succ w2) in Hn2 by lia.
  rewrite Z.pow_succ_r in Hn2 by lia.
  set (s := Z.min 1000 (Z.max 0 (16 - (w1 - w2 - delta) * 4))) in *.
  assert (HS : 0 < 10 ^ s) by (apply Z.pow_pos_nonneg; unfold s; lia).
  (* the scale makes up for the weight of the dividend *)
  assert (Hscale : NBASE ^ (4 + delta) * NBASE ^ w2 <= NBASE ^ w1 * 10 ^ s).
  { rewrite <- Z.pow_add_r by lia.
    destruct (Z.max_spec 0 (16 - (w1 - w2 - delta) * 4)) as [ (He & Hmax) | (He & Hmax) ].
    - assert (Hs : s = 4 * (4 - (w1 - w2 - delta))) by (unfold s in *; lia).
      rewrite Hs, Z.pow_mul_r by lia. change (10 ^ 4) with NBASE.
      rewrite <- Z.pow_add_r by lia.
      apply Z.pow_le_mono_r; unfold NBASE; lia.
    - assert (Hs : s = 0) by (unfold s; lia).
      rewrite Hs, Z.pow_0_r, Z.mul_1_r.
      apply Z.pow_le_mono_r; unfold NBASE; lia. }
  assert (Hlow : first_digit a * (NBASE ^ (4 + delta) * NBASE ^ w2) <= Z.abs a * 10 ^ s).
  { apply Z.le_trans with (first_digit a * (NBASE ^ w1 * 10 ^ s)).
    - apply Z.mul_le_mono_nonneg_l; [ lia | exact Hscale ].
    - rewrite Z.mul_assoc. apply Z.mul_le_mono_nonneg_r; lia. }
  change (10 ^ 16) with 10000000000000000.
  revert Hlow Hn1 Hn2 HQ Hd1 Hdelta.
  generalize (Z.abs a * 10 ^ s) (NBASE ^ w2) (first_digit a) (first_digit n).
  clear. intros X Q d1 d2 Hlow Hn1 Hn2 HQ Hd1 [ (-> & Hle) | (-> & Hlt) ].
  - change (NBASE ^ (4 + 1)) with 100000000000000000000 in Hlow. unfold NBASE in *. nia.
  - change (NBASE ^ (4 + 0)) with 10000000000000000 in Hlow. nia.
Qed.

End Numeric.

(** ** The feature aggregator *)

Section Aggregator.

Import store feature_aggregator spec.

Lemma key_eqb_eq (a b : group_key) : key_eqb a b = true <-> a = b.
Proof.
  destruct a as [[w1 p1] o1], b as [[w2 p2] o2]. unfold key_eqb.
  rewrite !andb_true_iff, !Z.eqb_eq, String.eqb_eq.
  split.
  - intros [[-> ->] ->]. reflexivity.
  - intros H. injection H as -> -> ->. auto.
Qed.

Lemma key_eqb_refl (a : group_key) : key_eqb a a = true.
Proof. apply key_eqb_eq. reflexivity. Qed.

(** [distinct] keeps every value of the list. *)
Lemma distinct_in {A} (eqb : A -> A -> bool) (l : list A) (x : A) :
  (forall a b, eqb a b = true <-> a = b) ->
  In x l -> In x (distinct eqb l).
Proof.
  intros Heqb. induction l as [ | y l IH ]; intros Hin.
  - contradiction.
  - simpl. destruct Hin as [ -> | Hin ].
    + left. reflexivity.
    + destruct (eqb y x) eqn:Hyx.
      * left. apply Heqb. exact Hyx.
      * right. apply filter_In. split; [ exact (IH Hin) | ]. rewrite Hyx. reflexivity.
Qed.

(** Every row of the scanned interval has its group. *)
Lemma group_by_in (l : list joined) (j : joined) :
  In j l ->
  In (key_of j, filter (fun j' => key_eqb (key_of j') (key_of j)) l) (group_by l).
Proof.
  intros Hin. unfold group_by.
  apply (in_map (fun k => (k, filter (fun j' => key_eqb (key_of j') k) l))).
  apply distinct_in; [ exact key_eqb_eq | ].
  apply in_map. exact Hin.
Qed.

(** Every group gets its row. *)
Lemma number_rows_in (gs : list (group_key * list joined)) (kg : group_key * list joined) :
  In kg gs -> forall seq, exists n, In (feature_of n kg) (number_rows seq gs).
Proof.
  induction gs as [ | kg' gs IH ]; intros Hin seq.
  - contradiction.
  - destruct Hin as [ -> | Hin ].
    + exists (seq + 1). left. reflexivity.
    + destruct (IH Hin (seq + 1)) as [n Hn]. exists n. right. exact Hn.
Qed.

Lemma number_rows_length (gs : list (group_key * list joined)) (seq : Z) :
  List.length (number_rows seq gs) = List.length gs.
Proof.
  revert seq. induction gs as [ | kg gs IH ]; intros seq; simpl; [ | rewrite IH ]; reflexivity.
Qed.

(** Numbering from a later value of the sequence shifts the ids. *)
Lemma number_rows_shift (gs : list (group_key * list joined)) (seq n : Z) :
  number_rows (seq + n) gs = map (bgp_features_1min.shift_id n) (number_rows seq gs).
Proof.
  revert seq. induction gs as [ | kg gs IH ]; intros seq; simpl.
  - reflexivity.
  - f_equal.
    + destruct kg as [[[w p] o] g]. unfold bgp_features_1min.shift_id. simpl.
      f_equal. lia.
    + replace (seq + n + 1) with (seq + 1 + n) by lia. apply IH.
Qed.

(** The counts of a group add up: an update is an announcement or a
    withdrawal. *)
Lemma counts_add_up (g : list joined) :
  Z.of_nat (List.length g) = count_filter is_announcement g + count_filter is_withdrawal g.
Proof.
  unfold count_filter.
  rewrite <- (filter_length is_withdrawal g) at 1.
  rewrite Nat2Z.inj_add.
  change (fun x : joined => negb (is_withdrawal x)) with is_announcement.
  lia.
Qed.

Lemma count_filter_nonneg (p : joined -> bool) (g : list joined) : 0 <= count_filter p g.
Proof. unfold count_filter. lia. Qed.

Lemma distinct_NoDup {A} (eqb : A -> A -> bool) (l : list A) :
  (forall a b, eqb a b = true <-> a = b) -> NoDup (distinct eqb l).
Proof.
  intros Heqb. induction l as [ | x l IH ]; cbn.
  - constructor.
  - constructor.
    + intros Hin. apply filter_In in Hin. destruct Hin as [_ Hx].
      assert (Hxx : eqb x x = true) by (apply Heqb; reflexivity).
      rewrite Hxx in Hx. discriminate.
    + apply NoDup_filter. exact IH.
Qed.

(** The rows of one run have the keys of its groups, which differ. *)
Lemma number_rows_keys (gs : list (group_key * list joined)) (seq : Z) :
  map feature_key (number_rows seq gs) = map fst gs.
Proof.
  revert seq. induction gs as [ | [[[w p] o] g] gs IH ]; intros seq; [ reflexivity | ].
  cbn [number_rows map]. rewrite IH. reflexivity.
Qed.

Lemma group_by_keys (l : list joined) : map fst (group_by l) = distinct key_eqb (map key_of l).
Proof. unfold group_by. rewrite map_map. cbn [fst]. apply map_id. Qed.

Lemma total_sum_Z (l : list Z) : total l = sum_Z l.
Proof.
  unfold total, sum_Z.
  assert (H : forall a, fold_left Z.add l a = a + fold_right Z.add 0 l).
  { induction l as [ | x l IH ]; intros a; cbn [fold_left fold_right]; [ lia | rewrite IH; lia ]. }
  rewrite H. lia.
Qed.

(** The join, one raw update after the other. *)
Lemma left_join_cons (r : ip_rib.row) (ribs : list ip_rib.row) (bas : list base_attrs.row) :
  left_join (r :: ribs) bas = (left_join [ r ] bas ++ left_join ribs bas)%list.
Proof. unfold left_join. cbn [flat_map]. rewrite app_nil_r. reflexivity. Qed.

Lemma left_join_one_rib (r : ip_rib.row) (bas : list base_attrs.row) (j : joined) :
  In j (left_join [ r ] bas) -> j_rib j = r.
Proof.
  unfold left_join. cbn [flat_map]. rewrite app_nil_r.
  destruct (filter _ bas) as [ | ba ms ].
  - intros [ <- | [] ]. reflexivity.
  - intros H. apply in_map_iff in H. destruct H as (ba' & <- & _). reflexivity.
Qed.

Lemma left_join_one_not_nil (r : ip_rib.row) (bas : list base_attrs.row) :
  left_join [ r ] bas <> [].
Proof.
  unfold left_join. cbn [flat_map]. rewrite app_nil_r.
  destruct (filter _ bas); discriminate.
Qed.

Lemma left_join_in (r : ip_rib.row) (ribs : list ip_rib.row) (bas : list base_attrs.row)
                   (j : joined) :
  In r ribs -> In j (left_join [ r ] bas) -> In j (left_join ribs bas).
Proof.
  intros Hr Hj. induction ribs as [ | r' ribs IH ]; [ contradiction | ].
  rewrite left_join_cons. apply in_or_app.
  destruct Hr as [ -> | Hr ]; [ left; exact Hj | right; exact (IH Hr) ].
Qed.

(** A condition on the raw update alone selects the same rows before
    and after the join. *)
Lemma filter_left_join (p : joined -> bool) (p' : ip_rib.row -> bool)
                       (ribs : list ip_rib.row) (bas : list base_attrs.row) :
  (forall j, p j = p' (j_rib j)) ->
  filter p (left_join ribs bas) = left_join (filter p' ribs) bas.
Proof.
  intros Hp. induction ribs as [ | r ribs IH ]; [ reflexivity | ].
  rewrite left_join_cons, filter_app, IH. cbn [filter].
  assert (Hall : forall l, (forall j, In j l -> j_rib j = r) ->
                           filter p l = if p' r then l else []).
  { induction l as [ | j l IHl ]; intros Hl; [ destruct (p' r); reflexivity | ].
    cbn [filter]. rewrite Hp, (Hl j (or_introl eq_refl)), IHl
      by (intros j' Hj'; apply Hl; right; exact Hj').
    destruct (p' r); reflexivity. }
  rewrite Hall by (intros j; apply left_join_one_rib).
  destruct (p' r); [ rewrite (left_join_cons r (filter p' ribs)) | ]; reflexivity.
Qed.

Lemma left_join_length (db : database) (us : list ip_rib.row) :
  Z.of_nat (List.length (left_join us (tbl_base_attrs db))) = joined_count db us.
Proof.
  unfold joined_count. rewrite total_sum_Z.
  induction us as [ | r us IH ]; [ reflexivity | ].
  rewrite left_join_cons, length_app, Nat2Z.inj_add, IH. cbn [map].
  change (sum_Z (join_rows db r :: map (join_rows db) us))
    with (join_rows db r + sum_Z (map (join_rows db) us)).
  f_equal. unfold join_rows, joined_attrs, left_join. cbn [flat_map]. rewrite app_nil_r.
  destruct (filter _ (tbl_base_attrs db)) as [ | ba ms ]; [ reflexivity | ].
  rewrite length_map. cbn [List.length]. lia.
Qed.

Lemma left_join_as_path_counts (db : database) (us : list ip_rib.row) :
  as_path_counts (left_join us (tbl_base_attrs db)) = joined_as_path_counts db us.
Proof.
  unfold as_path_counts, joined_as_path_counts.
  induction us as [ | r us IH ]; [ reflexivity | ].
  rewrite left_join_cons, flat_map_app, IH. cbn [flat_map]. f_equal.
  unfold joined_attrs, left_join. cbn [flat_map]. rewrite app_nil_r.
  destruct (filter _ (tbl_base_attrs db)) as [ | ba ms ]; [ reflexivity | ].
  generalize (ba :: ms). intros l.
  induction l as [ | ba' l IHl ]; [ reflexivity | ].
  cbn [map flat_map j_ba]. rewrite IHl. reflexivity.
Qed.

(** C7: for every raw update [r] inside the scanned interval, the
    aggregator inserts one FeatureRow for the group of the updates of
    the same (floor_to_1min(timestamp), prefix, origin_as), whose
    window is the minute of [r].  Its counts are those of the joined
    rows of the group, and it satisfies total_updates = announcements
    + withdrawals, withdrawal_ratio = withdrawals / max(announcements,
    1), flap_count = floor((announcements + withdrawals) / 2),
    message_rate = total_updates / 60.0; its path_length is the mean
    as_path_count over the joined BaseAttrs (the quotient a [numeric],
    rounded to its scale, then cast to double precision), or 2 +
    (origin_as mod 3) when every joined value is NULL. *)
Theorem C7_feature_row_formulas (db : database) (from_ts to_ts : Z) (r : ip_rib.row) :
  In r (received db from_ts to_ts) ->
  let us := group_of db from_ts to_ts r in
  let counts := joined_as_path_counts db us in
  exists rows f,
    tbl_bgp_features_1min (snd (aggregate_once db from_ts to_ts))
    = (tbl_bgp_features_1min db ++ rows)%list
    /\ NoDup (map feature_key rows)
    /\ In f rows
    /\ feature_key f = (floor_to_1min (ip_rib.timestamp r), ip_rib.prefix r, ip_rib.origin_as r)
    /\ bgp_features_1min.window_start f mod 60000000 = 0
    /\ bgp_features_1min.window_start f <= ip_rib.timestamp r
       < bgp_features_1min.window_start f + 60000000
    /\ bgp_features_1min.announcements f
       = joined_count db (filter (fun u => negb (ip_rib.iswithdrawn u)) us)
    /\ bgp_features_1min.withdrawals f = joined_count db (filter ip_rib.iswithdrawn us)
    /\ bgp_features_1min.total_updates f
       = bgp_features_1min.announcements f + bgp_features_1min.withdrawals f
    /\ bgp_features_1min.withdrawal_ratio f
       = (py.float_of_Z (bgp_features_1min.withdrawals f)
          / py.float_of_Z (Z.max (bgp_features_1min.announcements f) 1))%float
    /\ bgp_features_1min.flap_count f
       = (bgp_features_1min.announcements f + bgp_features_1min.withdrawals f) / 2
    /\ bgp_features_1min.message_rate f
       = (py.float_of_Z (bgp_features_1min.total_updates f) / 60.0)%float
    /\ bgp_features_1min.path_length f = Some (mean_or_fallback (ip_rib.origin_as r) counts)
    /\ (counts <> [] ->
        rounded_mean counts (numeric.div (total counts) (Z.of_nat (List.length counts)))).
Proof.
  intros Hin us counts.
  set (bas := tbl_base_attrs db).
  set (scanned := filter (in_range from_ts to_ts) (left_join (tbl_ip_rib db) bas)).
  assert (Hscanned : scanned = left_join (received db from_ts to_ts) bas).
  { unfold scanned, received. apply filter_left_join. intros j. reflexivity. }
  destruct (left_join [ r ] bas) as [ | j js ] eqn:Hj;
    [ exfalso; exact (left_join_one_not_nil r bas Hj) | ].
  assert (Hj1 : In j (left_join [ r ] bas)) by (rewrite Hj; left; reflexivity).
  assert (Hjr : j_rib j = r) by (exact (left_join_one_rib r bas j Hj1)).
  assert (Hjin : In j scanned).
  { rewrite Hscanned. exact (left_join_in r _ bas j Hin Hj1). }
  set (g := filter (fun j' => key_eqb (key_of j') (key_of j)) scanned).
  assert (Hg : g = left_join us bas).
  { unfold g. rewrite Hscanned. unfold us, group_of. apply filter_left_join.
    intros j'. unfold key_of, key_eqb, same_group. rewrite Hjr. reflexivity. }
  assert (Hann : count_filter is_announcement g
                 = joined_count db (filter (fun u => negb (ip_rib.iswithdrawn u)) us)).
  { unfold count_filter. rewrite Hg.
    rewrite (filter_left_join is_announcement (fun u => negb (ip_rib.iswithdrawn u)))
      by (intros j'; reflexivity).
    apply left_join_length. }
  assert (Hwd : count_filter is_withdrawal g = joined_count db (filter ip_rib.iswithdrawn us)).
  { unfold count_filter. rewrite Hg.
    rewrite (filter_left_join is_withdrawal ip_rib.iswithdrawn) by (intros j'; reflexivity).
    apply left_join_length. }
  assert (Hcounts : as_path_counts g = counts).
  { rewrite Hg. apply left_join_as_path_counts. }
  destruct (number_rows_in (selected_groups db from_ts to_ts) (key_of j, g)
              (group_by_in scanned j Hjin) (seq_bgp_features_1min db)) as [n Hn].
  exists (number_rows (seq_bgp_features_1min db) (selected_groups db from_ts to_ts)).
  exists (feature_of n (key_of j, g)).
  split; [ reflexivity | ].
  split.
  { rewrite number_rows_keys. unfold selected_groups. rewrite group_by_keys.
    apply distinct_NoDup. exact key_eqb_eq. }
  split; [ exact Hn | ].
  unfold key_of. rewrite Hjr.
  cbn [feature_of feature_key bgp_features_1min.window_start bgp_features_1min.prefix
       bgp_features_1min.origin_as bgp_features_1min.announcements
       bgp_features_1min.withdrawals bgp_features_1min.total_updates
       bgp_features_1min.withdrawal_ratio bgp_features_1min.flap_count
       bgp_features_1min.message_rate bgp_features_1min.path_length].
  rewrite <- Hann, <- Hwd.
  repeat match goal with |- _ /\ _ => split end; try reflexivity.
  - unfold floor_to_1min. rewrite Z.mul_comm. apply Z.mod_mul. lia.
  - unfold floor_to_1min. apply Z.mul_div_le. lia.
  - unfold floor_to_1min.
    pose proof (Z.mod_pos_bound (ip_rib.timestamp r) 60000000 ltac:(lia)).
    pose proof (Z.div_mod (ip_rib.timestamp r) 60000000 ltac:(lia)). lia.
  - apply counts_add_up.
  - rewrite Z.quot_div_nonneg.
    + f_equal. apply Z.add_comm.
    + pose proof (count_filter_nonneg is_withdrawal g).
      pose proof (count_filter_nonneg is_announcement g). lia.
    + lia.
  - f_equal. unfold path_length_of, avg, mean_or_fallback. rewrite Hcounts, total_sum_Z.
    destruct counts; reflexivity.
  - intros Hsome.
    assert (Hlen : 0 < Z.of_nat (List.length counts)).
    { destruct counts; [ contradiction | cbn [List.length]; lia ]. }
    destruct (div_rounds (total counts) (Z.of_nat (List.length counts)) Hlen) as ((Hs & _) & Hhalf).
    unfold rounded_mean. cbv zeta.
    split; [ exact Hs | ]. split; [ exact Hhalf | ].
    intros Hnz Hcap. apply div_significant; assumption.
Qed.

(** The theorem at work on the busy minute of [example.busy_minute_db]:
    ten updates, six announcements and four withdrawals, AS paths of
    1, 1, 1, 1, 1, 2, 1, 1, 2 hops and one of no known length.  The
    mean path length 11/9 is stored as 1.2222222222222221, which is not
    the binary64 quotient of 11 by 9. *)
Lemma C7_feature_row_formulas_witness :
  exists rows f,
    tbl_bgp_features_1min (snd (aggregate_once example.busy_minute_db 0 120000000))
    = (tbl_bgp_features_1min example.busy_minute_db ++ rows)%list
    /\ In f rows
    /\ feature_key f = (60000000, "203.0.113.0/24", 64500)
    /\ bgp_features_1min.announcements f = 6
    /\ bgp_features_1min.withdrawals f = 4
    /\ bgp_features_1min.total_updates f = 10
    /\ bgp_features_1min.withdrawal_ratio f = (4 / 6)%float
    /\ bgp_features_1min.flap_count f = 5
    /\ bgp_features_1min.message_rate f = (10 / 60)%float
    /\ bgp_features_1min.path_length f = Some 1.2222222222222221%float
    /\ PrimFloat.eqb 1.2222222222222221%float (11 / 9)%float = false.
Proof.
  destruct (C7_feature_row_formulas example.busy_minute_db 0 120000000
              (example.update "path-1" 61000000 false))
    as (rows & f & Htbl & _ & Hin & Hkey & _ & _ & Hann & Hwd & Htotal & Hratio & Hflap
        & Hrate & Hpath & _).
  - left. reflexivity.
  - exists rows, f.
    assert (Ha : bgp_features_1min.announcements f = 6) by (rewrite Hann; reflexivity).
    assert (Hw : bgp_features_1min.withdrawals f = 4) by (rewrite Hwd; reflexivity).
    assert (Ht : bgp_features_1min.total_updates f = 10) by (rewrite Htotal, Ha, Hw; reflexivity).
    repeat match goal with |- _ /\ _ => split end.
    + exact Htbl.
    + exact Hin.
    + rewrite Hkey. reflexivity.
    + exact Ha.
    + exact Hw.
    + exact Ht.
    + rewrite Hratio, Ha, Hw. reflexivity.
    + rewrite Hflap, Ha, Hw. reflexivity.
    + rewrite Hrate, Ht. reflexivity.
    + rewrite Hpath. vm_compute. reflexivity.
    + vm_compute. reflexivity.
Defined.

(** C3, the claim as stated fails: the second run over the same range
    inserts the triple a second time; nothing ignores the duplicate. *)
Lemma C3_rerun_duplicates_the_triple :
  let db1 := snd (aggregate_once example.rib_db 0 120000000) in
  let db2 := snd (aggregate_once db1 0 120000000) in
  map feature_key (tbl_bgp_features_1min db1) = [ (60000000, "203.0.113.0/24", 64500) ]
  /\ map feature_key (tbl_bgp_features_1min db2)
     = [ (60000000, "203.0.113.0/24", 64500); (60000000, "203.0.113.0/24", 64500) ]
  /\ map bgp_features_1min.id (tbl_bgp_features_1min db2) = [ 1; 2 ].
Proof. vm_compute. repeat split; reflexivity. Qed.

(** C3, amended: running the aggregator a second time over the same
    (from_ts, to_ts] range, on the same raw updates, computes the same
    feature rows as the first run and inserts them again: the table
    holds the rows of the first run followed by the same rows under new
    ids, and both runs report the same row count.  (The INSERT has no
    ON CONFLICT clause and the table of ensure_tables has no uniqueness
    on (window_start, prefix, origin_as).) *)
Theorem C3_rerun_inserts_the_same_rows_again (db : database) (from_ts to_ts : Z) :
  let run1 := aggregate_once db from_ts to_ts in
  let run2 := aggregate_once (snd run1) from_ts to_ts in
  exists rows,
    tbl_bgp_features_1min (snd run1) = (tbl_bgp_features_1min db ++ rows)%list
    /\ tbl_bgp_features_1min (snd run2)
       = (tbl_bgp_features_1min db ++ rows ++ map (bgp_features_1min.shift_id (fst run1)) rows)%list
    /\ fst run1 = Z.of_nat (List.length rows)
    /\ fst run2 = fst run1.
Proof.
  intros run1 run2.
  exists (number_rows (seq_bgp_features_1min db) (selected_groups db from_ts to_ts)).
  subst run2 run1. unfold aggregate_once. cbn [fst snd].
  change (selected_groups (set_features _ _ db) from_ts to_ts)
    with (selected_groups db from_ts to_ts).
  cbn [set_features tbl_bgp_features_1min seq_bgp_features_1min].
  rewrite number_rows_shift, <- app_assoc.
  repeat split.
  rewrite length_map. reflexivity.
Qed.

End Aggregator.

(** ** The heuristic rule on session resets *)

Section SessionResets.

Import spec.

Lemma check_session_resets_cases (row : bgp_features_1min.row) :
  let n := bgp_features_1min.session_resets row in
  (50 < n /\ fires "critical" row)
  \/ (11 <= n <= 50 /\ fires "high" row)
  \/ (6 <= n < 11 /\ fires "medium" row)
  \/ (n < 6 /\ heuristic_detector.check_session_resets row = None).
Proof.
  unfold fires, heuristic_detector.check_session_resets.
  unfold heuristic_detector.THRESHOLDS_session_resets_critical,
         heuristic_detector.THRESHOLDS_session_resets_high,
         heuristic_detector.THRESHOLDS_session_resets_medium.
  cbv zeta.
  destruct (Z.ltb_spec 50 (bgp_features_1min.session_resets row)) as [H50 | H50].
  - left. split; [ exact H50 | reflexivity ].
  - destruct (Z.leb_spec 11 (bgp_features_1min.session_resets row)) as [H11 | H11].
    + right; left. split; [ lia | reflexivity ].
    + destruct (Z.leb_spec 6 (bgp_features_1min.session_resets row)) as [H6 | H6].
      * right; right; left. split; [ lia | reflexivity ].
      * right; right; right. split; [ lia | reflexivity ].
Qed.

(** C8, the claim as stated fails at 50 resets: the rule answers "high",
    where the claim asks for "critical". *)
Lemma C8_fifty_resets_is_high :
  option_map heuristic_detector.severity
    (heuristic_detector.check_session_resets
       {| bgp_features_1min.id := 1;
          bgp_features_1min.window_start := 0;
          bgp_features_1min.window_end := 60000000;
          bgp_features_1min.prefix := "203.0.113.0/24";
          bgp_features_1min.origin_as := 64500;
          bgp_features_1min.announcements := 1;
          bgp_features_1min.withdrawals := 0;
          bgp_features_1min.total_updates := 1;
          bgp_features_1min.withdrawal_ratio := 0%float;
          bgp_features_1min.flap_count := 0;
          bgp_features_1min.path_length := Some 3%float;
          bgp_features_1min.unique_peers := 1;
          bgp_features_1min.message_rate := 0%float;
          bgp_features_1min.session_resets := 50 |})
  = Some "high".
Proof. reflexivity. Qed.

(** C8, amended: the session_resets rule fires with severity medium
    exactly when 6 <= session_resets < 11, with severity high exactly
    when 11 <= session_resets <= 50, with severity critical exactly when
    session_resets > 50, and does not fire exactly when
    session_resets < 6. *)
Theorem C8_session_resets_thresholds (row : bgp_features_1min.row) :
  let n := bgp_features_1min.session_resets row in
  (fires "medium" row <-> 6 <= n < 11)
  /\ (fires "high" row <-> 11 <= n <= 50)
  /\ (fires "critical" row <-> 50 < n)
  /\ (heuristic_detector.check_session_resets row = None <-> n < 6).
Proof.
  intros n.
  destruct (check_session_resets_cases row) as [[Hn Hf] | [[Hn Hf] | [[Hn Hf] | [Hn Hf]]]];
    fold n in Hn; unfold fires in *;
    repeat match goal with
      | |- _ /\ _ => split
      | |- _ <-> _ => split
      end;
    intros H; try lia; try assumption;
    try (rewrite Hf in H; simpl in H; congruence);
    try (rewrite H in Hf; simpl in Hf; congruence).
Qed.

End SessionResets.

(** ** The z-score ensemble of the ML detector *)

Section Ensemble.

Import ml_inference_service.

Local Open Scope float_scope.

Lemma Prim2SF_2 : Prim2SF 2 = S754_finite false 4503599627370496 (-51).
Proof. reflexivity. Qed.

Lemma Prim2SF_3 : Prim2SF 3 = S754_finite false 6755399441055744 (-51).
Proof. reflexivity. Qed.

Lemma Prim2SF_4 : Prim2SF 4 = S754_finite false 4503599627370496 (-50).
Proof. reflexivity. Qed.

Lemma Prim2SF_5 : Prim2SF 5 = S754_finite false 5629499534213120 (-50).
Proof. reflexivity. Qed.

(** Comparisons of a float with the bucket edges, through the
    specification of the primitive comparisons.  The mantissas of the
    edges are named, so that no comparison computes on them. *)
Lemma compare_cont_Eq_spec (a b : positive) :
  CompareSpec (a = b) (a < b)%positive (b < a)%positive (PosDef.Pos.compare_cont Eq a b).
Proof. exact (Pos.compare_spec a b). Qed.

Ltac to_spec :=
  rewrite ?FloatAxioms.leb_spec, ?FloatAxioms.ltb_spec;
  rewrite ?Prim2SF_2, ?Prim2SF_3, ?Prim2SF_4, ?Prim2SF_5;
  match goal with |- context [ Prim2SF ?c ] => generalize (Prim2SF c) end;
  let x := fresh "x" in
  let k1 := fresh "k" in
  let k2 := fresh "k" in
  let k3 := fresh "k" in
  intros x;
  remember 4503599627370496%positive as k1;
  remember 6755399441055744%positive as k2;
  remember 5629499534213120%positive as k3;
  destruct x as [ [|] | [|] | | [|] ? ? ];
  cbv beta iota delta [SFleb SFltb SFcompare];
  try discriminate; try reflexivity.

Ltac split_compare :=
  repeat match goal with
    | |- context [ (?a ?= ?b)%Z ] => destruct (Z.compare_spec a b)
    | |- context [ PosDef.Pos.compare_cont Eq ?a ?b ] => destruct (compare_cont_Eq_spec a b)
    end;
  try discriminate; try reflexivity; try lia.

Lemma le3_not_lt2 c : (3 <=? c) = true -> (c <? 2) = false.
Proof. to_spec; split_compare. Qed.

Lemma le3_not_lt3 c : (3 <=? c) = true -> (c <? 3) = false.
Proof. to_spec; split_compare. Qed.

Lemma le4_not_lt2 c : (4 <=? c) = true -> (c <? 2) = false.
Proof. to_spec; split_compare. Qed.

Lemma le4_not_lt3 c : (4 <=? c) = true -> (c <? 3) = false.
Proof. to_spec; split_compare. Qed.

Lemma le4_not_lt4 c : (4 <=? c) = true -> (c <? 4) = false.
Proof. to_spec; split_compare. Qed.

Lemma not_lt3_not_lt2 c : (c <? 3) = false -> (c <? 2) = false.
Proof. to_spec; split_compare. Qed.

Lemma not_lt3_le3_or_unordered c :
  (c <? 3) = false -> (3 <=? c) = true \/ ((c <? 4) = false /\ (c <? 5) = false).
Proof.
  destruct (3 <=? c) eqn:H3; [ left; reflexivity | right ].
  revert H3 H. to_spec; try (split; reflexivity); split_compare.
Qed.

Lemma not_lt4_le4_or_unordered c :
  (c <? 4) = false -> (4 <=? c) = true \/ (c <? 5) = false.
Proof.
  destruct (4 <=? c) eqn:H4; [ left; reflexivity | right ].
  revert H4 H. to_spec; split_compare.
Qed.

Lemma severity_low c : (c <? 3) = true -> severity_of c = "low"%string.
Proof.
  intros H. unfold severity_of. destruct (c <? 2.0); [ reflexivity | ].
  change 3.0 with 3. rewrite H. reflexivity.
Qed.

Lemma severity_medium c : (3 <=? c) = true -> (c <? 4) = true -> severity_of c = "medium"%string.
Proof.
  intros H3 H4. unfold severity_of.
  change 2.0 with 2. change 3.0 with 3. change 4.0 with 4.
  rewrite (le3_not_lt2 c H3), (le3_not_lt3 c H3), H4. reflexivity.
Qed.

Lemma severity_high c : (4 <=? c) = true -> (c <? 5) = true -> severity_of c = "high"%string.
Proof.
  intros H4 H5. unfold severity_of.
  change 2.0 with 2. change 3.0 with 3. change 4.0 with 4. change 5.0 with 5.
  rewrite (le4_not_lt2 c H4), (le4_not_lt3 c H4), (le4_not_lt4 c H4), H5. reflexivity.
Qed.

Lemma severity_critical c :
  (c <? 3) = false ->
  ((3 <=? c) && (c <? 4))%bool = false ->
  ((4 <=? c) && (c <? 5))%bool = false ->
  severity_of c = "critical"%string.
Proof.
  intros H3 Hm Hh. unfold severity_of.
  change 2.0 with 2. change 3.0 with 3. change 4.0 with 4. change 5.0 with 5.
  rewrite (not_lt3_not_lt2 c H3), H3.
  destruct (not_lt3_le3_or_unordered c H3) as [Hle | [H4 H5]].
  - rewrite Hle in Hm. simpl in Hm. rewrite Hm.
    destruct (not_lt4_le4_or_unordered c Hm) as [Hle4 | H5].
    + rewrite Hle4 in Hh. simpl in Hh. rewrite Hh. reflexivity.
    + rewrite H5. reflexivity.
  - rewrite H4, H5. reflexivity.
Qed.

Lemma ensemble_from_in cfg i iso_scores lstm_scores_dict df r :
  In r (ensemble_from cfg i iso_scores lstm_scores_dict df) ->
  exists iso lstm, r = score_row cfg iso lstm.
Proof.
  revert i. induction df as [ | row df IH ]; intros i Hin.
  - contradiction.
  - destruct Hin as [ <- | Hin ].
    + eexists; eexists; reflexivity.
    + exact (IH (S i) Hin).
Qed.

(** C6, the claim as stated fails when ENSEMBLE_METHOD is neither "avg"
    nor "max": the scores are averaged, where the claim asks for their
    maximum.  With z_iso = -0 and z_lstm about 4.48 the row is scored
    low and is no anomaly; the maximum would be high and an anomaly. *)
Lemma C6_unknown_method_is_averaged :
  let r := score_row example.median_config (-0.14) 26.0 in
  compute_z_score_ensemble example.median_config [ (-0.14) ]
    [ (("8.8.8.0/24"%string, 15169%Z, 0%Z), 26.0) ] [ example.feature_row 1 0 ] = [ r ]
  /\ combined_score r = (z_iso r + z_lstm r) / 2
  /\ combined_severity r = "low"%string
  /\ combined_anomaly r = false
  /\ severity_of (py_max (z_iso r) (z_lstm r)) = "high"%string
  /\ (3.0 <=? py_max (z_iso r) (z_lstm r)) = true.
Proof. vm_compute. repeat split; reflexivity. Qed.

(** C6, amended: for every scored feature row, z_iso = -((iso_score -
    (-0.14)) / 0.012) and z_lstm = (lstm_score - 13.99) / 2.68; the
    combined score is max(z_iso, z_lstm) when ENSEMBLE_METHOD is "max"
    and (z_iso + z_lstm) / 2 otherwise; the anomaly flag is true exactly
    when combined >= ANOMALY_THRESHOLD (3.0 unless the environment sets
    it); the severity is low when combined < 3, medium when 3 <=
    combined < 4, high when 4 <= combined < 5 and critical otherwise
    (so 2.9999 gives low, 3.0 medium, 5.0 critical). *)
Theorem C6_z_score_ensemble cfg iso_scores lstm_scores_dict df r :
  In r (compute_z_score_ensemble cfg iso_scores lstm_scores_dict df) ->
  let c := combined_score r in
  z_iso r = - ((iso_raw r - (-0.14)) / 0.012)
  /\ z_lstm r = (lstm_raw r - 13.99) / 2.68
  /\ c = (if String.eqb (ENSEMBLE_METHOD cfg) "max" then py_max (z_iso r) (z_lstm r)
          else (z_iso r + z_lstm r) / 2)
  /\ combined_anomaly r = (ANOMALY_THRESHOLD cfg <=? c)
  /\ ((c <? 3) = true -> combined_severity r = "low"%string)
  /\ ((3 <=? c) = true -> (c <? 4) = true -> combined_severity r = "medium"%string)
  /\ ((4 <=? c) = true -> (c <? 5) = true -> combined_severity r = "high"%string)
  /\ ((c <? 3) = false -> ((3 <=? c) && (c <? 4))%bool = false ->
      ((4 <=? c) && (c <? 5))%bool = false -> combined_severity r = "critical"%string)
  /\ severity_of 2.9999 = "low"%string
  /\ severity_of 3.0 = "medium"%string
  /\ severity_of 5.0 = "critical"%string.
Proof.
  intros Hin c. subst c.
  destruct (ensemble_from_in _ _ _ _ _ _ Hin) as (iso & lstm & ->).
  cbn [score_row z_iso z_lstm iso_raw lstm_raw combined_score combined_anomaly combined_severity].
  repeat match goal with |- _ /\ _ => split end;
    try reflexivity.
  - apply severity_low.
  - apply severity_medium.
  - apply severity_high.
  - apply severity_critical.
Qed.

(** The theorem at work on a default configuration and one row. *)
Lemma C6_z_score_ensemble_witness :
  let r := score_row default_config (-0.14) 26.0 in
  In r (compute_z_score_ensemble default_config [ (-0.14) ]
          [ (("8.8.8.0/24"%string, 15169%Z, 0%Z), 26.0) ] [ example.feature_row 1 0 ])
  /\ combined_anomaly r = (ANOMALY_THRESHOLD default_config <=? combined_score r).
Proof.
  split.
  - left. reflexivity.
  - apply (C6_z_score_ensemble default_config [ (-0.14) ]
             [ (("8.8.8.0/24"%string, 15169%Z, 0%Z), 26.0) ] [ example.feature_row 1 0 ]).
    left. reflexivity.
Defined.

End Ensemble.

(** ** Reasoning about computations *)

Section Preservation.

Context {W : Type} (P : W -> Prop).

Lemma preserves_ret {A} (a : A) : py.preserves P (py.ret a).
Proof. intros w H. exact H. Qed.

Lemma preserves_raise {A} (e : py.exn) : py.preserves P (@py.raise W A e).
Proof. intros w H. exact H. Qed.

Lemma preserves_lift {A} (r : py.result A) : py.preserves P (py.lift r).
Proof. intros w H. exact H. Qed.

Lemma preserves_get : py.preserves P (@py.get W).
Proof. intros w H. exact H. Qed.

Lemma preserves_modify (f : W -> W) : (forall w, P w -> P (f w)) -> py.preserves P (py.modify f).
Proof. intros Hf w H. apply Hf. exact H. Qed.

Lemma preserves_bind {A B} (m : py.M W A) (k : A -> py.M W B) :
  py.preserves P m -> (forall a, py.preserves P (k a)) -> py.preserves P (py.bind m k).
Proof.
  intros Hm Hk w H. unfold py.bind.
  specialize (Hm w H). destruct (m w) as [[a | e] w'].
  - apply Hk. exact Hm.
  - exact Hm.
Qed.

Lemma preserves_try_except {A} (m : py.M W A) (h : py.exn -> py.M W A) :
  py.preserves P m -> (forall e, py.preserves P (h e)) -> py.preserves P (py.try_except m h).
Proof.
  intros Hm Hh w H. unfold py.try_except.
  specialize (Hm w H). destruct (m w) as [[a | e] w'].
  - exact Hm.
  - apply Hh. exact Hm.
Qed.

Lemma preserves_try_finally {A} (m : py.M W A) (f : py.M W unit) :
  py.preserves P m -> py.preserves P f -> py.preserves P (py.try_finally m f).
Proof.
  intros Hm Hf w H. unfold py.try_finally.
  specialize (Hm w H). destruct (m w) as [[a | e] w'];
    specialize (Hf w' Hm); destruct (f w') as [[u | e'] w'']; exact Hf.
Qed.

Lemma preserves_fold_for {A S} (l : list A) (body : S -> A -> py.M W S) :
  (forall acc x, py.preserves P (body acc x)) -> forall acc, py.preserves P (py.fold_for l acc body).
Proof.
  intros Hbody. induction l as [ | x l IH ]; intros acc; simpl.
  - apply preserves_ret.
  - apply preserves_bind; [ apply Hbody | exact IH ].
Qed.

End Preservation.

(** The structure of a computation, taken apart down to its primitive
    steps. *)
Ltac preserve_step :=
  lazymatch goal with
  | |- py.preserves _ (py.bind _ _) => apply preserves_bind; [ | intros ? ]
  | |- py.preserves _ (py.try_except _ _) => apply preserves_try_except; [ | intros ? ]
  | |- py.preserves _ (py.try_finally _ _) => apply preserves_try_finally
  | |- py.preserves _ (py.ret _) => apply preserves_ret
  | |- py.preserves _ (py.raise _) => apply preserves_raise
  | |- py.preserves _ (py.lift _) => apply preserves_lift
  | |- py.preserves _ py.get => apply preserves_get
  | |- py.preserves _ (py.fold_for _ _ _) => apply preserves_fold_for; intros ? ?
  | |- py.preserves _ (match ?x with _ => _ end) => destruct x
  end.

(** ** The RPKI detector *)

Section Rpki.

Import store rpki_validator_service.

Variable L : py.lib.

(** *** The checkpoint *)

(** C2 (the code departs from the claim): [update_state] never changes
    what the store holds.  The UPDATE has two placeholders and is
    executed with no parameter, so it raises in every world, and the
    checkpoint of the RPKI detector stays where it was, whatever the
    timestamp and the count passed. *)
Theorem C2_update_state_never_advances (last_timestamp processed_count : Z) (w : world) :
  committed (snd (update_state last_timestamp processed_count w)) = committed w.
Proof.
  unfold update_state, py.try_except, py.bind, cursor, execute_update, py.bind, py.lift,
    bind_parameters, send, commit, rollback, logger, py.modify.
  destruct w as [c s tf co fs h rq sl n lg]. cbn.
  destruct co; cbn; [ | reflexivity ].
  destruct fs as [ | [ | m | m ] fs ]; cbn; destruct tf; cbn; reflexivity.
Qed.

(** The raise itself: in a world whose connection is open, the
    statement reaches the server and the handler logs the error. *)
Lemma update_state_logs_an_error (last_timestamp processed_count : Z) (w : world) :
  conn_open w = true ->
  exists msg, log (snd (update_state last_timestamp processed_count w))
              = ("ERROR"%string, msg) :: log w.
Proof.
  unfold update_state, py.try_except, py.bind, cursor, execute_update, py.bind, py.lift,
    bind_parameters, send, commit, rollback, logger, py.modify.
  destruct w as [c s tf co fs h rq sl n lg]. cbn. intros ->. cbn.
  destruct fs as [ | [ | m | m ] fs ]; cbn; destruct tf; cbn; eexists; reflexivity.
Qed.

(** *** The retry budget *)

Lemma made_by_refl url w n : spec.made_by url w w n.
Proof. exists []. repeat split; [ apply Nat.le_0_l | constructor ]. Qed.

Lemma attempts_budget (url prefix : string) (asn : Z) (range : list nat) (w : world) :
  spec.made_by url w (snd (attempts url prefix asn range w)) (List.length range).
Proof.
  revert w. induction range as [ | attempt range IH ]; intros w.
  - apply made_by_refl.
  - cbn [attempts]. unfold py.bind at 1. unfold requests_get at 1.
    set (w1 := {| committed := committed w; session := session w; txn_failed := txn_failed w;
                  conn_open := conn_open w; db_faults := db_faults w; http := tl (http w);
                  requests := (url, REQUEST_TIMEOUT) :: requests w; sleeps := sleeps w;
                  now := now w; log := log w |}).
    assert (Hstep : forall w2, requests w2 = requests w1 ->
                    spec.made_by url w (snd (attempts url prefix asn range w2)) (S (List.length range))).
    { intros w2 H2. destruct (IH w2) as (reqs & Hr & Hl & Hf).
      exists (reqs ++ [ (url, REQUEST_TIMEOUT) ])%list. repeat split.
      - rewrite Hr, H2. subst w1. cbn. rewrite <- app_assoc. reflexivity.
      - rewrite length_app. cbn. lia.
      - apply Forall_app. split; [ exact Hf | repeat constructor ]. }
    assert (Hnow : forall w2, requests w2 = requests w1 ->
                   spec.made_by url w w2 (S (List.length range))).
    { intros w2 H2. exists [ (url, REQUEST_TIMEOUT) ]. repeat split.
      - rewrite H2. reflexivity.
      - cbn. lia.
      - repeat constructor. }
    destruct (match http w with [] => ConnectionError | o :: _ => o end)
      as [ status_code body | | | e ].
    + destruct (status_code =? 200).
      * destruct body; apply Hnow; reflexivity.
      * destruct (status_code =? 503).
        -- unfold py.bind, logger, sleep, py.modify. cbn. apply Hstep. reflexivity.
        -- unfold py.bind, logger, py.modify, py.ret. cbn. apply Hnow. reflexivity.
    + destruct (Nat.ltb attempt (MAX_RETRIES - 1));
        unfold py.bind, logger, sleep, py.modify, py.ret; cbn; apply Hstep; reflexivity.
    + unfold py.bind, logger, py.modify, py.ret. cbn. apply Hnow. reflexivity.
    + apply Hnow. reflexivity.
Qed.

Lemma query_routinator_api_budget (asn : Z) (prefix : string) (w : world) :
  spec.within_budget w (snd (query_routinator_api L asn prefix w)).
Proof.
  unfold query_routinator_api, py.try_except.
  destruct (py.ip_network L false prefix) as [ network | ].
  - match goal with |- context [ attempts ?u ?p ?a ?r w ] =>
      pose proof (attempts_budget u p a r w) as Hb;
      destruct (attempts u p a r w) as [[j | e] w']
    end; cbn [snd] in *;
      destruct Hb as (reqs & Hr & Hl & Hf);
      exists reqs; (split; [ exact Hr | split; [ rewrite length_seq in Hl; exact Hl | ] ]);
      (eapply Forall_impl; [ | exact Hf ]); intros r ->; reflexivity.
  - exists []. repeat split; [ apply Nat.le_0_l | constructor ].
Qed.

Lemma attempts_three_timeouts (url prefix : string) (asn : Z) (w : world) (rest : list http_outcome) :
  http w = Timeout :: Timeout :: Timeout :: rest ->
  fst (attempts url prefix asn (seq 0 MAX_RETRIES) w) = py.Ok py.JNull.
Proof.
  destruct w as [c s tf co fs h rq sl n lg]. cbn [http]. intros ->. reflexivity.
Qed.

Lemma query_routinator_api_three_timeouts (asn : Z) (prefix : string) (w : world)
                                          (rest : list http_outcome) :
  http w = Timeout :: Timeout :: Timeout :: rest ->
  fst (query_routinator_api L asn prefix w) = py.Ok py.JNull.
Proof.
  intros Hhttp. unfold query_routinator_api, py.try_except.
  destruct (py.ip_network L false prefix) as [ network | ].
  - match goal with |- context [ attempts ?u ?p ?a ?r w ] =>
      pose proof (attempts_three_timeouts u p a w rest Hhttp) as Ha;
      destruct (attempts u p a r w) as [[j | e] w']
    end; cbn [fst] in Ha.
    + exact Ha.
    + discriminate Ha.
  - reflexivity.
Qed.

Lemma validate_rpki_three_timeouts (row : bgp_features_1min.row) (w : world)
                                   (rest : list http_outcome) :
  http w = Timeout :: Timeout :: Timeout :: rest ->
  fst (validate_rpki L row w) = py.Ok None.
Proof.
  intros Hhttp. unfold validate_rpki, py.try_except.
  destruct (get_prefix_length L (bgp_features_1min.prefix row)) as [ prefix_length | ].
  - unfold py.bind at 1.
    pose proof (query_routinator_api_three_timeouts
                  (bgp_features_1min.origin_as row) (bgp_features_1min.prefix row) w rest Hhttp) as Hq.
    destruct (query_routinator_api L (bgp_features_1min.origin_as row)
                (bgp_features_1min.prefix row) w) as [[j | e] w']; cbn [fst] in Hq.
    + injection Hq as ->. reflexivity.
    + discriminate Hq.
  - reflexivity.
Qed.

Lemma logger_keeps_store c s level msg : py.preserves (spec.store_is c s) (logger level msg).
Proof. apply preserves_modify. intros w H. exact H. Qed.

Lemma sleep_keeps_store c s n : py.preserves (spec.store_is c s) (sleep n).
Proof. apply preserves_modify. intros w H. exact H. Qed.

Lemma requests_get_keeps_store c s url timeout :
  py.preserves (spec.store_is c s) (requests_get url timeout).
Proof. intros w H. exact H. Qed.

Lemma attempts_keeps_store c s url prefix asn range :
  py.preserves (spec.store_is c s) (attempts url prefix asn range).
Proof.
  induction range as [ | attempt range IH ]; cbn [attempts].
  - apply preserves_ret.
  - apply preserves_bind; [ apply requests_get_keeps_store | ].
    intros [ status_code body | | | e ].
    + destruct (status_code =? 200); [ destruct body; preserve_step | ].
      destruct (status_code =? 503); repeat preserve_step;
        first [ apply logger_keeps_store | apply sleep_keeps_store | exact IH ].
    + repeat preserve_step;
        first [ apply logger_keeps_store | apply sleep_keeps_store | exact IH ].
    + repeat preserve_step; apply logger_keeps_store.
    + apply preserves_raise.
Qed.

Lemma query_routinator_api_keeps_store c s asn prefix :
  py.preserves (spec.store_is c s) (query_routinator_api L asn prefix).
Proof.
  unfold query_routinator_api.
  apply preserves_try_except.
  - destruct (py.ip_network L false prefix);
      [ apply attempts_keeps_store | apply preserves_raise ].
  - intros e. repeat preserve_step. apply logger_keeps_store.
Qed.

Lemma validate_rpki_keeps_store c s row : py.preserves (spec.store_is c s) (validate_rpki L row).
Proof.
  unfold validate_rpki.
  apply preserves_try_except.
  - destruct (get_prefix_length L (bgp_features_1min.prefix row)).
    + apply preserves_bind; [ apply query_routinator_api_keeps_store | ].
      intros j. destruct j; try apply preserves_ret;
        (apply preserves_bind; [ apply preserves_lift | ]);
        intros [ | r | state ]; repeat preserve_step; apply logger_keeps_store.
    + repeat preserve_step. apply logger_keeps_store.
  - intros e. repeat preserve_step. apply logger_keeps_store.
Qed.

(** C9: a validation query makes at most 3 requests, each with a
    timeout of 5 seconds; and when the 3 attempts time out,
    [query_routinator_api] returns nothing, [validate_rpki] reports
    nothing, and the feature row leaves the store as it was: no
    detection row is emitted for it. *)
Theorem C9_rpki_retry_budget :
  MAX_RETRIES = 3%nat /\ REQUEST_TIMEOUT = 5
  /\ (forall asn prefix w, spec.within_budget w (snd (query_routinator_api L asn prefix w)))
  /\ (forall row w rest,
        http w = Timeout :: Timeout :: Timeout :: rest ->
        fst (query_routinator_api L (bgp_features_1min.origin_as row)
               (bgp_features_1min.prefix row) w) = py.Ok py.JNull
        /\ fst (validate_rpki L row w) = py.Ok None
        /\ fst (process_feature_rows L [ row ] w) = py.Ok 0
        /\ committed (snd (process_feature_rows L [ row ] w)) = committed w
        /\ session (snd (process_feature_rows L [ row ] w)) = session w).
Proof.
  split; [ reflexivity | ]. split; [ reflexivity | ].
  split; [ exact query_routinator_api_budget | ].
  intros row w rest Hhttp.
  split; [ exact (query_routinator_api_three_timeouts _ _ w rest Hhttp) | ].
  pose proof (validate_rpki_three_timeouts row w rest Hhttp) as Hv.
  split; [ exact Hv | ].
  pose proof (validate_rpki_keeps_store (committed w) (session w) row w (conj eq_refl eq_refl))
    as [Hc Hs].
  unfold process_feature_rows. cbn [py.fold_for].
  unfold py.bind at 1. unfold process_row, py.try_except, py.bind.
  destruct (validate_rpki L row w) as [[r | e] w']; cbn [fst snd] in *.
  - injection Hv as ->. cbn. auto.
  - discriminate Hv.
Qed.

(** *** The decision table *)

Import spec.






End Rpki.


(** ** The correlation engine *)

Section Correlation.

Import spec correlation_engine.

(** The scenario gives one correlation group of two detections: the
    RPKI detection of a MaxLength violation, and the heuristic
    detection whose only rule is path_inflation_high. *)
Lemma leak_scenario_detections :
  fst example.heuristic_run = py.Ok 1
  /\ fst example.rpki_run = py.Ok 1
  /\ map (fun r => hybrid_anomaly_detections.event_type (hybrid_anomaly_detections.cols r))
         example.leak_detections = [ "heuristic"; "rpki" ]
  /\ map triggered_rule_names example.leak_detections
     = [ [ py.JStr "path_inflation_high" ]; [] ]
  /\ map rpki_description example.leak_detections
     = [ py.JNull;
         py.JStr "MaxLength violation: prefix /24 exceeds max_length /23 - LEAK/CONFIG ERROR" ]
  /\ map fst (groupby example.leak_detections) = [ ("8.8.8.0/24", 15169, example.ten_hours) ]
  /\ map snd (groupby example.leak_detections) = [ example.leak_detections ].
Proof. vm_compute. repeat split; reflexivity. Qed.

(** C1 (the code departs from the claim): on the group of the
    route-leak scenario, which holds no origin mismatch, an RPKI
    detection of a MaxLength violation and a heuristic detection that
    lists the path_inflation rule, [classify_detection_group] returns
    LEAK with severity high, not critical. *)
Theorem C1_leak_with_path_inflation_is_high :
  classify_detection_group example.leak_detections
  = py.Ok ("LEAK", "high", 2, "RPKI MaxLength violation - potential route leak").
Proof. vm_compute. reflexivity. Qed.

(** The test ['path_inflation' in rules] compares the string with the
    entries of [triggered_rules], which are objects: it holds for no
    list of hits. *)
Lemma path_inflation_in_hits (hits : list heuristic_detector.HeuristicHit) :
  py.str_in "path_inflation" (py.JList (map heuristic_detector.hit_json hits)) = py.Ok false.
Proof.
  cbn [py.str_in]. f_equal.
  induction hits as [ | hit hits IH ]; [ reflexivity | exact IH ].
Qed.

(** So [has_path_inflation] stays false on the detections the heuristic
    detector writes. *)
Lemma scan_heuristic_written (rows : list hybrid_anomaly_detections.row) (flag : bool) :
  Forall written_by_heuristic_detector rows ->
  scan_heuristic rows flag = py.Ok flag.
Proof.
  intros Hrows. revert flag.
  induction Hrows as [ | r rows (row & hits & sc & Hmeta) _ IH ]; intros flag.
  - reflexivity.
  - cbn [scan_heuristic]. unfold metadata_of. rewrite Hmeta.
    unfold heuristic_detector.build_metadata at 1.
    change (py.dict_get (heuristic_detector.build_metadata row hits sc) "triggered_rules"
              (py.JList []))
      with (@py.Ok py.json (py.JList (map heuristic_detector.hit_json hits))).
    cbn [py.rbind]. rewrite path_inflation_in_hits. cbn [py.rbind].
    rewrite orb_false_r. apply IH.
Qed.

End Correlation.

(** ** The heuristic detector *)

Section Heuristic.

Import store heuristic_detector spec.

Variable L : py.lib.

(** *** The table of detections under repeated INSERTs *)


Lemma conflicts_on_conflict d d' r : conflicts d (on_conflict d' r) = conflicts d r.
Proof. unfold on_conflict. destruct (conflicts d' r); reflexivity. Qed.






Lemma conflicts_new n d :
  conflicts d {| hybrid_anomaly_detections.id := n; hybrid_anomaly_detections.cols := d |} = true.
Proof. unfold conflicts. cbn. apply String.eqb_refl. Qed.


Lemma existsb_conflicts_map d d' t :
  existsb (conflicts d) (map (on_conflict d') t) = existsb (conflicts d) t.
Proof.
  induction t as [ | r t IH ]; [ reflexivity | ].
  cbn [map existsb]. rewrite conflicts_on_conflict, IH. reflexivity.
Qed.


Lemma upsert_holds n d t : existsb (conflicts d) (upsert n d t) = true.
Proof.
  unfold upsert. destruct (existsb (conflicts d) t) eqn:H.
  - rewrite existsb_conflicts_map. exact H.
  - rewrite existsb_app. cbn [existsb]. rewrite conflicts_new. apply orb_true_iff. right. reflexivity.
Qed.







(** *** The steps of the detector *)

Lemma set_log_same (w : world) : set_log (log w) w = w.
Proof. destruct w. reflexivity. Qed.

Lemma check_bogon_prefix_run (row : bgp_features_1min.row) (w : world) :
  exists lg,
    check_bogon_prefix L row w
    = (py.Ok (if String.eqb (bgp_features_1min.prefix row) "" then None
              else match bogon_prefix_hit L (bgp_features_1min.prefix row) with
                   | py.Ok h => h
                   | py.Raise _ => None
                   end),
       set_log lg w).
Proof.
  unfold check_bogon_prefix.
  destruct (String.eqb (bgp_features_1min.prefix row) "").
  - exists (log w). rewrite set_log_same. reflexivity.
  - unfold py.try_except, py.lift.
    destruct (bogon_prefix_hit L (bgp_features_1min.prefix row)) as [ h | e ].
    + exists (log w). rewrite set_log_same. reflexivity.
    + eexists. reflexivity.
Qed.

Lemma check_path_inflation_run (row : bgp_features_1min.row) (w : world) :
  conn_open w = true -> query_faults w = [] ->
  exists lg,
    check_path_inflation L row w
    = (py.Ok (if inflation_skipped row then None
              else inflation_hit L (row_path_length row)
                     (baseline_path (bgp_features_1min.prefix row)
                        (bgp_features_1min.origin_as row)
                        (bgp_features_1min.window_start row)
                        (tbl_bgp_features_1min (db w)))),
       set_log lg w).
Proof.
  intros Hopen Hq. unfold check_path_inflation.
  destruct (inflation_skipped row).
  - exists (log w). rewrite set_log_same. reflexivity.
  - exists (log w). rewrite set_log_same.
    destruct w as [d co fi fq lg]. cbn [conn_open query_faults] in *. subst co fq.
    reflexivity.
Qed.

(** On a connection that is open and whose queries do not fail,
    [apply_heuristics] returns the hits read off the features table,
    and changes nothing but the log. *)
Lemma apply_heuristics_run (row : bgp_features_1min.row) (w : world) :
  conn_open w = true -> query_faults w = [] ->
  exists lg,
    apply_heuristics L row w
    = (py.Ok (hits_of L (tbl_bgp_features_1min (db w)) row), set_log lg w).
Proof.
  intros Hopen Hq. unfold apply_heuristics.
  destruct (check_bogon_prefix_run row w) as [lg1 H1].
  unfold py.bind at 1. rewrite H1.
  destruct (check_path_inflation_run row (set_log lg1 w) Hopen Hq) as [lg2 H2].
  unfold py.bind at 1. rewrite H2.
  exists lg2. reflexivity.
Qed.

(** [insert_detection] returns whenever it gets its cursor: whatever
    the INSERT does, the error is caught and logged. *)
Lemma insert_detection_returns (detection : hybrid_anomaly_detections.values) (w : world) :
  conn_open w = true -> fst (insert_detection detection w) = py.Ok tt.
Proof.
  intros Hopen. destruct w as [d co fi fq lg]. cbn [conn_open] in Hopen. subst co.
  destruct fi as [ | [ | m | m ] fi ]; reflexivity.
Qed.

(** The world after [insert_detection], when the INSERT does not lose
    the connection. *)
Lemma insert_detection_run (detection : hybrid_anomaly_detections.values) (w : world) :
  conn_open w = true ->
  (forall m, fst (pg.next_fault (insert_faults w)) <> pg.ConnectionLost m) ->
  exists lg,
    insert_detection detection w
    = (py.Ok tt,
       {| db := insert_under (fst (pg.next_fault (insert_faults w))) detection (db w);
          conn_open := true;
          insert_faults := snd (pg.next_fault (insert_faults w));
          query_faults := query_faults w;
          log := lg |}).
Proof.
  intros Hopen Hkept. destruct w as [d co fi fq lg]. cbn [conn_open insert_faults] in *. subst co.
  destruct fi as [ | [ | m | m ] fi ]; try (eexists; reflexivity).
  exfalso. exact (Hkept m eq_refl).
Qed.

Lemma build_detection_ok (row : bgp_features_1min.row) (hit : HeuristicHit)
                         (hits : list HeuristicHit) :
  exists d, build_detection L row (hit :: hits) = py.Ok d.
Proof.
  unfold build_detection, max_score, get_max_severity, determine_classification.
  cbn [py.rbind]. destruct hits; eexists; reflexivity.
Qed.

(** One turn of the loop of [process_feature_rows]. *)
Lemma process_row_run (acc : Z) (row : bgp_features_1min.row) (w : world) :
  conn_open w = true -> query_faults w = [] ->
  (forall m, fst (pg.next_fault (insert_faults w)) <> pg.ConnectionLost m) ->
  exists lg,
    process_row L acc row w
    = match detection_of L (tbl_bgp_features_1min (db w)) row with
      | None => (py.Ok acc, set_log lg w)
      | Some d =>
          (py.Ok (acc + 1),
           {| db := insert_under (fst (pg.next_fault (insert_faults w))) d (db w);
              conn_open := true;
              insert_faults := snd (pg.next_fault (insert_faults w));
              query_faults := [];
              log := lg |})
      end.
Proof.
  intros Hopen Hq Hkept. unfold process_row, detection_of.
  destruct (apply_heuristics_run row w Hopen Hq) as [lg1 H1].
  unfold py.bind at 1. rewrite H1.
  destruct (hits_of L (tbl_bgp_features_1min (db w)) row) as [ | hit hits ].
  - exists lg1. reflexivity.
  - destruct (build_detection_ok row hit hits) as [d Hd]. rewrite Hd.
    unfold py.bind at 1. unfold py.lift.
    destruct (insert_detection_run d (set_log lg1 w) Hopen Hkept) as [lg2 H2].
    unfold py.bind at 1. rewrite H2.
    exists lg2. unfold py.ret. cbn [set_log db insert_faults query_faults]. rewrite Hq.
    reflexivity.
Qed.

Lemma connection_kept_next (fs : list pg.fault) :
  connection_kept fs ->
  (forall m, fst (pg.next_fault fs) <> pg.ConnectionLost m)
  /\ connection_kept (snd (pg.next_fault fs)).
Proof.
  intros H. destruct H as [ | f fs Hf Hfs ]; cbn.
  - split; [ discriminate | constructor ].
  - split; assumption.
Qed.

Lemma insert_under_features f d db0 :
  tbl_bgp_features_1min (insert_under f d db0) = tbl_bgp_features_1min db0.
Proof. destruct f; reflexivity. Qed.

Lemma insert_under_state f d db0 :
  tbl_heuristic_inference_state (insert_under f d db0) = tbl_heuristic_inference_state db0.
Proof. destruct f; reflexivity. Qed.


Lemma run_inserts_state ds fs db0 :
  tbl_heuristic_inference_state (run_inserts ds fs db0) = tbl_heuristic_inference_state db0.
Proof.
  revert fs db0. induction ds as [ | d ds IH ]; intros fs db0; [ reflexivity | ].
  cbn [run_inserts]. rewrite IH. apply insert_under_state.
Qed.

(** The loop of [process_feature_rows]: it returns, having made the
    INSERTs of the detections of the batch under the faults of the
    stream, whatever the number of INSERTs that fail. *)
Lemma fold_process_row_run (features : list bgp_features_1min.row)
                           (rows : list bgp_features_1min.row) (acc : Z) (w : world) :
  conn_open w = true -> query_faults w = [] -> connection_kept (insert_faults w) ->
  tbl_bgp_features_1min (db w) = features ->
  exists lg fs,
    py.fold_for rows acc (process_row L) w
    = (py.Ok (acc + Z.of_nat (List.length (detections_of L features rows))),
       {| db := run_inserts (detections_of L features rows) (insert_faults w) (db w);
          conn_open := true;
          insert_faults := fs;
          query_faults := [];
          log := lg |})
    /\ connection_kept fs
    /\ (insert_faults w = [] -> fs = []).
Proof.
  revert acc w. induction rows as [ | row rows IH ]; intros acc w Hopen Hq Hkept Hfeat.
  - exists (log w), (insert_faults w). cbn. rewrite Z.add_0_r.
    split; [ | split; [ exact Hkept | auto ] ].
    destruct w as [d co fi fq lg]. cbn in *. subst. reflexivity.
  - destruct (connection_kept_next _ Hkept) as [Hnext Hrest].
    destruct (process_row_run acc row w Hopen Hq Hnext) as [lg1 H1].
    cbn [py.fold_for]. unfold py.bind at 1. rewrite H1.
    unfold detections_of. cbn [flat_map]. fold (detections_of L features rows).
    rewrite Hfeat.
    destruct (detection_of L features row) as [ d | ].
    + match goal with |- context [ py.fold_for rows _ _ ?w1 ] =>
        destruct (IH (acc + 1) w1 eq_refl eq_refl Hrest) as (lg & fs & Hrun & Hk & Hnil)
      end.
      { cbn [db]. rewrite insert_under_features. exact Hfeat. }
      exists lg, fs. split; [ | split; [ exact Hk | ] ].
      * rewrite Hrun. cbn [db insert_faults app List.length run_inserts].
        f_equal. f_equal. lia.
      * intros Hnone. apply Hnil. cbn [insert_faults]. rewrite Hnone. reflexivity.
    + destruct (IH acc (set_log lg1 w) Hopen Hq Hkept Hfeat) as (lg & fs & Hrun & Hk & Hnil).
      exists lg, fs. split; [ | split; [ exact Hk | exact Hnil ] ].
      rewrite Hrun. reflexivity.
Qed.

Lemma process_feature_rows_run (rows : list bgp_features_1min.row) (w : world) :
  inserts_may_fail w ->
  exists lg fs,
    process_feature_rows L rows w
    = (py.Ok (Z.of_nat (List.length (detections_of L (tbl_bgp_features_1min (db w)) rows))),
       {| db := run_inserts (detections_of L (tbl_bgp_features_1min (db w)) rows)
                            (insert_faults w) (db w);
          conn_open := true;
          insert_faults := fs;
          query_faults := [];
          log := lg |})
    /\ connection_kept fs
    /\ (insert_faults w = [] -> fs = []).
Proof.
  intros (Hopen & Hq & Hkept).
  destruct (fold_process_row_run (tbl_bgp_features_1min (db w)) rows 0 w Hopen Hq Hkept eq_refl)
    as (lg & fs & Hrun & Hk & Hnil).
  exists lg, fs. split; [ | split; assumption ].
  unfold process_feature_rows. rewrite Hrun. reflexivity.
Qed.

Lemma get_last_processed_timestamp_run (now : Z) (w : world) :
  conn_open w = true -> query_faults w = [] ->
  get_last_processed_timestamp now w
  = (py.Ok (checkpoint now (tbl_heuristic_inference_state (db w))), w).
Proof.
  intros Hopen Hq. destruct w as [d co fi fq lg]. cbn [conn_open query_faults db] in *. subst co fq.
  unfold get_last_processed_timestamp, checkpoint, py.bind, cursor, execute_query. cbn.
  destruct (tbl_heuristic_inference_state d) as [ [ [ ts | ] total ] | ]; reflexivity.
Qed.

Lemma fetch_new_feature_rows_run (last_ts : Z) (w : world) :
  conn_open w = true -> query_faults w = [] ->
  fetch_new_feature_rows L last_ts w = (py.Ok (new_feature_rows_query L last_ts (db w)), w).
Proof.
  intros Hopen Hq. destruct w as [d co fi fq lg]. cbn [conn_open query_faults db] in *. subst co fq.
  reflexivity.
Qed.

Lemma update_state_run (last_ts processed_count : Z) (w : world) :
  conn_open w = true -> query_faults w = [] ->
  update_state last_ts processed_count w
  = (py.Ok tt,
     set_db (set_heuristic_inference_state
               (update_state_row last_ts processed_count (tbl_heuristic_inference_state (db w)))
               (db w)) w).
Proof.
  intros Hopen Hq. destruct w as [d co fi fq lg]. cbn [conn_open query_faults db] in *. subst co fq.
  reflexivity.
Qed.

(** One poll of the detector, while no INSERT loses the connection:
    it leaves the store [after_poll]. *)
Lemma main_iteration_run (now : Z) (w : world) :
  inserts_may_fail w ->
  exists lg fs,
    main_iteration L now w
    = (py.Ok tt,
       {| db := after_poll L now (insert_faults w) (db w);
          conn_open := true;
          insert_faults := fs;
          query_faults := [];
          log := lg |})
    /\ connection_kept fs
    /\ (insert_faults w = [] -> fs = []).
Proof.
  intros Hw. pose proof Hw as (Hopen & Hq & Hkept).
  unfold main_iteration, py.try_except.
  unfold py.bind at 1. rewrite (get_last_processed_timestamp_run now w Hopen Hq).
  unfold py.bind at 1. rewrite (fetch_new_feature_rows_run _ w Hopen Hq).
  unfold after_poll.
  destruct (new_feature_rows_query L (checkpoint now (tbl_heuristic_inference_state (db w))) (db w))
    as [ | r batch ] eqn:Hbatch.
  - exists (log w), (insert_faults w). split; [ | split; [ exact Hkept | auto ] ].
    destruct w as [d co fi fq lg]. cbn [conn_open query_faults db] in *. subst co fq. reflexivity.
  - destruct (process_feature_rows_run (r :: batch) w Hw) as (lg & fs & Hrun & Hk & Hnil).
    unfold py.bind at 1. rewrite Hrun.
    rewrite update_state_run by reflexivity.
    exists lg, fs. split; [ reflexivity | split; assumption ].
Qed.

Lemma insert_sorted_in {A} (leb : A -> A -> bool) (x y : A) (l : list A) :
  In y (py.insert_sorted leb x l) -> y = x \/ In y l.
Proof.
  induction l as [ | z l IH ]; cbn.
  - intros [ H | [] ]. left. symmetry. exact H.
  - destruct (leb x z); cbn.
    + intros [ H | H ]; [ left; symmetry; exact H | right; exact H ].
    + intros [ H | H ]; [ right; left; exact H | ].
      destruct (IH H) as [ H' | H' ]; [ left; exact H' | right; right; exact H' ].
Qed.

Lemma sort_by_in {A} (leb : A -> A -> bool) (y : A) (l : list A) :
  In y (py.sort_by leb l) -> In y l.
Proof.
  induction l as [ | x l IH ]; cbn; [ tauto | ].
  intros H. destruct (insert_sorted_in _ _ _ _ H) as [ H' | H' ].
  - left. symmetry. exact H'.
  - right. apply IH. exact H'.
Qed.

Lemma new_feature_rows_query_in (last_ts : Z) (d : database) (r : bgp_features_1min.row) :
  In r (new_feature_rows_query L last_ts d) ->
  In r (tbl_bgp_features_1min d) /\ last_ts < bgp_features_1min.window_start r.
Proof.
  unfold new_feature_rows_query. intros H. apply sort_by_in in H.
  apply filter_In in H. destruct H as [Hin Hlt]. split; [ exact Hin | ].
  apply Z.ltb_lt. exact Hlt.
Qed.

Lemma fold_left_max_ge (l : list Z) (a : Z) :
  a <= fold_left Z.max l a /\ forall x, In x l -> x <= fold_left Z.max l a.
Proof.
  revert a. induction l as [ | y l IH ]; intros a; cbn.
  - split; [ lia | tauto ].
  - destruct (IH (Z.max a y)) as [H1 H2]. split; [ lia | ].
    intros x [ Hx | Hx ]; [ subst; lia | apply H2; exact Hx ].
Qed.

Lemma max_window_start_ge (df : list bgp_features_1min.row) (r : bgp_features_1min.row) :
  In r df -> bgp_features_1min.window_start r <= max_window_start df.
Proof.
  destruct df as [ | r0 df ]; [ intros [] | ].
  unfold max_window_start.
  destruct (fold_left_max_ge (map bgp_features_1min.window_start df)
                             (bgp_features_1min.window_start r0)) as [H1 H2].
  intros [ H | H ]; [ subst; exact H1 | ].
  apply H2. apply in_map. exact H.
Qed.


(** A statement that fails inserts nothing. *)
Lemma run_inserts_all_fail ds fs db0 :
  List.length fs = List.length ds ->
  Forall (fun f => exists m, f = pg.StatementError m) fs ->
  run_inserts ds fs db0 = db0.
Proof.
  revert fs. induction ds as [ | d ds IH ]; intros fs Hlen Hfs; [ reflexivity | ].
  destruct Hfs as [ | f fs (m & ->) Hfs ]; [ discriminate | ].
  cbn [run_inserts pg.next_fault fst snd insert_under]. apply IH; [ | exact Hfs ].
  cbn in Hlen. congruence.
Qed.







(** C10, amended: [insert_detection] returns whenever the connection is
    open when it is called, whatever the INSERT does; and while no
    INSERT loses the connection, after a batch that is not empty the
    state row (if there is one) holds the greatest [window_start] of the
    batch, whatever the number of INSERTs that failed: the table holds
    the detections whose INSERT ran, and no row of the batch is fetched
    by a later poll. *)
Theorem C10_failed_inserts_do_not_hold_the_checkpoint
    (now : Z) (w : world) (st : inference_state.row) :
  inserts_may_fail w ->
  tbl_heuristic_inference_state (db w) = Some st ->
  new_feature_rows_query L (checkpoint now (Some st)) (db w) <> [] ->
  let batch := new_feature_rows_query L (checkpoint now (Some st)) (db w) in
  let w' := snd (main_iteration L now w) in
  (forall detection w0, conn_open w0 = true -> fst (insert_detection detection w0) = py.Ok tt)
  /\ fst (main_iteration L now w) = py.Ok tt
  /\ tbl_hybrid_anomaly_detections (db w')
     = tbl_hybrid_anomaly_detections
         (run_inserts (detections_of L (tbl_bgp_features_1min (db w)) batch)
                      (insert_faults w) (db w))
  /\ tbl_heuristic_inference_state (db w')
     = Some {| inference_state.last_processed_timestamp := Some (max_window_start batch);
               inference_state.total_processed :=
                 inference_state.total_processed st + Z.of_nat (List.length batch) |}
  /\ (forall now' r,
        In r batch ->
        ~ In r (new_feature_rows_query L
                  (checkpoint now' (tbl_heuristic_inference_state (db w'))) (db w'))).
Proof.
  intros Hw Hstate Hbatch. cbn zeta.
  destruct (main_iteration_run now w Hw) as (lg & fs & Hrun & _).
  rewrite Hrun. cbn [fst snd db].
  assert (Hafter : after_poll L now (insert_faults w) (db w)
                   = let batch := new_feature_rows_query L (checkpoint now (Some st)) (db w) in
                     let db1 := run_inserts (detections_of L (tbl_bgp_features_1min (db w)) batch)
                                            (insert_faults w) (db w) in
                     set_heuristic_inference_state
                       (Some {| inference_state.last_processed_timestamp :=
                                  Some (max_window_start batch);
                                inference_state.total_processed :=
                                  inference_state.total_processed st
                                  + Z.of_nat (List.length batch) |}) db1).
  { unfold after_poll. rewrite Hstate.
    destruct (new_feature_rows_query L (checkpoint now (Some st)) (db w)) as [ | r batch ];
      [ contradiction | ].
    cbn zeta. rewrite run_inserts_state, Hstate. reflexivity. }
  cbn zeta in Hafter.
  repeat match goal with |- _ /\ _ => split end.
  - intros detection w0. apply insert_detection_returns.
  - reflexivity.
  - rewrite Hafter. reflexivity.
  - rewrite Hafter. reflexivity.
  - intros now' r Hin Hagain.
    apply new_feature_rows_query_in in Hagain. destruct Hagain as [_ Hlt].
    rewrite Hafter in Hlt.
    cbn [set_heuristic_inference_state tbl_heuristic_inference_state checkpoint
         inference_state.last_processed_timestamp] in Hlt.
    pose proof (max_window_start_ge _ r Hin) as Hle. cbn [checkpoint] in Hle. lia.
Qed.

End Heuristic.



(** The theorem at work on [example.bogon_db], when the first of the
    two INSERTs of the batch fails: one detection is written, and the
    checkpoint stands at the later of the two rows. *)
Lemma C10_failed_inserts_do_not_hold_the_checkpoint_witness :
  let w' := snd (heuristic_detector.main_iteration example.lib example.poll_time
                   (example.bogon_world [ pg.StatementError "deadlock detected" ])) in
  store.tbl_heuristic_inference_state (heuristic_detector.db w')
  = Some {| inference_state.last_processed_timestamp :=
              Some (example.poll_time - example.one_hour);
            inference_state.total_processed := 2 |}
  /\ List.length (store.tbl_hybrid_anomaly_detections (heuristic_detector.db w')) = 1%nat.
Proof.
  cbv zeta.
  destruct (C10_failed_inserts_do_not_hold_the_checkpoint example.lib example.poll_time
              (example.bogon_world [ pg.StatementError "deadlock detected" ])
              {| inference_state.last_processed_timestamp :=
                   Some (example.poll_time - example.one_day);
                 inference_state.total_processed := 0 |})
    as (_ & _ & Htable & Hstate & _).
  - repeat split; try reflexivity.
    constructor; [ discriminate | constructor ].
  - reflexivity.
  - vm_compute. discriminate.
  - split.
    + rewrite Hstate. vm_compute. reflexivity.
    + rewrite Htable. vm_compute. reflexivity.
Defined.

(** C10, the claim as stated fails: the connection is lost while the
    first detection of the batch of [example.bogon_db] is inserted.
    That error is caught; the INSERT of the second detection then
    raises out of [insert_detection], whose cursor is made outside its
    [try], and the checkpoint is not advanced. *)
Lemma C10_insert_detection_raises_on_a_lost_connection :
  let w := example.bogon_world [ pg.ConnectionLost "server closed the connection unexpectedly" ] in
  let features := store.tbl_bgp_features_1min example.bogon_db in
  exists d1 d2,
    spec.detections_of example.lib features features = [ d1; d2 ]
    /\ fst (heuristic_detector.insert_detection d1 w) = py.Ok tt
    /\ fst (heuristic_detector.insert_detection d2 (snd (heuristic_detector.insert_detection d1 w)))
       = py.Raise (py.Exn "OperationalError" "the connection is closed")
    /\ store.tbl_heuristic_inference_state
         (heuristic_detector.db (snd (heuristic_detector.main_iteration example.lib
                                        example.poll_time w)))
       = store.tbl_heuristic_inference_state example.bogon_db
    /\ store.tbl_hybrid_anomaly_detections
         (heuristic_detector.db (snd (heuristic_detector.main_iteration example.lib
                                        example.poll_time w)))
       = [].
Proof.
  cbv zeta. eexists. eexists.
  split; [ vm_compute; reflexivity | ].
  repeat match goal with |- _ /\ _ => split end; vm_compute; reflexivity.
Qed.

(* ===================================================================== *)
(** * Part III.  Further properties of the workers                        *)
(* ===================================================================== *)

(** ** The feature aggregator: what a poll counts *)

Section AggregatorCoverage.

Import store feature_aggregator spec.

Lemma list_sum_cons (a : nat) (l : list nat) : list_sum (a :: l) = (a + list_sum l)%nat.
Proof. reflexivity. Qed.

Lemma sum_Z_cons (a : Z) (l : list Z) : sum_Z (a :: l) = a + sum_Z l.
Proof. reflexivity. Qed.

(** A key is the key of exactly one group. *)
Lemma one_group_per_key (ks : list group_key) (k : group_key) :
  NoDup ks -> In k ks ->
  list_sum (map (fun k' => if key_eqb k k' then 1%nat else 0%nat) ks) = 1%nat.
Proof.
  induction ks as [ | k0 ks IH ]; intros Hnd Hin; [ contradiction | ].
  inversion Hnd as [ | ? ? Hnotin Hnd' ]; subst. cbn [map]. rewrite list_sum_cons.
  destruct (key_eqb k k0) eqn:Hk.
  - apply key_eqb_eq in Hk. subst k0.
    assert (Hzero : list_sum (map (fun k' => if key_eqb k k' then 1%nat else 0%nat) ks) = 0%nat).
    { clear IH Hnd Hnd' Hin. induction ks as [ | k1 ks IH ]; [ reflexivity | ].
      cbn [map]. rewrite list_sum_cons. destruct (key_eqb k k1) eqn:Hk1.
      - apply key_eqb_eq in Hk1. subst k1. exfalso. apply Hnotin. left. reflexivity.
      - rewrite IH; [ reflexivity | ]. intros H. apply Hnotin. right. exact H. }
    rewrite Hzero. reflexivity.
  - destruct Hin as [ -> | Hin ].
    + rewrite key_eqb_refl in Hk. discriminate.
    + rewrite IH by assumption. reflexivity.
Qed.

(** The groups of a list of keys that holds the keys of [m], without
    repetition, share out the rows of [m]. *)
Lemma groups_share_out (ks : list group_key) (m : list joined) :
  NoDup ks -> (forall j, In j m -> In (key_of j) ks) ->
  list_sum (map (fun k => List.length (filter (fun j => key_eqb (key_of j) k) m)) ks)
  = List.length m.
Proof.
  intros Hnd. induction m as [ | j m IH ]; intros Hkeys.
  - cbn [filter List.length]. clear. induction ks as [ | k ks IHk ]; [ reflexivity | ].
    cbn [map]. rewrite list_sum_cons, IHk. reflexivity.
  - assert (Hsplit :
      list_sum (map (fun k => List.length (filter (fun j' => key_eqb (key_of j') k) (j :: m))) ks)
      = (list_sum (map (fun k' => if key_eqb (key_of j) k' then 1%nat else 0%nat) ks)
         + list_sum (map (fun k => List.length (filter (fun j' => key_eqb (key_of j') k) m)) ks))%nat).
    { clear. induction ks as [ | k ks IHk ]; [ reflexivity | ].
      cbn [map]. rewrite !list_sum_cons, IHk. cbn [filter].
      destruct (key_eqb (key_of j) k); cbn [List.length]; lia. }
    rewrite Hsplit, IH, one_group_per_key.
    + reflexivity.
    + exact Hnd.
    + apply Hkeys. left. reflexivity.
    + intros j' Hj'. apply Hkeys. right. exact Hj'.
Qed.

Lemma group_by_shares_out (l : list joined) :
  list_sum (map (fun kg => List.length (snd kg)) (group_by l)) = List.length l.
Proof.
  unfold group_by. rewrite map_map. cbn [snd].
  apply groups_share_out.
  - apply distinct_NoDup. exact key_eqb_eq.
  - intros j Hj. apply distinct_in; [ exact key_eqb_eq | ]. apply in_map. exact Hj.
Qed.

Lemma updates_counted_number_rows (gs : list (group_key * list joined)) (seq : Z) :
  updates_counted (number_rows seq gs)
  = Z.of_nat (list_sum (map (fun kg => List.length (snd kg)) gs)).
Proof.
  revert seq. induction gs as [ | [[[w p] o] g] gs IH ]; intros seq; [ reflexivity | ].
  unfold updates_counted in *. cbn [number_rows map]. rewrite sum_Z_cons, list_sum_cons, IH.
  cbn [feature_of bgp_features_1min.total_updates snd]. lia.
Qed.

Lemma updates_counted_app (a b : list bgp_features_1min.row) :
  updates_counted (a ++ b) = updates_counted a + updates_counted b.
Proof.
  unfold updates_counted. induction a as [ | r a IH ]; cbn [app map].
  - cbn. lia.
  - rewrite !sum_Z_cons, IH. lia.
Qed.

Lemma appended_app (db db' : database) (rows : list bgp_features_1min.row) :
  tbl_bgp_features_1min db' = (tbl_bgp_features_1min db ++ rows)%list ->
  appended db db' = rows.
Proof.
  intros H. unfold appended. rewrite H, skipn_app, skipn_all, Nat.sub_diag. reflexivity.
Qed.

(** With [hash_id] a key, the LEFT JOIN matches every raw update with
    one row. *)
Lemma left_join_keyed (ribs : list ip_rib.row) (bas : list base_attrs.row) :
  NoDup (map base_attrs.hash_id bas) ->
  map j_rib (left_join ribs bas) = ribs.
Proof.
  intros Hnd. unfold left_join. induction ribs as [ | r ribs IH ]; [ reflexivity | ].
  cbn [flat_map]. rewrite map_app, IH. clear IH.
  assert (Hone : forall bas', NoDup (map base_attrs.hash_id bas') ->
            (List.length (filter (fun ba => String.eqb (ip_rib.base_attr_hash_id r)
                                                        (base_attrs.hash_id ba)) bas') <= 1)%nat).
  { clear. induction bas' as [ | ba bas' IH ]; intros Hnd; [ cbn; lia | ].
    inversion Hnd as [ | ? ? Hnotin Hnd' ]; subst. cbn [filter].
    destruct (String.eqb (ip_rib.base_attr_hash_id r) (base_attrs.hash_id ba)) eqn:Hh.
    - apply String.eqb_eq in Hh.
      assert (Hnone : filter (fun ba0 => String.eqb (ip_rib.base_attr_hash_id r)
                                                     (base_attrs.hash_id ba0)) bas' = []).
      { clear IH Hnd Hnd'. induction bas' as [ | ba' bas' IH ]; [ reflexivity | ].
        cbn [filter].
        destruct (String.eqb (ip_rib.base_attr_hash_id r) (base_attrs.hash_id ba')) eqn:Hh'.
        - apply String.eqb_eq in Hh'. exfalso. apply Hnotin. left. congruence.
        - apply IH. intros H. apply Hnotin. right. exact H. }
      rewrite Hnone. cbn. lia.
    - apply IH. exact Hnd'. }
  specialize (Hone bas Hnd).
  destruct (filter (fun ba => String.eqb (ip_rib.base_attr_hash_id r) (base_attrs.hash_id ba)) bas)
    as [ | ba [ | ba' ms ] ]; cbn in Hone |- *; try reflexivity; lia.
Qed.

Lemma filter_map_commute {A B} (f : A -> B) (p : B -> bool) (l : list A) :
  filter p (map f l) = map f (filter (fun a => p (f a)) l).
Proof.
  induction l as [ | a l IH ]; [ reflexivity | ].
  cbn. destruct (p (f a)); cbn; rewrite IH; reflexivity.
Qed.

(** The rows the query scans are the raw updates received in the
    interval. *)
Lemma scanned_received (db : database) (from_ts to_ts : Z) :
  base_attrs_keyed db ->
  List.length (filter (in_range from_ts to_ts) (left_join (tbl_ip_rib db) (tbl_base_attrs db)))
  = List.length (received db from_ts to_ts).
Proof.
  intros Hkey. unfold received.
  rewrite <- (left_join_keyed (tbl_ip_rib db) (tbl_base_attrs db) Hkey) at 2.
  rewrite filter_map_commute, length_map. reflexivity.
Qed.

(** Two adjacent intervals share out the updates of their union. *)
Lemma received_adjacent (db : database) (a b c : Z) :
  a <= b <= c ->
  (List.length (received db a c)
   = List.length (received db a b) + List.length (received db b c))%nat.
Proof.
  intros Hle. unfold received. induction (tbl_ip_rib db) as [ | r l IH ]; [ reflexivity | ].
  cbn [filter].
  destruct (a <? ip_rib.timestamp r) eqn:Ha, (ip_rib.timestamp r <=? c) eqn:Hc,
           (ip_rib.timestamp r <=? b) eqn:Hb, (b <? ip_rib.timestamp r) eqn:Hb';
    cbn [andb List.length]; rewrite ?IH; try lia;
    rewrite ?Z.ltb_lt, ?Z.ltb_ge, ?Z.leb_le, ?Z.leb_gt in *; lia.
Qed.

(** What [aggregate_once] does to the store. *)
Lemma aggregate_once_counts (db : database) (from_ts to_ts : Z) :
  base_attrs_keyed db ->
  exists rows,
    tbl_bgp_features_1min (snd (aggregate_once db from_ts to_ts))
    = (tbl_bgp_features_1min db ++ rows)%list
    /\ fst (aggregate_once db from_ts to_ts) = Z.of_nat (List.length rows)
    /\ updates_counted rows = Z.of_nat (List.length (received db from_ts to_ts)).
Proof.
  intros Hkey.
  exists (number_rows (seq_bgp_features_1min db) (selected_groups db from_ts to_ts)).
  split; [ reflexivity | ]. split; [ reflexivity | ].
  rewrite updates_counted_number_rows. unfold selected_groups.
  rewrite group_by_shares_out, scanned_received by exact Hkey. reflexivity.
Qed.

(** X1: one run of [aggregate_once] over ( from_ts, to_ts ] accounts for
    every raw update received in the interval exactly once: the
    [total_updates] of the rows it appends add up to the number of
    those updates, and it returns the number of rows it appends. *)
Theorem aggregate_once_counts_every_update (db : database) (from_ts to_ts : Z) :
  base_attrs_keyed db ->
  let after := snd (aggregate_once db from_ts to_ts) in
  updates_counted (appended db after) = Z.of_nat (List.length (received db from_ts to_ts))
  /\ fst (aggregate_once db from_ts to_ts) = Z.of_nat (List.length (appended db after))
  /\ firstn (List.length (tbl_bgp_features_1min db)) (tbl_bgp_features_1min after)
     = tbl_bgp_features_1min db.
Proof.
  intros Hkey after.
  destruct (aggregate_once_counts db from_ts to_ts Hkey) as (rows & Htbl & Hcount & Hsum).
  unfold after. rewrite (appended_app _ _ rows Htbl).
  repeat split; try assumption.
  rewrite Htbl, firstn_app, firstn_all, Nat.sub_diag. cbn. apply app_nil_r.
Qed.

(** One poll from a stored checkpoint. *)
Lemma main_iteration_counts (now ts : Z) (db : database) :
  base_attrs_keyed db ->
  tbl_feature_aggregator_state db = Some (Some ts) ->
  ts <= now ->
  exists rows,
    tbl_bgp_features_1min (main_iteration now db) = (tbl_bgp_features_1min db ++ rows)%list
    /\ updates_counted rows = Z.of_nat (List.length (received db ts now))
    /\ tbl_feature_aggregator_state (main_iteration now db) = Some (Some now)
    /\ tbl_ip_rib (main_iteration now db) = tbl_ip_rib db
    /\ tbl_base_attrs (main_iteration now db) = tbl_base_attrs db.
Proof.
  intros Hkey Hstate Hle. unfold main_iteration, get_last_processed_timestamp.
  rewrite Hstate. destruct (now <=? ts) eqn:Hskip.
  - apply Z.leb_le in Hskip. assert (now = ts) by lia. subst now.
    exists []. rewrite app_nil_r. repeat split; try reflexivity; try assumption.
    unfold received, updates_counted. cbn.
    induction (tbl_ip_rib db) as [ | r l IH ]; [ reflexivity | ].
    cbn [filter].
    destruct (ts <? ip_rib.timestamp r) eqn:H1, (ip_rib.timestamp r <=? ts) eqn:H2;
      cbn [andb]; try exact IH.
    apply Z.ltb_lt in H1. apply Z.leb_le in H2. lia.
  - destruct (aggregate_once_counts db ts now Hkey) as (rows & Htbl & _ & Hsum).
    exists rows.
    destruct (aggregate_once db ts now) as [n db2] eqn:Hagg. cbn [snd] in Htbl.
    assert (Hdb2 : db2 = snd (aggregate_once db ts now)) by (rewrite Hagg; reflexivity).
    unfold update_last_processed_timestamp.
    assert (Hstate2 : tbl_feature_aggregator_state db2 = Some (Some ts)).
    { rewrite Hdb2. cbn. exact Hstate. }
    rewrite Hstate2. cbn [set_feature_aggregator_state tbl_bgp_features_1min
                          tbl_feature_aggregator_state tbl_ip_rib tbl_base_attrs].
    repeat split; try assumption; rewrite Hdb2; reflexivity.
Qed.

Lemma received_collected (news : list ip_rib.row) (attrs : list base_attrs.row)
                         (db : database) (a b : Z) :
  received (collected news attrs db) a b = (received db a b ++ stamped_in a b news)%list.
Proof. unfold received, stamped_in, collected. cbn [tbl_ip_rib]. apply filter_app. Qed.

(** X2: the aggregator polls at [now1], raw updates are written to
    [ip_rib], and it polls again at [now2].  The rows the two polls
    append account, once each, for the updates that were in the store
    at the first poll and are stamped after the checkpoint and up to
    [now2], and for the updates written between the polls that are
    stamped after [now1] and up to [now2]: an update written after the
    first poll with a timestamp that is not later than [now1] is not
    counted.  The checkpoint is left at [now2], and a later poll
    counts the updates stamped after [now2] only. *)
Theorem updates_written_late_are_not_counted
    (now1 now2 ts : Z) (db : database) (news : list ip_rib.row) (attrs : list base_attrs.row) :
  base_attrs_keyed (collected news attrs db) ->
  tbl_feature_aggregator_state db = Some (Some ts) ->
  ts <= now1 <= now2 ->
  let after := main_iteration now2 (collected news attrs (main_iteration now1 db)) in
  updates_counted (appended db after)
  = Z.of_nat (List.length (received db ts now2))
    + Z.of_nat (List.length (stamped_in now1 now2 news))
  /\ tbl_feature_aggregator_state after = Some (Some now2)
  /\ (forall now3, now2 <= now3 ->
        updates_counted (appended after (main_iteration now3 after))
        = Z.of_nat (List.length (received after now2 now3))).
Proof.
  intros Hkey' Hstate [H1 H2] after.
  assert (Hkey : base_attrs_keyed db).
  { unfold base_attrs_keyed in *. cbn [collected tbl_base_attrs] in Hkey'.
    rewrite map_app in Hkey'. exact (NoDup_app_remove_r _ _ Hkey'). }
  destruct (main_iteration_counts now1 ts db Hkey Hstate H1)
    as (rows1 & Htbl1 & Hsum1 & Hstate1 & Hrib1 & Hba1).
  set (db1 := collected news attrs (main_iteration now1 db)) in *.
  assert (Hkey1 : base_attrs_keyed db1).
  { unfold base_attrs_keyed, db1. cbn [collected tbl_base_attrs]. rewrite Hba1. exact Hkey'. }
  assert (Hstate1' : tbl_feature_aggregator_state db1 = Some (Some now1)) by exact Hstate1.
  destruct (main_iteration_counts now2 now1 db1 Hkey1 Hstate1' H2)
    as (rows2 & Htbl2 & Hsum2 & Hstate2 & Hrib2 & Hba2).
  fold after in Htbl2, Hstate2, Hrib2, Hba2.
  split; [ | split; [ exact Hstate2 | ] ].
  - rewrite (appended_app db after (rows1 ++ rows2)).
    + rewrite updates_counted_app, Hsum1, Hsum2.
      unfold db1. rewrite received_collected, length_app.
      assert (Hsame : received (main_iteration now1 db) now1 now2 = received db now1 now2).
      { unfold received. rewrite Hrib1. reflexivity. }
      rewrite Hsame, (received_adjacent db ts now1 now2) by lia. lia.
    + rewrite Htbl2. unfold db1. cbn [collected tbl_bgp_features_1min].
      rewrite Htbl1, app_assoc. reflexivity.
  - intros now3 H3.
    assert (Hkey2 : base_attrs_keyed after).
    { unfold base_attrs_keyed. rewrite Hba2. exact Hkey1. }
    destruct (main_iteration_counts now3 now2 after Hkey2 Hstate2 H3)
      as (rows3 & Htbl3 & Hsum3 & _).
    rewrite (appended_app after _ rows3 Htbl3). exact Hsum3.
Qed.

(** X3: a poll never moves the checkpoint backwards: it leaves it at the
    later of the current time and the checkpoint it started from (ten
    minutes before the current time when none is stored), and a poll
    at a time that is not later than the stored checkpoint changes
    nothing in the store. *)
Theorem aggregator_checkpoint_never_goes_back (now : Z) (db : database) :
  tbl_feature_aggregator_state (main_iteration now db)
  = Some (Some (Z.max (fst (get_last_processed_timestamp now db)) now))
  /\ (forall ts, tbl_feature_aggregator_state db = Some (Some ts) -> now <= ts ->
                 main_iteration now db = db).
Proof.
  split.
  - unfold main_iteration, get_last_processed_timestamp, INITIAL_LOOKBACK.
    destruct (tbl_feature_aggregator_state db) as [ [ ts | ] | ] eqn:Hstate; cbn [fst].
    + destruct (now <=? ts) eqn:Hskip.
      * apply Z.leb_le in Hskip. rewrite Hstate, Z.max_l by lia. reflexivity.
      * apply Z.leb_gt in Hskip. rewrite Z.max_r by lia.
        destruct (aggregate_once db ts now) as [n db2] eqn:Hagg.
        assert (Hstate2 : tbl_feature_aggregator_state db2 = Some (Some ts)).
        { replace db2 with (snd (aggregate_once db ts now)) by (rewrite Hagg; reflexivity).
          cbn. exact Hstate. }
        unfold update_last_processed_timestamp. rewrite Hstate2. reflexivity.
    + destruct (now <=? now - 10 * 60 * 1000000) eqn:Hskip; [ apply Z.leb_le in Hskip; lia | ].
      rewrite Z.max_r by lia.
      destruct (aggregate_once db (now - 10 * 60 * 1000000) now) as [n db2] eqn:Hagg.
      assert (Hstate2 : tbl_feature_aggregator_state db2 = Some None).
      { replace db2 with (snd (aggregate_once db (now - 10 * 60 * 1000000) now))
          by (rewrite Hagg; reflexivity).
        cbn. exact Hstate. }
      unfold update_last_processed_timestamp. rewrite Hstate2. reflexivity.
    + destruct (now <=? now - 10 * 60 * 1000000) eqn:Hskip; [ apply Z.leb_le in Hskip; lia | ].
      rewrite Z.max_r by lia.
      destruct (aggregate_once _ (now - 10 * 60 * 1000000) now) as [n db2] eqn:Hagg.
      assert (Hstate2 : tbl_feature_aggregator_state db2
                        = Some (Some (now - 10 * 60 * 1000000))).
      { match type of Hagg with aggregate_once ?d ?a ?b = _ =>
          replace db2 with (snd (aggregate_once d a b)) by (rewrite Hagg; reflexivity) end.
        reflexivity. }
      unfold update_last_processed_timestamp. rewrite Hstate2. reflexivity.
  - intros ts Hstate Hle. unfold main_iteration, get_last_processed_timestamp.
    rewrite Hstate. apply Z.leb_le in Hle. rewrite Hle. reflexivity.
Qed.

End AggregatorCoverage.

(** The theorems at work on the one update of [example.rib_db]. *)
Lemma aggregate_once_counts_every_update_witness :
  spec.updates_counted
    (spec.appended example.rib_db (snd (feature_aggregator.aggregate_once example.rib_db 0 120000000)))
  = 1.
Proof.
  destruct (aggregate_once_counts_every_update example.rib_db 0 120000000) as (H & _).
  - unfold spec.base_attrs_keyed. cbn. repeat constructor. intros [].
  - rewrite H. reflexivity.
Defined.

(** The theorem at work on [example.rib_db]: the aggregator polls at
    120 seconds, an update stamped 100 seconds is written, and the
    aggregator polls at 180 seconds.  Two updates of the store are
    stamped within the polled range; one is counted. *)
Lemma updates_written_late_are_not_counted_witness :
  let late := example.update "attrs-1" 100000000 false in
  let after := feature_aggregator.main_iteration 180000000
                 (spec.collected [ late ] []
                    (feature_aggregator.main_iteration 120000000 example.rib_db)) in
  spec.updates_counted (spec.appended example.rib_db after) = 1
  /\ List.length (spec.received after 0 180000000) = 2%nat.
Proof.
  cbv zeta. split; [ | reflexivity ].
  destruct (updates_written_late_are_not_counted 120000000 180000000 0 example.rib_db
              [ example.update "attrs-1" 100000000 false ] [])
    as (H & _).
  - unfold spec.base_attrs_keyed. cbn. repeat constructor. intros [].
  - reflexivity.
  - lia.
  - rewrite H. reflexivity.
Defined.

(** ** The heuristic detector: its rules *)

Section HeuristicRules.

Import store heuristic_detector spec.

Variable L : py.lib.

(** X4: the churn rule, in updates per minute: it does not fire up to
    20 updates, and fires with severity medium from 21 to 100, high
    from 101 to 400, and critical from 401 on. *)
Theorem check_churn_bands (row : bgp_features_1min.row) :
  let n := bgp_features_1min.total_updates row in
  let fired := option_map severity (check_churn L row) in
  (fired = None <-> n <= 20)
  /\ (fired = Some "medium" <-> 21 <= n <= 100)
  /\ (fired = Some "high" <-> 101 <= n <= 400)
  /\ (fired = Some "critical" <-> 401 <= n).
Proof.
  cbv zeta. unfold check_churn, THRESHOLDS_churn_critical, THRESHOLDS_churn_severe,
    THRESHOLDS_churn_moderate.
  destruct (Z.ltb_spec 24000 (bgp_features_1min.total_updates row * 60)) as [Hc | Hc];
    [ | destruct (Z.ltb_spec 6012 (bgp_features_1min.total_updates row * 60)) as [Hs | Hs];
        [ | destruct (Z.ltb_spec 1212 (bgp_features_1min.total_updates row * 60)) as [Hm | Hm] ] ];
    cbn [option_map severity];
    repeat match goal with
      | |- _ /\ _ => split
      | |- _ <-> _ => split
      end;
    intros H; try lia; try reflexivity; try discriminate H.
Qed.

(** X5: the flapping rule, in flaps per minute: it does not fire up to
    2 flaps, and fires with severity medium from 3 to 6, high from 7
    to 20, and critical from 21 on. *)
Theorem check_flapping_bands (row : bgp_features_1min.row) :
  let n := bgp_features_1min.flap_count row in
  let fired := option_map severity (check_flapping L row) in
  (fired = None <-> n <= 2)
  /\ (fired = Some "medium" <-> 3 <= n <= 6)
  /\ (fired = Some "high" <-> 7 <= n <= 20)
  /\ (fired = Some "critical" <-> 21 <= n).
Proof.
  cbv zeta. unfold check_flapping, THRESHOLDS_flapping_critical, THRESHOLDS_flapping_high,
    THRESHOLDS_flapping_medium.
  destruct (Z.ltb_spec 1200 (bgp_features_1min.flap_count row * 60)) as [Hc | Hc];
    [ | destruct (Z.ltb_spec 372 (bgp_features_1min.flap_count row * 60)) as [Hs | Hs];
        [ | destruct (Z.ltb_spec 132 (bgp_features_1min.flap_count row * 60)) as [Hm | Hm] ] ];
    cbn [option_map severity];
    repeat match goal with
      | |- _ /\ _ => split
      | |- _ <-> _ => split
      end;
    intros H; try lia; try reflexivity; try discriminate H.
Qed.

(** X6: the bogon-ASN rule fires exactly on the origins of the two
    private-use ranges, 64512-65534 and 4200000000-4294967294, and
    then with severity critical and score 0.95. *)
Theorem check_bogon_asn_ranges (row : bgp_features_1min.row) :
  let o := bgp_features_1min.origin_as row in
  ((exists hit, check_bogon_asn row = Some hit)
   <-> (64512 <= o <= 65534 \/ 4200000000 <= o <= 4294967294))
  /\ (forall hit, check_bogon_asn row = Some hit ->
        rule_name hit = "bogon_asn_critical" /\ severity hit = "critical"
        /\ score hit = 0.95%float).
Proof.
  cbv zeta. unfold check_bogon_asn, BOGON_ASN_RANGES. cbn [bogon_asn_in].
  destruct (Z.leb_spec 64512 (bgp_features_1min.origin_as row)) as [H1 | H1];
    destruct (Z.leb_spec (bgp_features_1min.origin_as row) 65534) as [H2 | H2];
    destruct (Z.leb_spec 4200000000 (bgp_features_1min.origin_as row)) as [H3 | H3];
    destruct (Z.leb_spec (bgp_features_1min.origin_as row) 4294967294) as [H4 | H4];
    cbn [andb]; (split; [ split | ]);
    try (intros _; eexists; reflexivity);
    try (intros [hit Hhit]; discriminate Hhit);
    try (intros _; lia);
    try (intros [ ? | ? ]; lia);
    try (intros hit Hhit; injection Hhit as <-; repeat split; reflexivity);
    try (intros hit Hhit; discriminate Hhit).
Qed.

(** The path-inflation rule returns in every world, and leaves the
    store as it is. *)
Lemma check_path_inflation_returns (row : bgp_features_1min.row) (w : world) :
  exists c w', check_path_inflation L row w = (py.Ok c, w')
               /\ db w' = db w /\ insert_faults w' = insert_faults w.
Proof.
  unfold check_path_inflation.
  destruct (inflation_skipped row); [ exists None, w; repeat split; reflexivity | ].
  destruct w as [d co fi fq lg].
  destruct co; [ destruct fq as [ | [ | m | m ] fq ] | ];
    eexists; eexists; (split; [ reflexivity | split; reflexivity ]).
Qed.

Lemma not_none_in {A} (checks : list (option A)) (h : A) :
  In h (not_none checks) <-> In (Some h) checks.
Proof.
  unfold not_none. rewrite in_flat_map. split.
  - intros (c & Hc & Hh). destruct c as [ h' | ]; [ | contradiction ].
    destruct Hh as [ -> | [] ]. exact Hc.
  - intros H. exists (Some h). split; [ exact H | left; reflexivity ].
Qed.

(** X7: [apply_heuristics] returns in every world, whatever the state
    of the connection, and leaves the store as it is: an error of the
    database only silences the path-inflation rule.  Every hit of a
    rule that reads the row alone is among the hits returned. *)
Theorem apply_heuristics_never_raises (row : bgp_features_1min.row) (w : world) :
  exists hits,
    fst (apply_heuristics L row w) = py.Ok hits
    /\ db (snd (apply_heuristics L row w)) = db w
    /\ (forall hit,
          In (Some hit) [ check_churn L row; check_withdrawal_ratio L row;
                          check_flapping L row; check_path_length L row;
                          check_bogon_asn row; check_volume_spike L row;
                          check_session_resets row ] ->
          In hit hits).
Proof.
  destruct (check_bogon_prefix_run L row w) as [lg1 H1].
  destruct (check_path_inflation_returns row (set_log lg1 w)) as (c7 & w' & H2 & Hdb & _).
  assert (Hrun : apply_heuristics L row w
                 = (py.Ok (not_none [ check_churn L row; check_withdrawal_ratio L row;
                                      check_flapping L row; check_path_length L row;
                                      check_bogon_asn row;
                                      (if String.eqb (bgp_features_1min.prefix row) "" then None
                                       else match bogon_prefix_hit L (bgp_features_1min.prefix row) with
                                            | py.Ok h => h
                                            | py.Raise _ => None
                                            end);
                                      c7; check_volume_spike L row;
                                      check_session_resets row ]), w')).
  { unfold apply_heuristics. unfold py.bind at 1. rewrite H1.
    unfold py.bind at 1. rewrite H2. reflexivity. }
  rewrite Hrun. eexists. split; [ reflexivity | ]. split; [ exact Hdb | ].
  intros hit Hin. apply not_none_in. cbn [In] in *. tauto.
Qed.

Lemma max_by_key_spec {A} (key : A -> Z) (l : list A) (best : A) :
  let m := max_by_key key best l in
  (m = best \/ In m l)
  /\ key best <= key m
  /\ (forall x, In x l -> key x <= key m).
Proof.
  revert best. induction l as [ | x l IH ]; intros best; cbn [max_by_key].
  - repeat split; [ left; reflexivity | lia | intros x [] ].
  - cbv zeta in IH.
    destruct (IH (if key best <? key x then x else best)) as (Hin & Hbest & Hall).
    destruct (Z.ltb_spec (key best) (key x)) as [Hlt | Hge].
    + repeat split.
      * destruct Hin as [ -> | Hin ]; [ right; left; reflexivity | right; right; exact Hin ].
      * lia.
      * intros y [ <- | Hy ]; [ exact Hbest | apply Hall; exact Hy ].
    + repeat split.
      * destruct Hin as [ -> | Hin ]; [ left; reflexivity | right; right; exact Hin ].
      * exact Hbest.
      * intros y [ <- | Hy ]; [ lia | apply Hall; exact Hy ].
Qed.

(** X8: [get_max_severity] raises ValueError on no hit; on a list of
    hits it returns the severity of one of them, and no hit of the
    list ranks higher (critical over high over medium over low). *)
Theorem get_max_severity_is_greatest (hits : list HeuristicHit) :
  match hits with
  | [] => get_max_severity hits
          = py.Raise (py.Exn "ValueError" "max() arg is an empty sequence")
  | _ => exists s, get_max_severity hits = py.Ok s
                   /\ (exists hit, In hit hits /\ severity hit = s)
                   /\ (forall hit, In hit hits ->
                         severity_order (severity hit) <= severity_order s)
  end.
Proof.
  destruct hits as [ | h hits ]; [ reflexivity | ].
  destruct (max_by_key_spec (fun h => severity_order (severity h)) hits h) as (Hin & Hbest & Hall).
  eexists. split; [ reflexivity | ]. split.
  - eexists. split; [ | reflexivity ].
    destruct Hin as [ -> | Hin ]; [ left; reflexivity | right; exact Hin ].
  - intros hit [ <- | Hhit ]; [ exact Hbest | apply Hall; exact Hhit ].
Qed.

End HeuristicRules.

(** ** The heuristic detector: its table, its batch, its checkpoint *)

Section HeuristicStore.

Import store heuristic_detector spec.

Variable L : py.lib.

Lemma conflicts_iff (d : hybrid_anomaly_detections.values) (t : list hybrid_anomaly_detections.row) :
  existsb (conflicts d) t = true <-> In (hybrid_anomaly_detections.detection_id d) (detection_ids t).
Proof.
  unfold detection_ids. rewrite existsb_exists, in_map_iff. unfold conflicts.
  split; intros (r & H1 & H2).
  - exists r. apply String.eqb_eq in H2. split; [ exact H2 | exact H1 ].
  - exists r. split; [ exact H2 | ]. apply String.eqb_eq. exact H1.
Qed.

Lemma detection_ids_on_conflict (d : hybrid_anomaly_detections.values)
                                (t : list hybrid_anomaly_detections.row) :
  detection_ids (map (on_conflict d) t) = detection_ids t.
Proof.
  unfold detection_ids. rewrite map_map. apply map_ext. intros r.
  unfold on_conflict. destruct (conflicts d r); reflexivity.
Qed.

(** X9: the INSERT ... ON CONFLICT (detection_id) DO UPDATE of the
    heuristic detector keeps [detection_id] unique in the table: it
    leaves the [detection_id]s as they are when the detection's is
    among them, and adds it at the end otherwise. *)
Theorem upsert_keeps_detection_ids_unique
    (n : Z) (d : hybrid_anomaly_detections.values) (t : list hybrid_anomaly_detections.row) :
  NoDup (detection_ids t) ->
  NoDup (detection_ids (upsert n d t))
  /\ In (hybrid_anomaly_detections.detection_id d) (detection_ids (upsert n d t))
  /\ (In (hybrid_anomaly_detections.detection_id d) (detection_ids t) ->
      detection_ids (upsert n d t) = detection_ids t)
  /\ (~ In (hybrid_anomaly_detections.detection_id d) (detection_ids t) ->
      detection_ids (upsert n d t)
      = (detection_ids t ++ [ hybrid_anomaly_detections.detection_id d ])%list).
Proof.
  intros Hnd. unfold upsert.
  destruct (existsb (conflicts d) t) eqn:Hex.
  - pose proof (proj1 (conflicts_iff d t) Hex) as Hin.
    rewrite detection_ids_on_conflict.
    repeat split; try assumption; try reflexivity.
    intros Hnot. contradiction.
  - assert (Hnot : ~ In (hybrid_anomaly_detections.detection_id d) (detection_ids t)).
    { intros Hin. apply conflicts_iff in Hin. congruence. }
    assert (Hids : detection_ids
                     (t ++ [ {| hybrid_anomaly_detections.id := n;
                                hybrid_anomaly_detections.cols := d |} ])
                   = (detection_ids t ++ [ hybrid_anomaly_detections.detection_id d ])%list).
    { unfold detection_ids. rewrite map_app. reflexivity. }
    rewrite Hids. repeat split.
    + apply NoDup_app; [ exact Hnd | repeat constructor; intros [] | ].
      intros x Hx [ <- | [] ]. apply Hnot. exact Hx.
    + apply in_or_app. right. left. reflexivity.
    + intros Hin. contradiction.
Qed.

(** X10: what the table holds after the INSERT of a detection: a row
    of its [detection_id], with the detection's timestamp, score,
    anomaly flag, severity and metadata.  A row that held the
    [detection_id] before keeps its id and its other columns, its
    classification among them; every other row is untouched. *)
Theorem upsert_round_trip
    (n : Z) (d : hybrid_anomaly_detections.values) (t : list hybrid_anomaly_detections.row) :
  (exists r', In r' (upsert n d t) /\ conflicts d r' = true)
  /\ (forall r', In r' (upsert n d t) -> conflicts d r' = true ->
        let c := hybrid_anomaly_detections.cols r' in
        hybrid_anomaly_detections.timestamp c = hybrid_anomaly_detections.timestamp d
        /\ hybrid_anomaly_detections.combined_score c = hybrid_anomaly_detections.combined_score d
        /\ hybrid_anomaly_detections.combined_anomaly c
           = hybrid_anomaly_detections.combined_anomaly d
        /\ hybrid_anomaly_detections.combined_severity c
           = hybrid_anomaly_detections.combined_severity d
        /\ hybrid_anomaly_detections.metadata c = hybrid_anomaly_detections.metadata d)
  /\ (forall r, In r t -> conflicts d r = true ->
        exists r', In r' (upsert n d t)
                   /\ hybrid_anomaly_detections.id r' = hybrid_anomaly_detections.id r
                   /\ hybrid_anomaly_detections.classification (hybrid_anomaly_detections.cols r')
                      = hybrid_anomaly_detections.classification (hybrid_anomaly_detections.cols r)
                   /\ hybrid_anomaly_detections.event_type (hybrid_anomaly_detections.cols r')
                      = hybrid_anomaly_detections.event_type (hybrid_anomaly_detections.cols r)
                   /\ hybrid_anomaly_detections.prefix (hybrid_anomaly_detections.cols r')
                      = hybrid_anomaly_detections.prefix (hybrid_anomaly_detections.cols r)
                   /\ hybrid_anomaly_detections.origin_as (hybrid_anomaly_detections.cols r')
                      = hybrid_anomaly_detections.origin_as (hybrid_anomaly_detections.cols r)
                   /\ hybrid_anomaly_detections.rpki_status (hybrid_anomaly_detections.cols r')
                      = hybrid_anomaly_detections.rpki_status (hybrid_anomaly_detections.cols r))
  /\ (forall r, In r t -> conflicts d r = false -> In r (upsert n d t)).
Proof.
  repeat match goal with |- _ /\ _ => split end.
  - pose proof (upsert_holds n d t) as H. apply existsb_exists in H. exact H.
  - intros r' Hin Hc. unfold upsert in Hin.
    destruct (existsb (conflicts d) t) eqn:Hex.
    + apply in_map_iff in Hin. destruct Hin as (r & <- & Hr).
      rewrite conflicts_on_conflict in Hc. unfold on_conflict. rewrite Hc.
      cbn. repeat split; reflexivity.
    + apply in_app_or in Hin. destruct Hin as [ Hin | [ <- | [] ] ].
      * exfalso. assert (existsb (conflicts d) t = true) by (apply existsb_exists; eauto).
        congruence.
      * cbn. repeat split; reflexivity.
  - intros r Hin Hc. exists (do_update d r). unfold upsert.
    assert (Hex : existsb (conflicts d) t = true) by (apply existsb_exists; eauto).
    rewrite Hex. split.
    + apply in_map_iff. exists r. split; [ | exact Hin ]. unfold on_conflict. rewrite Hc. reflexivity.
    + cbn. repeat split; reflexivity.
  - intros r Hin Hc. unfold upsert. destruct (existsb (conflicts d) t).
    + apply in_map_iff. exists r. split; [ | exact Hin ]. unfold on_conflict. rewrite Hc. reflexivity.
    + apply in_or_app. left. exact Hin.
Qed.

Lemma detections_of_length (features rows : list bgp_features_1min.row) :
  List.length (detections_of L features rows)
  = List.length (filter (has_hits L features) rows).
Proof.
  unfold detections_of. induction rows as [ | row rows IH ]; [ reflexivity | ].
  cbn [flat_map filter]. rewrite length_app, IH. unfold detection_of, has_hits.
  destruct (hits_of L features row) as [ | hit hits ]; [ reflexivity | ].
  destruct (build_detection_ok L row hit hits) as [d Hd]. rewrite Hd. reflexivity.
Qed.

(** A statement that fails inserts nothing. *)
Lemma run_inserts_failing ds fs db0 :
  (List.length ds <= List.length fs)%nat ->
  Forall (fun f => exists m, f = pg.StatementError m) fs ->
  run_inserts ds fs db0 = db0.
Proof.
  revert fs. induction ds as [ | d ds IH ]; intros fs Hlen Hfs; [ reflexivity | ].
  destruct Hfs as [ | f fs (m & ->) Hfs ]; [ cbn in Hlen; lia | ].
  cbn [run_inserts pg.next_fault fst snd insert_under]. apply IH; [ | exact Hfs ].
  cbn in Hlen. lia.
Qed.

(** X11: the count [process_feature_rows] returns (and [main] logs as
    "Inserted") is the number of rows of the batch on which a rule
    fires, whatever the number of INSERTs that failed: when every
    INSERT fails, the table is left as it was and the count is the
    same. *)
Theorem detection_count_includes_failed_inserts
    (rows : list bgp_features_1min.row) (w : world) :
  inserts_may_fail w ->
  fst (process_feature_rows L rows w)
  = py.Ok (Z.of_nat (List.length (filter (has_hits L (tbl_bgp_features_1min (db w))) rows)))
  /\ (Forall (fun f => exists m, f = pg.StatementError m) (insert_faults w) ->
      (List.length rows <= List.length (insert_faults w))%nat ->
      tbl_hybrid_anomaly_detections (db (snd (process_feature_rows L rows w)))
      = tbl_hybrid_anomaly_detections (db w)).
Proof.
  intros Hw. destruct (process_feature_rows_run L rows w Hw) as (lg & fs & Hrun & _).
  rewrite Hrun. cbn [fst snd db]. split.
  - rewrite detections_of_length. reflexivity.
  - intros Hfail Hlen. rewrite run_inserts_failing; [ reflexivity | | exact Hfail ].
    rewrite detections_of_length.
    pose proof (filter_length_le (has_hits L (tbl_bgp_features_1min (db w))) rows). lia.
Qed.

Lemma row_leb_true (a b : bgp_features_1min.row) :
  row_leb L a b = true -> window_order a b.
Proof.
  unfold row_leb, window_order.
  destruct (Z.ltb_spec (bgp_features_1min.window_start a) (bgp_features_1min.window_start b));
    [ lia | ].
  destruct (Z.ltb_spec (bgp_features_1min.window_start b) (bgp_features_1min.window_start a));
    [ discriminate | lia ].
Qed.

Lemma row_leb_false (a b : bgp_features_1min.row) :
  row_leb L a b = false -> window_order b a.
Proof.
  unfold row_leb, window_order.
  destruct (Z.ltb_spec (bgp_features_1min.window_start a) (bgp_features_1min.window_start b));
    [ discriminate | lia ].
Qed.

Lemma insert_sorted_perm {A} (leb : A -> A -> bool) (x : A) (l : list A) :
  Permutation (py.insert_sorted leb x l) (x :: l).
Proof.
  induction l as [ | y l IH ]; cbn; [ apply Permutation_refl | ].
  destruct (leb x y); [ apply Permutation_refl | ].
  eapply Permutation_trans; [ apply perm_skip; exact IH | apply perm_swap ].
Qed.

Lemma sort_by_perm {A} (leb : A -> A -> bool) (l : list A) :
  Permutation (py.sort_by leb l) l.
Proof.
  induction l as [ | x l IH ]; cbn; [ constructor | ].
  eapply Permutation_trans; [ apply insert_sorted_perm | apply perm_skip; exact IH ].
Qed.

Lemma insert_sorted_sorted (x : bgp_features_1min.row) (l : list bgp_features_1min.row) :
  Sorted window_order l -> Sorted window_order (py.insert_sorted (row_leb L) x l).
Proof.
  induction l as [ | y l IH ]; intros Hs; cbn.
  - repeat constructor.
  - destruct (row_leb L x y) eqn:Hxy.
    + constructor; [ exact Hs | constructor; apply row_leb_true; exact Hxy ].
    + inversion Hs as [ | ? ? Hs' Hhd ]; subst.
      constructor; [ apply IH; exact Hs' | ].
      destruct l as [ | z l ]; cbn.
      * constructor. apply row_leb_false. exact Hxy.
      * destruct (row_leb L x z); constructor.
        -- apply row_leb_false. exact Hxy.
        -- inversion Hhd; assumption.
Qed.

(** X12: the rows [fetch_new_feature_rows] selects are the rows of
    the table whose window starts later than the checkpoint, each one
    once, in the order of their [window_start]: no row of the batch
    starts later than a row that follows it. *)
Theorem new_feature_rows_in_window_order (last_ts : Z) (d : database) :
  StronglySorted window_order (new_feature_rows_query L last_ts d)
  /\ Permutation (new_feature_rows_query L last_ts d)
       (filter (fun r => last_ts <? bgp_features_1min.window_start r) (tbl_bgp_features_1min d)).
Proof.
  unfold new_feature_rows_query. split; [ | apply sort_by_perm ].
  apply Sorted_StronglySorted.
  - intros a b c. unfold window_order. lia.
  - induction (filter (fun r => last_ts <? bgp_features_1min.window_start r)
                      (tbl_bgp_features_1min d)) as [ | x l IH ]; cbn.
    + constructor.
    + apply insert_sorted_sorted. exact IH.
Qed.

(** X13: one turn of the loop of [main] never raises.  On a connection
    that is closed it logs one error and leaves the store as it is. *)
Theorem heuristic_poll_never_raises (now : Z) (w : world) :
  fst (main_iteration L now w) = py.Ok tt
  /\ (conn_open w = false ->
      db (snd (main_iteration L now w)) = db w
      /\ log (snd (main_iteration L now w))
         = ("ERROR", "Error in processing loop: the connection is closed") :: log w).
Proof.
  split.
  - unfold main_iteration, py.try_except.
    match goal with |- fst (match ?m with _ => _ end) = _ => destruct m as [ [ [] | e ] w' ] end;
      reflexivity.
  - intros Hclosed. destruct w as [d co fi fq lg]. cbn [conn_open] in Hclosed. subst co.
    split; reflexivity.
Qed.

(** X14: [update_state] is an UPDATE of the row of id 1, and nothing
    in the detector inserts that row: when the state table is empty a
    poll leaves it empty, whatever it has processed, so that every
    poll starts from its own current time. *)
Theorem checkpoint_is_never_created (now : Z) (w : world) :
  inserts_may_fail w ->
  tbl_heuristic_inference_state (db w) = None ->
  let w' := snd (main_iteration L now w) in
  tbl_heuristic_inference_state (db w') = None
  /\ tbl_hybrid_anomaly_detections (db w')
     = tbl_hybrid_anomaly_detections
         (run_inserts (detections_of L (tbl_bgp_features_1min (db w))
                         (new_feature_rows_query L now (db w)))
                      (insert_faults w) (db w))
  /\ (forall now', fst (get_last_processed_timestamp now' w') = py.Ok now').
Proof.
  intros Hw Hstate. cbv zeta.
  destruct (main_iteration_run L now w Hw) as (lg & fs & Hrun & _).
  rewrite Hrun. cbn [snd db].
  assert (Hafter : tbl_heuristic_inference_state (after_poll L now (insert_faults w) (db w)) = None
                   /\ tbl_hybrid_anomaly_detections (after_poll L now (insert_faults w) (db w))
                      = tbl_hybrid_anomaly_detections
                          (run_inserts (detections_of L (tbl_bgp_features_1min (db w))
                                          (new_feature_rows_query L now (db w)))
                                       (insert_faults w) (db w))).
  { unfold after_poll. rewrite Hstate. cbn [checkpoint].
    destruct (new_feature_rows_query L now (db w)) as [ | r batch ].
    - split; [ exact Hstate | reflexivity ].
    - cbn [set_heuristic_inference_state tbl_heuristic_inference_state
           tbl_hybrid_anomaly_detections].
      rewrite run_inserts_state, Hstate. split; reflexivity. }
  destruct Hafter as [Hnone Htbl].
  repeat split; [ exact Hnone | exact Htbl | ].
  intros now'. rewrite get_last_processed_timestamp_run by reflexivity.
  cbn [fst db]. rewrite Hnone. reflexivity.
Qed.

End HeuristicStore.

(** The theorems at work: the detection of the table is inserted again;
    the two INSERTs of the batch of [example.bogon_db] fail; the
    detector polls without its state row. *)
Lemma upsert_keeps_detection_ids_unique_witness :
  let t := [ {| hybrid_anomaly_detections.id := 1;
                hybrid_anomaly_detections.cols := example.sample_detection |} ] in
  spec.detection_ids (heuristic_detector.upsert 2 example.sample_detection t)
  = spec.detection_ids t.
Proof.
  cbv zeta.
  destruct (upsert_keeps_detection_ids_unique 2 example.sample_detection
              [ {| hybrid_anomaly_detections.id := 1;
                   hybrid_anomaly_detections.cols := example.sample_detection |} ])
    as (_ & _ & H & _).
  - repeat constructor. intros [].
  - apply H. left. reflexivity.
Defined.

Lemma detection_count_includes_failed_inserts_witness :
  let w := example.bogon_world [ pg.StatementError "deadlock detected";
                                 pg.StatementError "deadlock detected" ] in
  let run := heuristic_detector.process_feature_rows example.lib
               (store.tbl_bgp_features_1min example.bogon_db) w in
  fst run = py.Ok 2
  /\ store.tbl_hybrid_anomaly_detections (heuristic_detector.db (snd run)) = [].
Proof.
  cbv zeta.
  destruct (detection_count_includes_failed_inserts example.lib
              (store.tbl_bgp_features_1min example.bogon_db)
              (example.bogon_world [ pg.StatementError "deadlock detected";
                                     pg.StatementError "deadlock detected" ]))
    as (Hcount & Htable).
  - repeat split; try reflexivity.
    repeat constructor; discriminate.
  - split.
    + rewrite Hcount. vm_compute. reflexivity.
    + rewrite Htable; [ reflexivity | | cbn; lia ].
      repeat constructor; eexists; reflexivity.
Defined.

Lemma checkpoint_is_never_created_witness :
  store.tbl_heuristic_inference_state
    (heuristic_detector.db
       (snd (heuristic_detector.main_iteration example.lib example.poll_time
               example.restarted_world)))
  = None.
Proof.
  destruct (checkpoint_is_never_created example.lib example.poll_time example.restarted_world)
    as (H & _).
  - repeat split; try reflexivity. vm_compute. constructor.
  - reflexivity.
  - exact H.
Defined.

(** ** The heuristic detector: classification and identity *)

Section HeuristicClassification.

Import store heuristic_detector spec.

Variable L : py.lib.

Ltac pick_name := cbn [In rule_name]; repeat first [ left; reflexivity | right ].

Ltac split_rule H :=
  repeat match type of H with
    | (if ?c then _ else _) = Some _ => destruct c
    end;
  try discriminate H; injection H as <-; pick_name.

Lemma bogon_asn_in_name (ranges : list (Z * Z)) (o : Z) (hit : HeuristicHit) :
  bogon_asn_in ranges o = Some hit -> rule_name hit = "bogon_asn_critical".
Proof.
  induction ranges as [ | [a b] ranges IH ]; cbn [bogon_asn_in]; [ discriminate | ].
  destruct ((a <=? o) && (o <=? b)); [ | exact IH ].
  intros H. injection H as <-. reflexivity.
Qed.

Lemma bogon_prefix_in_name (bogons : list string) (p : string) (a : py.ip_net) (hit : HeuristicHit) :
  bogon_prefix_in L bogons p a = py.Ok (Some hit) -> rule_name hit = "bogon_prefix_critical".
Proof.
  induction bogons as [ | b bogons IH ]; cbn [bogon_prefix_in]; [ discriminate | ].
  destruct (py.ip_network L true b); [ | discriminate ].
  destruct (py.overlaps a i); [ | exact IH ].
  intros H. injection H as <-. reflexivity.
Qed.

(** Every hit carries the name of a rule. *)
Lemma hits_of_rule_names (features : list bgp_features_1min.row) (row : bgp_features_1min.row)
                         (hit : HeuristicHit) :
  In hit (hits_of L features row) -> In (rule_name hit) rule_names.
Proof.
  unfold hits_of. rewrite not_none_in. unfold rule_names.
  intros [ H | [ H | [ H | [ H | [ H | [ H | [ H | [ H | [ H | [] ] ] ] ] ] ] ] ] ].
  - unfold check_churn in H. cbv zeta in H. split_rule H.
  - unfold check_withdrawal_ratio in H. cbv zeta in H. split_rule H.
  - unfold check_flapping in H. cbv zeta in H. split_rule H.
  - unfold check_path_length in H. cbv zeta in H. split_rule H.
  - apply bogon_asn_in_name in H. rewrite H. pick_name.
  - destruct (String.eqb (bgp_features_1min.prefix row) ""); [ discriminate H | ].
    unfold bogon_prefix_hit in H.
    destruct (py.ip_network L false (bgp_features_1min.prefix row)); [ | discriminate H ].
    destruct (bogon_prefix_in L BOGON_PREFIXES (bgp_features_1min.prefix row) i) as [ h | e ] eqn:Hb;
      [ | discriminate H ].
    subst h. apply bogon_prefix_in_name in Hb. rewrite Hb. pick_name.
  - destruct (inflation_skipped row); [ discriminate H | ].
    unfold inflation_hit in H.
    destruct (baseline_path _ _ _ features); [ | discriminate H ].
    cbv zeta in H. split_rule H.
  - unfold check_volume_spike in H. cbv zeta in H. split_rule H.
  - unfold check_session_resets in H. cbv zeta in H. split_rule H.
Qed.

(** X15: the classification of the hits of a row is never "unknown" and
    never fails: it is "multi_rule" exactly when two rules or more
    fire, and the class of the rule otherwise. *)
Theorem classification_is_never_unknown
    (features : list bgp_features_1min.row) (row : bgp_features_1min.row) :
  hits_of L features row <> [] ->
  exists c,
    determine_classification (hits_of L features row) = py.Ok c
    /\ c <> "unknown"
    /\ (c = "multi_rule" <-> (2 <= List.length (hits_of L features row))%nat)
    /\ (c = "multi_rule" \/ In c rule_classifications).
Proof.
  intros Hhits.
  pose proof (hits_of_rule_names features row) as Hnames.
  destruct (hits_of L features row) as [ | hit [ | hit2 rest ] ]; [ contradiction | | ].
  - specialize (Hnames hit (or_introl eq_refl)).
    unfold determine_classification. cbv zeta. unfold rule_names in Hnames. cbn [In] in Hnames.
    repeat match type of Hnames with
      | _ \/ _ => destruct Hnames as [ Hnames | Hnames ]
      end;
      try contradiction;
      rewrite <- Hnames; eexists; (split; [ vm_compute; reflexivity | ]);
        (split; [ discriminate | ]);
        (split; [ split; [ discriminate | cbn; lia ] | ]);
        right; unfold rule_classifications; cbn [In];
        repeat first [ left; reflexivity | right ].
  - exists "multi_rule". repeat split; try reflexivity; try discriminate.
    + cbn. lia.
    + left. reflexivity.
Qed.

Lemma upsert_leaves_other_ids (n : Z) (d : hybrid_anomaly_detections.values)
                              (t : list hybrid_anomaly_detections.row)
                              (r : hybrid_anomaly_detections.row) :
  hybrid_anomaly_detections.detection_id (hybrid_anomaly_detections.cols r)
  <> hybrid_anomaly_detections.detection_id d ->
  In r t -> In r (upsert n d t).
Proof.
  intros Hid Hin.
  assert (Hc : conflicts d r = false).
  { unfold conflicts. apply String.eqb_neq. exact Hid. }
  unfold upsert. destruct (existsb (conflicts d) t).
  - apply in_map_iff. exists r. split; [ | exact Hin ]. unfold on_conflict. rewrite Hc. reflexivity.
  - apply in_or_app. left. exact Hin.
Qed.

(** X16: the three detectors never give two detections the same
    [detection_id] (theirs start with "heur_", "ml_" and "rpki_"), so
    that the INSERT ... ON CONFLICT of the heuristic detector never
    touches a row written under the [detection_id] of the ML or of the
    RPKI detector. *)
Theorem detectors_never_share_a_detection_id
    (ws ws' t : Z) (p p' : string) (o o' : Z)
    (row : bgp_features_1min.row) (res : rpki_validator_service.rpki_result) :
  let heur := generate_detection_id L ws p o in
  let ml := ml_inference_service.generate_detection_id L ws' p' o' in
  let rpki := hybrid_anomaly_detections.detection_id
                (rpki_validator_service.detection_of L t row res) in
  heur <> ml /\ heur <> rpki /\ ml <> rpki
  /\ (forall n d table r,
        hybrid_anomaly_detections.detection_id d = heur ->
        In r table ->
        (hybrid_anomaly_detections.detection_id (hybrid_anomaly_detections.cols r) = ml
         \/ hybrid_anomaly_detections.detection_id (hybrid_anomaly_detections.cols r) = rpki) ->
        In r (upsert n d table)).
Proof.
  cbv zeta.
  assert (H1 : generate_detection_id L ws p o
               <> ml_inference_service.generate_detection_id L ws' p' o').
  { unfold generate_detection_id, ml_inference_service.generate_detection_id.
    cbv zeta. cbn [append]. discriminate. }
  assert (H2 : generate_detection_id L ws p o
               <> hybrid_anomaly_detections.detection_id
                    (rpki_validator_service.detection_of L t row res)).
  { unfold generate_detection_id, rpki_validator_service.detection_of.
    cbv zeta. cbn [append hybrid_anomaly_detections.detection_id]. discriminate. }
  repeat match goal with |- _ /\ _ => split end; try assumption.
  - unfold ml_inference_service.generate_detection_id, rpki_validator_service.detection_of.
    cbv zeta. cbn [append hybrid_anomaly_detections.detection_id]. discriminate.
  - intros n d table r Hd Hin Hr. apply upsert_leaves_other_ids; [ | exact Hin ].
    rewrite Hd. destruct Hr as [ -> | -> ]; intros H; symmetry in H; contradiction.
Qed.

End HeuristicClassification.

(** The theorem at work on a row of [example.bogon_db]. *)
Lemma classification_is_never_unknown_witness :
  heuristic_detector.determine_classification
    (spec.hits_of example.lib (store.tbl_bgp_features_1min example.bogon_db)
                  (example.bogon_row 1 (example.poll_time - 2 * example.one_hour)))
  = py.Ok "bogon_asn".
Proof.
  destruct (classification_is_never_unknown example.lib
              (store.tbl_bgp_features_1min example.bogon_db)
              (example.bogon_row 1 (example.poll_time - 2 * example.one_hour)))
    as (c & Hc & _).
  - vm_compute. discriminate.
  - vm_compute. reflexivity.
Defined.

(** ** The RPKI detector: its transaction, its table, its waiting *)

Section RpkiStore.

Import store rpki_validator_service.

Variable L : py.lib.

(** X17: the SELECTs of the RPKI detector run in a transaction that
    nothing rolls back: their handlers only log.  When the SELECT of
    [get_last_processed_timestamp] fails, the poll ends with the
    transaction aborted; and a poll that starts in an aborted
    transaction does nothing (it fetches no row, validates nothing and
    leaves the transaction aborted), so that the detector stays idle
    for good. *)
Theorem a_failed_select_stalls_the_rpki_detector :
  (forall w m rest,
     conn_open w = true -> txn_failed w = false ->
     db_faults w = pg.StatementError m :: rest ->
     fst (main_iteration L w) = py.Ok tt
     /\ txn_failed (snd (main_iteration L w)) = true
     /\ requests (snd (main_iteration L w)) = requests w
     /\ committed (snd (main_iteration L w)) = committed w)
  /\ (forall w, txn_failed w = true -> spec.idle_poll L w).
Proof.
  split.
  - intros w m rest Hopen Htxn Hfaults.
    destruct w as [c s tf co fs h rq sl n lg]. cbn [conn_open txn_failed db_faults] in *.
    subst co tf fs.
    destruct rest as [ | [ | m2 | m2 ] rest ]; repeat split; reflexivity.
  - intros w Htxn. unfold spec.idle_poll.
    destruct w as [c s tf co fs h rq sl n lg]. cbn [txn_failed] in Htxn. subst tf.
    destruct co;
      [ destruct fs as [ | [ | m1 | m1 ] [ | [ | m2 | m2 ] fs ] ] | ];
      cbv zeta; repeat split; reflexivity.
Qed.

Lemma insert_or_nothing_table (d : hybrid_anomaly_detections.values) (db0 : database) :
  tbl_hybrid_anomaly_detections (insert_or_nothing d db0)
  = if existsb (fun r => String.eqb (hybrid_anomaly_detections.detection_id
                                       (hybrid_anomaly_detections.cols r))
                                    (hybrid_anomaly_detections.detection_id d))
               (tbl_hybrid_anomaly_detections db0)
    then tbl_hybrid_anomaly_detections db0
    else (tbl_hybrid_anomaly_detections db0
          ++ [ {| hybrid_anomaly_detections.id := seq_hybrid_anomaly_detections db0 + 1;
                  hybrid_anomaly_detections.cols := d |} ])%list.
Proof.
  unfold insert_or_nothing. cbv zeta.
  destruct (existsb _ (tbl_hybrid_anomaly_detections db0)); reflexivity.
Qed.

Lemma held_iff (d : hybrid_anomaly_detections.values) (t : list hybrid_anomaly_detections.row) :
  existsb (fun r => String.eqb (hybrid_anomaly_detections.detection_id
                                  (hybrid_anomaly_detections.cols r))
                               (hybrid_anomaly_detections.detection_id d)) t = true
  <-> In (hybrid_anomaly_detections.detection_id d) (spec.detection_ids t).
Proof.
  unfold spec.detection_ids. rewrite existsb_exists, in_map_iff.
  split; intros (r & H1 & H2).
  - exists r. apply String.eqb_eq in H2. split; [ exact H2 | exact H1 ].
  - exists r. split; [ exact H2 | ]. apply String.eqb_eq. exact H1.
Qed.

(** X18: the INSERT ... ON CONFLICT (detection_id) DO NOTHING of the
    RPKI detector: the first detection written under a [detection_id]
    stays as it is, whatever a later validation of the same row finds;
    a detection under a new [detection_id] is appended; the
    [detection_id]s stay unique; the statement takes a value of the
    sequence in both cases; and a second INSERT of the same detection
    leaves the table as the first left it. *)
Theorem insert_or_nothing_first_writer_wins
    (d : hybrid_anomaly_detections.values) (db0 : database) :
  let t := tbl_hybrid_anomaly_detections db0 in
  let db1 := insert_or_nothing d db0 in
  (In (hybrid_anomaly_detections.detection_id d) (spec.detection_ids t) ->
   tbl_hybrid_anomaly_detections db1 = t)
  /\ (~ In (hybrid_anomaly_detections.detection_id d) (spec.detection_ids t) ->
      tbl_hybrid_anomaly_detections db1
      = (t ++ [ {| hybrid_anomaly_detections.id := seq_hybrid_anomaly_detections db0 + 1;
                   hybrid_anomaly_detections.cols := d |} ])%list)
  /\ (NoDup (spec.detection_ids t) ->
      NoDup (spec.detection_ids (tbl_hybrid_anomaly_detections db1)))
  /\ seq_hybrid_anomaly_detections db1 = seq_hybrid_anomaly_detections db0 + 1
  /\ tbl_hybrid_anomaly_detections (insert_or_nothing d db1)
     = tbl_hybrid_anomaly_detections db1.
Proof.
  cbv zeta.
  assert (Hseq : forall db', seq_hybrid_anomaly_detections (insert_or_nothing d db')
                             = seq_hybrid_anomaly_detections db' + 1).
  { intros db'. unfold insert_or_nothing. cbv zeta.
    destruct (existsb _ (tbl_hybrid_anomaly_detections db')); reflexivity. }
  assert (Hcases : forall db',
            (In (hybrid_anomaly_detections.detection_id d)
                (spec.detection_ids (tbl_hybrid_anomaly_detections db'))
             /\ tbl_hybrid_anomaly_detections (insert_or_nothing d db')
                = tbl_hybrid_anomaly_detections db')
            \/ (~ In (hybrid_anomaly_detections.detection_id d)
                     (spec.detection_ids (tbl_hybrid_anomaly_detections db'))
                /\ tbl_hybrid_anomaly_detections (insert_or_nothing d db')
                   = (tbl_hybrid_anomaly_detections db'
                      ++ [ {| hybrid_anomaly_detections.id := seq_hybrid_anomaly_detections db' + 1;
                              hybrid_anomaly_detections.cols := d |} ])%list)).
  { intros db'. rewrite insert_or_nothing_table.
    destruct (existsb _ (tbl_hybrid_anomaly_detections db')) eqn:Hex.
    - left. split; [ apply held_iff; exact Hex | reflexivity ].
    - right. split; [ | reflexivity ]. intros Hin. apply held_iff in Hin. congruence. }
  repeat match goal with |- _ /\ _ => split end.
  - intros Hin. destruct (Hcases db0) as [ [_ H] | [Hnot _] ]; [ exact H | contradiction ].
  - intros Hnot. destruct (Hcases db0) as [ [Hin _] | [_ H] ]; [ contradiction | exact H ].
  - intros Hnd. destruct (Hcases db0) as [ [_ H] | [Hnot H] ]; rewrite H; [ exact Hnd | ].
    unfold spec.detection_ids. rewrite map_app.
    apply NoDup_app; [ exact Hnd | repeat constructor; intros [] | ].
    intros x Hx [ <- | [] ]. apply Hnot. exact Hx.
  - apply Hseq.
  - destruct (Hcases (insert_or_nothing d db0)) as [ [_ H] | [Hnot _] ]; [ exact H | ].
    exfalso. apply Hnot.
    destruct (Hcases db0) as [ [Hin H] | [_ H] ]; rewrite H.
    + exact Hin.
    + unfold spec.detection_ids. rewrite map_app. apply in_or_app. right. left. reflexivity.
Qed.

Lemma process_row_returns (acc : Z) (row : bgp_features_1min.row) (w : world) :
  exists n, fst (process_row L acc row w) = py.Ok n /\ acc <= n <= acc + 1.
Proof.
  unfold process_row, py.try_except, py.bind.
  destruct (validate_rpki L row w) as [ [ [ r | ] | e ] w1 ].
  - destruct (insert_rpki_detection L row r w1) as [ [ [] | e ] w2 ].
    + exists (acc + 1). split; [ reflexivity | lia ].
    + exists acc. split; [ reflexivity | lia ].
  - exists acc. split; [ reflexivity | lia ].
  - exists acc. split; [ reflexivity | lia ].
Qed.

Lemma fold_process_row_returns (df : list bgp_features_1min.row) (acc : Z) (w : world) :
  exists n, fst (py.fold_for df acc (process_row L) w) = py.Ok n
            /\ acc <= n <= acc + Z.of_nat (List.length df).
Proof.
  revert acc w. induction df as [ | row df IH ]; intros acc w.
  - exists acc. split; [ reflexivity | cbn; lia ].
  - cbn [py.fold_for]. unfold py.bind at 1.
    destruct (process_row_returns acc row w) as (n1 & H1 & Hn1).
    destruct (process_row L acc row w) as [ [ n | e ] w1 ]; cbn [fst] in H1; [ | discriminate H1 ].
    injection H1 as ->.
    destruct (IH n1 w1) as (n & Hn & Hle).
    exists n. split; [ exact Hn | ]. cbn [List.length]. lia.
Qed.

(** X19: [process_feature_rows] of the RPKI detector never raises,
    whatever the validator and the database do: an error on a row is
    logged and the loop goes on.  The count it returns lies between 0
    and the number of rows of the batch. *)
Theorem rpki_process_feature_rows_never_raises (df : list bgp_features_1min.row) (w : world) :
  exists n, fst (process_feature_rows L df w) = py.Ok n
            /\ 0 <= n <= Z.of_nat (List.length df).
Proof.
  unfold process_feature_rows.
  destruct (fold_process_row_returns df 0 w) as (n & Hn & Hle).
  exists n. split; [ exact Hn | lia ].
Qed.

(** X20: a row whose prefix holds no "/" followed by an integer is
    skipped without a request to the validator: [validate_rpki] logs a
    warning and reports nothing. *)
Theorem validate_rpki_skips_a_prefix_without_length (row : bgp_features_1min.row) (w : world) :
  get_prefix_length L (bgp_features_1min.prefix row) = None ->
  fst (validate_rpki L row w) = py.Ok None
  /\ requests (snd (validate_rpki L row w)) = requests w
  /\ sleeps (snd (validate_rpki L row w)) = sleeps w
  /\ log (snd (validate_rpki L row w))
     = ("WARNING", "Invalid prefix format: " ++ bgp_features_1min.prefix row) :: log w.
Proof.
  intros Hlen. unfold validate_rpki, py.try_except. rewrite Hlen.
  repeat split; reflexivity.
Qed.

Lemma slept_refl (w : world) (n : Z) : 0 <= n -> spec.slept w w n.
Proof.
  intros Hn. exists []. repeat split; [ constructor | cbn; lia | cbn; lia ].
Qed.

Lemma attempts_slept (url prefix : string) (asn : Z) (range : list nat) (w : world) :
  spec.slept w (snd (attempts url prefix asn range w)) (5 * Z.of_nat (List.length range)).
Proof.
  revert w. induction range as [ | attempt range IH ]; intros w.
  - apply slept_refl. cbn. lia.
  - cbn [attempts]. unfold py.bind at 1. unfold requests_get at 1.
    set (w1 := {| committed := committed w; session := session w; txn_failed := txn_failed w;
                  conn_open := conn_open w; db_faults := db_faults w; http := tl (http w);
                  requests := (url, REQUEST_TIMEOUT) :: requests w; sleeps := sleeps w;
                  now := now w; log := log w |}).
    assert (Hstep : forall w2 nap, 0 <= nap <= 5 ->
                    sleeps w2 = nap :: sleeps w -> now w2 = now w + nap * 1000000 ->
                    spec.slept w (snd (attempts url prefix asn range w2))
                               (5 * Z.of_nat (S (List.length range)))).
    { intros w2 nap Hnap Hs Hn. destruct (IH w2) as (naps & Hr & Hpos & Hsum & Hnow).
      exists (naps ++ [ nap ])%list.
      assert (Hsum' : feature_aggregator.sum_Z (naps ++ [ nap ]) = feature_aggregator.sum_Z naps + nap).
      { clear. induction naps as [ | x naps IHn ]; [ cbn; lia | ].
        cbn [app]. rewrite !sum_Z_cons, IHn. lia. }
      repeat split.
      - rewrite Hr, Hs, <- app_assoc. reflexivity.
      - apply Forall_app. split; [ exact Hpos | repeat constructor; lia ].
      - rewrite Hsum'. lia.
      - rewrite Hnow, Hn, Hsum'. lia. }
    assert (Hskip : forall w2, sleeps w2 = sleeps w -> now w2 = now w ->
                    spec.slept w (snd (attempts url prefix asn range w2))
                               (5 * Z.of_nat (S (List.length range)))).
    { intros w2 Hs Hn. destruct (IH w2) as (naps & Hr & Hpos & Hsum & Hnow).
      exists naps. repeat split.
      - rewrite Hr, Hs. reflexivity.
      - exact Hpos.
      - lia.
      - rewrite Hnow, Hn. reflexivity. }
    assert (Hnow : forall w2, sleeps w2 = sleeps w -> now w2 = now w ->
                   spec.slept w w2 (5 * Z.of_nat (S (List.length range)))).
    { intros w2 Hs Hn. exists []. repeat split.
      - exact Hs.
      - constructor.
      - cbn [feature_aggregator.sum_Z fold_right]. lia.
      - rewrite Hn. cbn. lia. }
    destruct (match http w with [] => ConnectionError | o :: _ => o end)
      as [ status_code body | | | e ].
    + destruct (status_code =? 200).
      * destruct body; apply Hnow; reflexivity.
      * destruct (status_code =? 503).
        -- unfold py.bind, logger, sleep, py.modify. cbn.
           apply (Hstep _ 5); [ lia | reflexivity | reflexivity ].
        -- unfold py.bind, logger, py.modify, py.ret. cbn. apply Hnow; reflexivity.
    + destruct (Nat.ltb attempt (MAX_RETRIES - 1));
        unfold py.bind, logger, sleep, py.modify, py.ret; cbn.
      * apply (Hstep _ 2); [ lia | reflexivity | reflexivity ].
      * apply Hskip; reflexivity.
    + unfold py.bind, logger, py.modify, py.ret. cbn. apply Hnow; reflexivity.
    + apply Hnow; reflexivity.
Qed.

(** X21: one call of [query_routinator_api] sleeps 15 seconds at most
    in all (5 seconds after each 503 answer, 2 seconds after a timeout
    that is not the last attempt), whatever the validator answers. *)
Theorem query_routinator_api_sleeps_15s_at_most (asn : Z) (prefix : string) (w : world) :
  spec.slept w (snd (query_routinator_api L asn prefix w)) 15.
Proof.
  unfold query_routinator_api, py.try_except.
  destruct (py.ip_network L false prefix) as [ network | ].
  - match goal with |- context [ attempts ?u ?p ?a ?r w ] =>
      pose proof (attempts_slept u p a r w) as Hb;
      destruct (attempts u p a r w) as [[j | e] w']
    end; cbn [snd] in *; rewrite length_seq in Hb; exact Hb.
  - exists []. split; [ reflexivity | ]. split; [ constructor | ].
    split; [ cbn; lia | cbn; lia ].
Qed.

End RpkiStore.

(** The theorem at work on a row whose prefix is a bare address. *)
Lemma validate_rpki_skips_a_prefix_without_length_witness :
  fst (rpki_validator_service.validate_rpki example.lib example.bare_address_row
         (example.rpki_world []))
  = py.Ok None
  /\ rpki_validator_service.requests
       (snd (rpki_validator_service.validate_rpki example.lib example.bare_address_row
               (example.rpki_world [])))
     = [].
Proof.
  destruct (validate_rpki_skips_a_prefix_without_length example.lib example.bare_address_row
              (example.rpki_world []))
    as (H1 & H2 & _).
  - reflexivity.
  - split; [ exact H1 | exact H2 ].
Defined.

(** ** The correlation engine: the decision matrix and the batch *)

Section CorrelationMatrix.

Import correlation_engine spec.

Lemma unique_length (l : list string) :
  (List.length (unique l) <= List.length l)%nat
  /\ (l <> [] -> 1 <= List.length (unique l))%nat.
Proof.
  split.
  - induction l as [ | x l IH ]; [ cbn; lia | ].
    cbn [unique List.length].
    pose proof (filter_length_le (fun y => negb (String.eqb x y)) (unique l)). lia.
  - destruct l as [ | x l ]; [ intros H; contradiction | ].
    intros _. cbn [unique List.length]. lia.
Qed.

(** The scan of the invalid RPKI rows only raises the flags. *)
Lemma scan_rpki_invalid_hijack (rows : list hybrid_anomaly_detections.row)
                               (flags res : bool * bool) :
  scan_rpki_invalid rows flags = py.Ok res ->
  fst flags = true \/ (exists r, In r rows /\ signals_hijack r) ->
  fst res = true.
Proof.
  revert flags. induction rows as [ | row rows IH ]; intros flags Hscan Hcause.
  - cbn in Hscan. injection Hscan as <-.
    destruct Hcause as [ H | (r & [] & _) ]. exact H.
  - cbn [scan_rpki_invalid] in Hscan.
    destruct (metadata_of row) as [ | b | z | f | str | l | d ] eqn:Hmeta;
      try (apply (IH flags Hscan);
           destruct Hcause as [ H | (r & [ <- | Hin ] & Hr) ];
           [ left; exact H
           | destruct Hr as (_ & d' & desc & Hd & _); congruence
           | right; exists r; split; assumption ]).
    destruct (py.dict_get (py.JDict d) "rpki_description" (py.JStr "")) as [ v | e ] eqn:Hget;
      [ | discriminate Hscan ].
    cbn [py.rbind] in Hscan.
    destruct (py.str_lower v) as [ desc | e ] eqn:Hlow; [ | discriminate Hscan ].
    cbn [py.rbind] in Hscan. cbv zeta in Hscan.
    apply (IH _ Hscan). cbn [fst].
    destruct Hcause as [ H | (r & [ <- | Hin ] & Hr) ].
    + left. rewrite H. reflexivity.
    + left. destruct Hr as (_ & d' & desc' & Hd & Hget' & Hsig).
      rewrite Hmeta in Hd. injection Hd as <-.
      rewrite Hget in Hget'. injection Hget' as ->.
      cbn in Hlow. injection Hlow as <-. rewrite Hsig. apply orb_true_r.
    + right. exists r. split; assumption.
Qed.

(** X22: a group that holds an RPKI detection of status invalid whose
    description speaks of an origin mismatch or of a hijack is
    classified HIJACK with severity critical whenever
    [classify_detection_group] returns, whatever the other detections
    of the group say. *)
Theorem origin_mismatch_is_classified_hijack
    (g : list hybrid_anomaly_detections.row) (r : hybrid_anomaly_detections.row)
    (res : string * string * Z * string) :
  In r g -> signals_hijack r ->
  classify_detection_group g = py.Ok res ->
  res = ("HIJACK", "critical", Z.of_nat (List.length (sources g)),
         "RPKI Origin AS mismatch detected - hijack signal").
Proof.
  intros Hin Hr Hres. unfold classify_detection_group in Hres. cbv zeta in Hres.
  match type of Hres with
  | py.rbind (scan_rpki_invalid ?rows ?f0) _ = _ =>
      destruct (scan_rpki_invalid rows f0) as [ flags | e ] eqn:Hscan; [ | discriminate Hres ];
      assert (Hflag : fst flags = true)
  end.
  { apply (scan_rpki_invalid_hijack _ _ _ Hscan). right. exists r. split; [ | exact Hr ].
    destruct Hr as (Hinv & _). unfold rpki_invalid in Hinv. apply andb_true_iff in Hinv.
    apply filter_In. split; [ apply filter_In; split; [ exact Hin | apply Hinv ] | apply Hinv ]. }
  cbn [py.rbind] in Hres.
  match type of Hres with
  | py.rbind ?m _ = _ => destruct m as [ infl | e ]; [ | discriminate Hres ]
  end.
  cbn [py.rbind] in Hres.
  match type of Hres with
  | py.rbind ?m _ = _ => destruct m as [ mx | e ]; [ | discriminate Hres ]
  end.
  cbn [py.rbind] in Hres.
  match type of Hres with
  | py.rbind ?m _ = _ => destruct m as [ lbl | e ]; [ | discriminate Hres ]
  end.
  cbn [py.rbind] in Hres. rewrite Hflag in Hres. injection Hres as <-. reflexivity.
Qed.

Lemma no_invalid_rpki (g : list hybrid_anomaly_detections.row) :
  (forall r, In r g -> rpki_invalid r = false) ->
  filter (fun r => String.eqb (hybrid_anomaly_detections.rpki_status
                                 (hybrid_anomaly_detections.cols r)) "invalid")
         (filter (event_type_is "rpki") g) = [].
Proof.
  intros Hnone. induction g as [ | r g IH ]; [ reflexivity | ].
  cbn [filter]. pose proof (Hnone r (or_introl eq_refl)) as Hr. unfold rpki_invalid in Hr.
  destruct (event_type_is "rpki" r); cbn [filter].
  - cbn [andb] in Hr. rewrite Hr. apply IH. intros r' Hr'. apply Hnone. right. exact Hr'.
  - apply IH. intros r' Hr'. apply Hnone. right. exact Hr'.
Qed.

(** X23: without an RPKI detection of status invalid, the severity of
    a group of two sources or more depends on the number of its
    sources alone: two sources give SUSPICIOUS with severity medium,
    three give high and four or more give critical, whatever the
    severities of the detections; so a critical detection that a
    second detector also reports comes out as medium. *)
Theorem severity_of_several_sources
    (g : list hybrid_anomaly_detections.row) (res : string * string * Z * string) :
  (forall r, In r g -> rpki_invalid r = false) ->
  (2 <= List.length (sources g))%nat ->
  classify_detection_group g = py.Ok res ->
  let n := List.length (sources g) in
  fst (fst (fst res)) = "SUSPICIOUS"
  /\ snd (fst res) = Z.of_nat n
  /\ snd (fst (fst res)) = (if Nat.eqb n 2 then "medium" else if Nat.eqb n 3 then "high"
                            else "critical").
Proof.
  intros Hnone Hn Hres. unfold classify_detection_group in Hres. cbv zeta in Hres.
  rewrite (no_invalid_rpki g Hnone) in Hres. cbn [scan_rpki_invalid py.rbind fst snd] in Hres.
  match type of Hres with
  | py.rbind ?m _ = _ => destruct m as [ infl | e ]; [ | discriminate Hres ]
  end.
  cbn [py.rbind] in Hres.
  match type of Hres with
  | py.rbind ?m _ = _ => destruct m as [ mx | e ]; [ | discriminate Hres ]
  end.
  cbn [py.rbind] in Hres.
  match type of Hres with
  | py.rbind ?m _ = _ => destruct m as [ lbl | e ]; [ | discriminate Hres ]
  end.
  cbn [py.rbind andb] in Hres. fold (sources g) in Hres. cbv zeta.
  destruct (Z.leb_spec 4 (Z.of_nat (List.length (sources g)))) as [H4 | H4].
  - injection Hres as <-. cbn [fst snd].
    destruct (Nat.eqb_spec (List.length (sources g)) 2); [ lia | ].
    destruct (Nat.eqb_spec (List.length (sources g)) 3); [ lia | ].
    repeat split; reflexivity.
  - destruct (Z.eqb_spec (Z.of_nat (List.length (sources g))) 3) as [H3 | H3].
    + injection Hres as <-. cbn [fst snd].
      destruct (Nat.eqb_spec (List.length (sources g)) 2); [ lia | ].
      destruct (Nat.eqb_spec (List.length (sources g)) 3); [ | lia ].
      repeat split; try reflexivity; try lia.
    + destruct (Z.eqb_spec (Z.of_nat (List.length (sources g))) 2) as [H2 | H2]; [ | lia ].
      injection Hres as <-. cbn [fst snd].
      destruct (Nat.eqb_spec (List.length (sources g)) 2); [ | lia ].
      repeat split; try reflexivity; try lia.
Qed.

Lemma severity_label_in (m : Z) (lbl : string) :
  severity_label m = py.Ok lbl -> In lbl severities.
Proof.
  unfold severity_label, severities.
  destruct (m =? 1); [ intros H; injection H as <-; cbn; tauto | ].
  destruct (m =? 2); [ intros H; injection H as <-; cbn; tauto | ].
  destruct (m =? 3); [ intros H; injection H as <-; cbn; tauto | ].
  destruct (m =? 4); [ intros H; injection H as <-; cbn; tauto | discriminate ].
Qed.

(** X24: what [classify_detection_group] returns, when it returns: one
    of the five classifications, one of the four severities, and the
    number of the sources of the group, which lies between 1 and the
    number of its detections.  The fallback "No significant anomaly"
    is never returned: on a group without detection the function
    raises ValueError. *)
Theorem classify_detection_group_range
    (g : list hybrid_anomaly_detections.row) (res : string * string * Z * string) :
  classify_detection_group g = py.Ok res ->
  In (fst (fst (fst res))) classifications
  /\ In (snd (fst (fst res))) severities
  /\ snd (fst res) = Z.of_nat (List.length (sources g))
  /\ 1 <= snd (fst res) <= Z.of_nat (List.length g)
  /\ snd res <> "No significant anomaly"
  /\ g <> [].
Proof.
  intros Hres.
  assert (Hg : g <> []).
  { intros ->. cbn in Hres. discriminate Hres. }
  assert (Hsrc : (1 <= List.length (sources g) <= List.length g)%nat).
  { unfold sources.
    destruct (unique_length
                (map (fun r => hybrid_anomaly_detections.event_type
                                 (hybrid_anomaly_detections.cols r)) g)) as [Hle Hge].
    rewrite length_map in Hle. split; [ apply Hge | exact Hle ].
    destruct g; [ contradiction | discriminate ]. }
  unfold classify_detection_group in Hres. cbv zeta in Hres.
  match type of Hres with
  | py.rbind ?m _ = _ => destruct m as [ flags | e ]; [ | discriminate Hres ]
  end.
  cbn [py.rbind] in Hres.
  match type of Hres with
  | py.rbind ?m _ = _ => destruct m as [ infl | e ]; [ | discriminate Hres ]
  end.
  cbn [py.rbind] in Hres.
  match type of Hres with
  | py.rbind ?m _ = _ => destruct m as [ mx | e ]; [ | discriminate Hres ]
  end.
  cbn [py.rbind] in Hres.
  match type of Hres with
  | py.rbind ?m _ = _ => destruct m as [ lbl | e ] eqn:Hlbl; [ | discriminate Hres ]
  end.
  cbn [py.rbind] in Hres. fold (sources g) in Hres.
  apply severity_label_in in Hlbl. unfold classifications, severities in *.
  repeat match type of Hres with
    | (if ?c then _ else _) = _ => destruct c eqn:?
    end;
    try (injection Hres as <-; cbn [fst snd In];
         repeat match goal with |- _ /\ _ => split end;
         try reflexivity; try lia; try exact Hg; try tauto;
         try (intros Hwhy; cbn [append] in Hwhy; discriminate Hwhy);
         exfalso; lia).
Qed.

Lemma max_from_zero (l : list Z) :
  Forall (fun x => x = 0) l -> max_from 0 l = 0.
Proof.
  unfold max_from. induction l as [ | x l IH ]; intros Hall; [ reflexivity | ].
  inversion Hall as [ | ? ? Hx Hl ]; subst. cbn [fold_left]. exact (IH Hl).
Qed.

(** X25: [classify_detection_group] looks up the label of the highest
    severity before it applies any rule: a group whose detections all
    carry a severity other than low, medium, high and critical is
    never classified; the function raises. *)
Theorem unknown_severities_are_not_classified (g : list hybrid_anomaly_detections.row) :
  (forall r, In r g ->
     severity_order (hybrid_anomaly_detections.combined_severity
                       (hybrid_anomaly_detections.cols r)) = 0) ->
  exists e, classify_detection_group g = py.Raise e.
Proof.
  intros Hall. unfold classify_detection_group. cbv zeta.
  match goal with
  | |- exists e, py.rbind ?m _ = _ => destruct m as [ flags | e ]; [ | eexists; reflexivity ]
  end.
  cbn [py.rbind].
  match goal with
  | |- exists e, py.rbind ?m _ = _ => destruct m as [ infl | e ]; [ | eexists; reflexivity ]
  end.
  cbn [py.rbind].
  destruct g as [ | r g ]; [ eexists; reflexivity | ].
  cbn [map py.rbind].
  rewrite (Hall r (or_introl eq_refl)), max_from_zero.
  - eexists. reflexivity.
  - apply Forall_forall. intros x Hx. apply in_map_iff in Hx. destruct Hx as (r' & <- & Hr').
    apply Hall. right. exact Hr'.
Qed.

End CorrelationMatrix.

(** The theorems at work on the groups of [example]. *)
Lemma origin_mismatch_is_classified_hijack_witness :
  correlation_engine.classify_detection_group example.hijack_group
  = py.Ok ("HIJACK", "critical", 2, "RPKI Origin AS mismatch detected - hijack signal").
Proof.
  assert (Hrun : exists res, correlation_engine.classify_detection_group example.hijack_group
                             = py.Ok res).
  { eexists. vm_compute. reflexivity. }
  destruct Hrun as [res Hres]. rewrite Hres. f_equal.
  apply (origin_mismatch_is_classified_hijack example.hijack_group
           (example.detection_row 2 "rpki" "critical" "invalid"
              (py.JDict [ ("rpki_description",
                           py.JStr "Origin AS mismatch: announced AS15169, ROA expects AS64500 - HIJACK SIGNAL") ]))).
  - right. left. reflexivity.
  - split; [ reflexivity | ]. eexists. eexists.
    split; [ reflexivity | ]. split; [ reflexivity | ]. vm_compute. reflexivity.
  - exact Hres.
Defined.

Lemma severity_of_several_sources_witness :
  correlation_engine.classify_detection_group example.two_source_group
  = py.Ok ("SUSPICIOUS", "medium", 2, "Stronger evidence - 2 detection sources").
Proof.
  assert (Hrun : exists res, correlation_engine.classify_detection_group example.two_source_group
                             = py.Ok res).
  { eexists. vm_compute. reflexivity. }
  destruct Hrun as [res Hres].
  destruct (severity_of_several_sources example.two_source_group res) as (_ & _ & _).
  - intros r [ <- | [ <- | [] ] ]; reflexivity.
  - vm_compute. lia.
  - exact Hres.
  - vm_compute. reflexivity.
Defined.

Lemma classify_detection_group_range_witness :
  exists res, correlation_engine.classify_detection_group example.two_source_group = py.Ok res
              /\ snd (fst res) = 2.
Proof.
  assert (Hrun : exists res, correlation_engine.classify_detection_group example.two_source_group
                             = py.Ok res).
  { eexists. vm_compute. reflexivity. }
  destruct Hrun as [res Hres]. exists res. split; [ exact Hres | ].
  destruct (classify_detection_group_range example.two_source_group res Hres)
    as (_ & _ & Hn & _).
  rewrite Hn. vm_compute. reflexivity.
Defined.

Lemma unknown_severities_are_not_classified_witness :
  exists e, correlation_engine.classify_detection_group
              [ example.detection_row 1 "rpki" "info" "invalid"
                  (py.JDict [ ("rpki_description", py.JStr "Origin AS mismatch - HIJACK SIGNAL") ]) ]
            = py.Raise e.
Proof.
  apply unknown_severities_are_not_classified.
  intros r [ <- | [] ]. reflexivity.
Defined.

(** ** The correlation engine: the batch of updates *)

Section CorrelationBatch.

Import correlation_engine spec.

Lemma group_key_eqb_eq (a b : group_key) : key_eqb a b = true <-> a = b.
Proof.
  destruct a as [[p1 o1] w1], b as [[p2 o2] w2]. unfold key_eqb.
  rewrite !andb_true_iff, !Z.eqb_eq, String.eqb_eq.
  split.
  - intros [[-> ->] ->]. reflexivity.
  - intros H. injection H as -> -> ->. auto.
Qed.

Lemma distinct_keys_NoDup (l : list group_key) : NoDup (distinct_keys l).
Proof.
  induction l as [ | x l IH ]; cbn.
  - constructor.
  - constructor.
    + intros Hin. apply filter_In in Hin. destruct Hin as [_ Hx].
      assert (Hxx : key_eqb x x = true) by (apply group_key_eqb_eq; reflexivity).
      rewrite Hxx in Hx. discriminate.
    + apply NoDup_filter. exact IH.
Qed.

Lemma distinct_keys_in (l : list group_key) (x : group_key) :
  In x l -> In x (distinct_keys l).
Proof.
  induction l as [ | y l IH ]; intros Hin; [ contradiction | ].
  cbn. destruct Hin as [ -> | Hin ]; [ left; reflexivity | ].
  destruct (key_eqb y x) eqn:Hyx.
  - left. apply group_key_eqb_eq. exact Hyx.
  - right. apply filter_In. split; [ exact (IH Hin) | ]. rewrite Hyx. reflexivity.
Qed.

Lemma filter_or_perm {A} (p q : A -> bool) (l : list A) :
  (forall x, p x = true -> q x = false) ->
  Permutation (filter p l ++ filter q l) (filter (fun x => p x || q x) l).
Proof.
  intros Hpq. induction l as [ | x l IH ]; [ constructor | ].
  cbn [filter]. destruct (p x) eqn:Hp.
  - rewrite (Hpq x Hp). cbn [orb app]. apply perm_skip. exact IH.
  - cbn [orb]. destruct (q x).
    + apply Permutation_sym. eapply Permutation_trans;
        [ apply perm_skip; apply Permutation_sym; exact IH | apply Permutation_middle ].
    + exact IH.
Qed.

Lemma filter_all {A} (f : A -> bool) (l : list A) :
  (forall x, In x l -> f x = true) -> filter f l = l.
Proof.
  induction l as [ | x l IH ]; intros Hall; [ reflexivity | ].
  cbn [filter]. rewrite (Hall x (or_introl eq_refl)). f_equal.
  apply IH. intros y Hy. apply Hall. right. exact Hy.
Qed.

Lemma filter_none {A} (l : list A) : filter (fun _ => false) l = [].
Proof. induction l as [ | x l IH ]; [ reflexivity | exact IH ]. Qed.

(** The groups of keys without repetition share out the rows whose key
    is among them. *)
Lemma groups_perm (ks : list group_key) (l : list hybrid_anomaly_detections.row) :
  NoDup ks ->
  Permutation (flat_map (fun k => filter (fun r => key_eqb (key_of r) k) l) ks)
              (filter (fun r => existsb (key_eqb (key_of r)) ks) l).
Proof.
  induction ks as [ | k ks IH ]; intros Hnd.
  - cbn [flat_map existsb]. rewrite filter_none. constructor.
  - inversion Hnd as [ | ? ? Hnotin Hnd' ]; subst. cbn [flat_map existsb].
    eapply Permutation_trans; [ apply Permutation_app_head; exact (IH Hnd') | ].
    apply filter_or_perm. intros r Hr. apply group_key_eqb_eq in Hr.
    destruct (existsb (key_eqb (key_of r)) ks) eqn:Hex; [ | reflexivity ].
    apply existsb_exists in Hex. destruct Hex as (k' & Hk' & Heq).
    apply group_key_eqb_eq in Heq. exfalso. apply Hnotin. congruence.
Qed.

Lemma groupby_perm (df : list hybrid_anomaly_detections.row) :
  Permutation (flat_map snd (groupby df)) df.
Proof.
  unfold groupby. rewrite flat_map_concat_map, map_map. cbn [snd].
  rewrite <- flat_map_concat_map.
  eapply Permutation_trans; [ apply groups_perm; apply distinct_keys_NoDup | ].
  rewrite filter_all; [ apply Permutation_refl | ].
  intros r Hr. apply existsb_exists. exists (key_of r).
  split; [ apply distinct_keys_in; apply in_map; exact Hr | apply group_key_eqb_eq; reflexivity ].
Qed.

Lemma correlate_groups_ids (groups : list (group_key * list hybrid_anomaly_detections.row))
                           (updates : list batch_update) :
  correlate_groups groups = py.Ok updates ->
  map detection_id updates = detection_ids (flat_map snd groups).
Proof.
  revert updates. induction groups as [ | [k group_df] groups IH ]; intros updates Hrun.
  - cbn in Hrun. injection Hrun as <-. reflexivity.
  - cbn [correlate_groups] in Hrun.
    destruct (classify_detection_group group_df) as [ [[[cl sev] n] why] | e ];
      [ | discriminate Hrun ].
    cbn [py.rbind] in Hrun.
    destruct (correlate_groups groups) as [ rest | e ]; [ | discriminate Hrun ].
    cbn [py.rbind] in Hrun. injection Hrun as <-.
    cbn [flat_map snd]. unfold detection_ids in *.
    rewrite !map_app, map_map, (IH rest eq_refl). reflexivity.
Qed.

(** X26: when [correlate_detections] returns, the batch it has built
    holds one update for each of the detections fetched, under its
    [detection_id]: no detection is left out of the correlation and
    none is updated twice. *)
Theorem every_detection_gets_one_update
    (df : list hybrid_anomaly_detections.row) (updates : list batch_update) :
  correlate_detections df = py.Ok updates ->
  Permutation (map detection_id updates) (detection_ids df)
  /\ List.length updates = List.length df.
Proof.
  intros Hrun. unfold correlate_detections in Hrun.
  pose proof (correlate_groups_ids _ _ Hrun) as Hids.
  assert (Hperm : Permutation (map detection_id updates) (detection_ids df)).
  { rewrite Hids. unfold detection_ids. apply Permutation_map. apply groupby_perm. }
  split; [ exact Hperm | ].
  apply Permutation_length in Hperm. unfold detection_ids in Hperm.
  rewrite !length_map in Hperm. exact Hperm.
Qed.

End CorrelationBatch.

Lemma every_detection_gets_one_update_witness :
  exists updates,
    correlation_engine.correlate_detections example.hijack_group = py.Ok updates
    /\ List.length updates = 2%nat.
Proof.
  assert (Hrun : exists updates, correlation_engine.correlate_detections example.hijack_group
                                 = py.Ok updates).
  { eexists. vm_compute. reflexivity. }
  destruct Hrun as [updates Hrun]. exists updates. split; [ exact Hrun | ].
  destruct (every_detection_gets_one_update example.hijack_group updates Hrun) as [_ Hlen].
  exact Hlen.
Defined.

(** ** The ML detector: a score that is not a number *)

Section EnsembleEdge.

Import ml_inference_service.

Lemma is_nan_SF (x : float) : PrimFloat.is_nan x = true -> Prim2SF x = S754_nan.
Proof.
  unfold PrimFloat.is_nan. rewrite FloatAxioms.eqb_spec.
  destruct (Prim2SF x) as [ s | s | | s m e ]; try reflexivity.
  - destruct s; cbn; discriminate.
  - destruct s; cbn; discriminate.
  - unfold SFeqb, SFcompare. destruct s; rewrite Z.compare_refl, ?Pos.compare_cont_refl; cbn;
      discriminate.
Qed.

(** X27: a combined score that is not a number (a NaN raw score makes
    it so) falls through every comparison of
    [compute_z_score_ensemble]: the row is given the severity
    critical, and is not flagged as an anomaly, whatever the
    threshold. *)
Theorem nan_score_is_critical_and_not_anomalous (cfg : config) (iso lstm : float) :
  PrimFloat.is_nan (combined_score (score_row cfg iso lstm)) = true ->
  combined_severity (score_row cfg iso lstm) = "critical"
  /\ combined_anomaly (score_row cfg iso lstm) = false.
Proof.
  unfold score_row. cbv zeta. cbn [combined_score combined_severity combined_anomaly].
  intros Hnan. apply is_nan_SF in Hnan. split.
  - unfold severity_of. rewrite !FloatAxioms.ltb_spec, Hnan. reflexivity.
  - rewrite FloatAxioms.leb_spec, Hnan.
    destruct (Prim2SF (ANOMALY_THRESHOLD cfg)); reflexivity.
Qed.

End EnsembleEdge.

Lemma nan_score_is_critical_and_not_anomalous_witness :
  ml_inference_service.combined_severity
    (ml_inference_service.score_row ml_inference_service.default_config PrimFloat.nan 0%float)
  = "critical"
  /\ ml_inference_service.combined_anomaly
       (ml_inference_service.score_row ml_inference_service.default_config PrimFloat.nan 0%float)
     = false.
Proof.
  apply nan_score_is_critical_and_not_anomalous. vm_compute. reflexivity.
Defined.

(** ** The correlation engine: correlating again *)

Section CorrelationAgain.

Import correlation_engine spec.

Lemma assoc_concat (k : string) (d : list (string * py.json)) (c : py.json) :
  k <> "correlation" ->
  py.assoc k (filter (fun kv => negb (existsb (fun kv' => String.eqb (fst kv) (fst kv'))
                                              [ ("correlation", c) ])) d
              ++ [ ("correlation", c) ])%list
  = py.assoc k d.
Proof.
  intros Hk. induction d as [ | [k' v] d IH ].
  - cbn. destruct (String.eqb_spec k "correlation"); [ contradiction | reflexivity ].
  - cbn [filter existsb fst orb]. rewrite orb_false_r.
    destruct (String.eqb_spec k' "correlation") as [ -> | Hk' ]; cbn [negb].
    + cbn [py.assoc]. destruct (String.eqb_spec k "correlation"); [ contradiction | exact IH ].
    + cbn [app py.assoc]. destruct (String.eqb k k'); [ reflexivity | exact IH ].
Qed.

(** What a detection's metadata answers, under a key other than
    [correlation], is what it answered before the UPDATE; and the
    metadata is an object after the UPDATE when it was one before. *)
Lemma metadata_after_update (cl sev : string) (meta : py.json) (r : hybrid_anomaly_detections.row) :
  is_metadata_update meta ->
  match metadata_of r with
  | py.JDict d =>
      exists d', metadata_of (update_detection cl sev meta r) = py.JDict d'
                 /\ forall k default, k <> "correlation" ->
                      py.dict_get (py.JDict d') k default = py.dict_get (py.JDict d) k default
  | _ => forall d', metadata_of (update_detection cl sev meta r) <> py.JDict d'
  end.
Proof.
  intros [c ->]. unfold metadata_of, update_detection. cbv zeta.
  cbn [hybrid_anomaly_detections.cols hybrid_anomaly_detections.metadata].
  destruct (hybrid_anomaly_detections.metadata (hybrid_anomaly_detections.cols r))
    as [ | b | z | f | str | l | d ]; try (intros d'; cbn; discriminate).
  cbn [pg.jsonb_concat]. eexists. split; [ reflexivity | ].
  intros k default Hk. cbn [py.dict_get]. rewrite assoc_concat by exact Hk. reflexivity.
Qed.

Lemma scan_rpki_invalid_after_update (cl sev : string) (meta : hybrid_anomaly_detections.row -> py.json)
                                     (rows : list hybrid_anomaly_detections.row)
                                     (flags : bool * bool) :
  (forall r, is_metadata_update (meta r)) ->
  scan_rpki_invalid (map (fun r => update_detection cl sev (meta r) r) rows) flags
  = scan_rpki_invalid rows flags.
Proof.
  intros Hmeta. revert flags. induction rows as [ | r rows IH ]; intros flags; [ reflexivity | ].
  cbn [map scan_rpki_invalid].
  pose proof (metadata_after_update cl sev (meta r) r (Hmeta r)) as Hafter.
  destruct (metadata_of r) as [ | b | z | f | str | l | d ];
    try (destruct (metadata_of (update_detection cl sev (meta r) r)) as [ | | | | | | d' ];
         [ apply IH | apply IH | apply IH | apply IH | apply IH | apply IH
         | exfalso; exact (Hafter d' eq_refl) ]).
  destruct Hafter as (d' & -> & Hget).
  rewrite (Hget "rpki_description" (py.JStr "")) by discriminate.
  destruct (py.dict_get (py.JDict d) "rpki_description" (py.JStr "")) as [ v | e ]; [ | reflexivity ].
  cbn [py.rbind]. destruct (py.str_lower v) as [ desc | e ]; [ | reflexivity ].
  cbn [py.rbind]. cbv zeta. apply IH.
Qed.

Lemma scan_heuristic_after_update (cl sev : string) (meta : hybrid_anomaly_detections.row -> py.json)
                                  (rows : list hybrid_anomaly_detections.row) (flag : bool) :
  (forall r, is_metadata_update (meta r)) ->
  scan_heuristic (map (fun r => update_detection cl sev (meta r) r) rows) flag
  = scan_heuristic rows flag.
Proof.
  intros Hmeta. revert flag. induction rows as [ | r rows IH ]; intros flag; [ reflexivity | ].
  cbn [map scan_heuristic].
  pose proof (metadata_after_update cl sev (meta r) r (Hmeta r)) as Hafter.
  destruct (metadata_of r) as [ | b | z | f | str | l | d ];
    try (destruct (metadata_of (update_detection cl sev (meta r) r)) as [ | | | | | | d' ];
         [ apply IH | apply IH | apply IH | apply IH | apply IH | apply IH
         | exfalso; exact (Hafter d' eq_refl) ]).
  destruct Hafter as (d' & -> & Hget).
  rewrite (Hget "triggered_rules" (py.JList [])) by discriminate.
  destruct (py.dict_get (py.JDict d) "triggered_rules" (py.JList [])) as [ v | e ]; [ | reflexivity ].
  cbn [py.rbind]. destruct (py.str_in "path_inflation" v) as [ found | e ]; [ | reflexivity ].
  cbn [py.rbind]. apply IH.
Qed.

Lemma filter_after_update {A} (f : A -> A) (p : A -> bool) (l : list A) :
  (forall x, p (f x) = p x) -> filter p (map f l) = map f (filter p l).
Proof.
  intros Hp. induction l as [ | x l IH ]; [ reflexivity | ].
  cbn [map filter]. rewrite Hp. destruct (p x); cbn [map]; rewrite IH; reflexivity.
Qed.

Lemma max_from_same (x : Z) (n : nat) : max_from x (repeat x n) = x.
Proof.
  unfold max_from. induction n as [ | n IH ]; [ reflexivity | ].
  cbn [repeat fold_left]. rewrite Z.max_id. exact IH.
Qed.

Lemma severity_label_order (m : Z) (lbl : string) :
  severity_label m = py.Ok lbl -> severity_label (severity_order lbl) = py.Ok lbl.
Proof.
  unfold severity_label at 1.
  destruct (m =? 1); [ intros H; injection H as <-; reflexivity | ].
  destruct (m =? 2); [ intros H; injection H as <-; reflexivity | ].
  destruct (m =? 3); [ intros H; injection H as <-; reflexivity | ].
  destruct (m =? 4); [ intros H; injection H as <-; reflexivity | discriminate ].
Qed.

(** X28: correlating a group again gives the same answer.  When
    [classify_detection_group] has classified a group and the UPDATE
    of [batch_update_detections] has written the classification, the
    final severity and the correlation metadata into each of its
    detections, [classify_detection_group] returns the same
    classification, severity, source count and reasoning on the
    updated group. *)
Theorem correlation_is_idempotent
    (g : list hybrid_anomaly_detections.row) (cl sev why : string) (n : Z)
    (meta : hybrid_anomaly_detections.row -> py.json) :
  (forall r, is_metadata_update (meta r)) ->
  classify_detection_group g = py.Ok (cl, sev, n, why) ->
  classify_detection_group (map (fun r => update_detection cl sev (meta r) r) g)
  = py.Ok (cl, sev, n, why).
Proof.
  intros Hmeta Hres.
  set (f := fun r => update_detection cl sev (meta r) r).
  assert (Hg : g <> []).
  { intros ->. cbn in Hres. discriminate Hres. }
  assert (Hevent : map (fun r => hybrid_anomaly_detections.event_type
                                   (hybrid_anomaly_detections.cols r)) (map f g)
                   = map (fun r => hybrid_anomaly_detections.event_type
                                     (hybrid_anomaly_detections.cols r)) g).
  { rewrite map_map. reflexivity. }
  assert (Hsev : map (fun r => severity_order (hybrid_anomaly_detections.combined_severity
                                                 (hybrid_anomaly_detections.cols r))) (map f g)
                 = repeat (severity_order sev) (List.length g)).
  { rewrite map_map. clear. induction g as [ | r g IH ]; [ reflexivity | ].
    cbn [map repeat List.length]. rewrite IH. reflexivity. }
  assert (Hrpki : filter (fun r => String.eqb (hybrid_anomaly_detections.rpki_status
                                                 (hybrid_anomaly_detections.cols r)) "invalid")
                         (filter (event_type_is "rpki") (map f g))
                  = map f (filter (fun r => String.eqb (hybrid_anomaly_detections.rpki_status
                                                          (hybrid_anomaly_detections.cols r)) "invalid")
                                  (filter (event_type_is "rpki") g))).
  { rewrite (filter_after_update f (event_type_is "rpki")) by reflexivity.
    apply filter_after_update. reflexivity. }
  assert (Hheur : filter (event_type_is "heuristic") (map f g)
                  = map f (filter (event_type_is "heuristic") g)).
  { apply filter_after_update. reflexivity. }
  assert (Hempty : forall l : list hybrid_anomaly_detections.row,
            match map f l with [] => false | _ :: _ => true end
            = match l with [] => false | _ :: _ => true end).
  { intros [ | x l ]; reflexivity. }
  unfold classify_detection_group in *. cbv zeta in *.
  rewrite Hevent, Hsev, Hrpki, Hheur, !Hempty.
  subst f.
  rewrite scan_rpki_invalid_after_update by exact Hmeta.
  rewrite scan_heuristic_after_update by exact Hmeta.
  match type of Hres with
  | py.rbind ?m _ = _ => destruct m as [ flags | e ]; [ | discriminate Hres ]
  end.
  cbn [py.rbind] in *.
  match type of Hres with
  | py.rbind ?m _ = _ => destruct m as [ infl | e ]; [ | discriminate Hres ]
  end.
  cbn [py.rbind] in *.
  match type of Hres with
  | py.rbind ?m _ = _ => destruct m as [ mx | e ]; [ | discriminate Hres ]
  end.
  cbn [py.rbind] in Hres.
  match type of Hres with
  | py.rbind ?m _ = _ => destruct m as [ lbl | e ] eqn:Hlbl; [ | discriminate Hres ]
  end.
  cbn [py.rbind] in Hres.
  apply severity_label_order in Hlbl.
  assert (Hmax : match repeat (severity_order sev) (List.length g) with
                 | [] => py.Raise (py.Exn "ValueError" "max() arg is an empty sequence")
                 | x :: l => py.Ok (max_from x l)
                 end = py.Ok (severity_order sev)).
  { destruct g as [ | r g' ]; [ contradiction | ].
    cbn [List.length repeat]. rewrite max_from_same. reflexivity. }
  rewrite Hmax. cbn [py.rbind].
  repeat match type of Hres with
    | (if ?c then _ else _) = _ => destruct c eqn:?
    end;
    injection Hres as <- <- <- <-; try reflexivity; rewrite Hlbl; cbn [py.rbind];
    repeat match goal with
      | H : ?c = _ |- context [ if ?c then _ else _ ] => rewrite H
      end;
    reflexivity.
Qed.

End CorrelationAgain.

Lemma correlation_is_idempotent_witness :
  correlation_engine.classify_detection_group
    (map (fun r => correlation_engine.update_detection "HIJACK" "critical"
                     (py.JDict [ ("correlation", py.JDict [ ("source_count", py.JInt 2) ]) ]) r)
         example.hijack_group)
  = py.Ok ("HIJACK", "critical", 2, "RPKI Origin AS mismatch detected - hijack signal").
Proof.
  apply (correlation_is_idempotent example.hijack_group "HIJACK" "critical"
           "RPKI Origin AS mismatch detected - hijack signal" 2
           (fun _ => py.JDict [ ("correlation", py.JDict [ ("source_count", py.JInt 2) ]) ])).
  - intros r. eexists. reflexivity.
  - vm_compute. reflexivity.
Defined.

(** ** The feature aggregator: a minute cut by a poll *)

Section AggregatorWindows.

Import store feature_aggregator spec.

(** The LEFT JOIN keeps every raw update. *)
Lemma left_join_covers (ribs : list ip_rib.row) (bas : list base_attrs.row) (r : ip_rib.row) :
  In r ribs -> exists j, In j (left_join ribs bas) /\ j_rib j = r.
Proof.
  intros Hin. unfold left_join.
  destruct (filter (fun ba => String.eqb (ip_rib.base_attr_hash_id r) (base_attrs.hash_id ba)) bas)
    as [ | ba ms ] eqn:Hms.
  - exists {| j_rib := r; j_ba := None |}. split; [ | reflexivity ].
    apply in_flat_map. exists r. split; [ exact Hin | ]. rewrite Hms. left. reflexivity.
  - exists {| j_rib := r; j_ba := Some ba |}. split; [ | reflexivity ].
    apply in_flat_map. exists r. split; [ exact Hin | ]. rewrite Hms. left. reflexivity.
Qed.

(** A raw update inside the scanned interval has its feature row among
    the rows of the run. *)
Lemma selected_row (db : database) (from_ts to_ts seq : Z) (r : ip_rib.row) :
  In r (tbl_ip_rib db) ->
  from_ts < ip_rib.timestamp r <= to_ts ->
  exists f, In f (number_rows seq (selected_groups db from_ts to_ts))
            /\ feature_key f
               = (floor_to_1min (ip_rib.timestamp r), ip_rib.prefix r, ip_rib.origin_as r).
Proof.
  intros Hin Hrange.
  destruct (left_join_covers (tbl_ip_rib db) (tbl_base_attrs db) r Hin) as (j & Hj & Hjr).
  assert (Hscanned : In j (filter (in_range from_ts to_ts)
                                  (left_join (tbl_ip_rib db) (tbl_base_attrs db)))).
  { apply filter_In. split; [ exact Hj | ]. unfold in_range. rewrite Hjr.
    apply andb_true_iff. split; [ apply Z.ltb_lt | apply Z.leb_le ]; lia. }
  destruct (number_rows_in (selected_groups db from_ts to_ts) _
              (group_by_in _ j Hscanned) seq) as [n Hn].
  eexists. split; [ exact Hn | ].
  unfold key_of. rewrite Hjr. reflexivity.
Qed.

Lemma main_iteration_rows (now ts : Z) (db : database) :
  tbl_feature_aggregator_state db = Some (Some ts) ->
  ts < now ->
  tbl_bgp_features_1min (main_iteration now db)
  = (tbl_bgp_features_1min db
     ++ number_rows (seq_bgp_features_1min db) (selected_groups db ts now))%list
  /\ tbl_feature_aggregator_state (main_iteration now db) = Some (Some now)
  /\ tbl_ip_rib (main_iteration now db) = tbl_ip_rib db
  /\ tbl_base_attrs (main_iteration now db) = tbl_base_attrs db.
Proof.
  intros Hstate Hlt. unfold main_iteration, get_last_processed_timestamp. rewrite Hstate.
  destruct (Z.leb_spec now ts); [ lia | ].
  unfold aggregate_once, update_last_processed_timestamp. cbv zeta.
  cbn [set_features tbl_feature_aggregator_state]. rewrite Hstate.
  repeat split; reflexivity.
Qed.

(** X29: a minute that a poll cuts in two gets two feature rows.  When
    two raw updates of the same prefix and origin fall in the same
    minute, one received before the poll at [now1] and one after it,
    the polls at [now1] and [now2] each append a row for that
    (window_start, prefix, origin_as): the table holds the triple
    twice, each row counting only the updates of its own poll. *)
Theorem a_minute_cut_by_a_poll_gets_two_rows
    (now1 now2 ts : Z) (db : database) (r1 r2 : ip_rib.row) :
  tbl_feature_aggregator_state db = Some (Some ts) ->
  In r1 (tbl_ip_rib db) -> In r2 (tbl_ip_rib db) ->
  ts < ip_rib.timestamp r1 <= now1 ->
  now1 < ip_rib.timestamp r2 <= now2 ->
  floor_to_1min (ip_rib.timestamp r1) = floor_to_1min (ip_rib.timestamp r2) ->
  ip_rib.prefix r1 = ip_rib.prefix r2 ->
  ip_rib.origin_as r1 = ip_rib.origin_as r2 ->
  exists rows1 rows2 f1 f2,
    tbl_bgp_features_1min (main_iteration now2 (main_iteration now1 db))
    = (tbl_bgp_features_1min db ++ rows1 ++ rows2)%list
    /\ In f1 rows1 /\ In f2 rows2
    /\ feature_key f1 = feature_key f2
    /\ feature_key f1
       = (floor_to_1min (ip_rib.timestamp r1), ip_rib.prefix r1, ip_rib.origin_as r1).
Proof.
  intros Hstate Hin1 Hin2 Hr1 Hr2 Hminute Hprefix Horigin.
  destruct (main_iteration_rows now1 ts db Hstate) as (Htbl1 & Hstate1 & Hrib1 & Hba1); [ lia | ].
  destruct (main_iteration_rows now2 now1 (main_iteration now1 db) Hstate1)
    as (Htbl2 & _); [ lia | ].
  destruct (selected_row db ts now1 (seq_bgp_features_1min db) r1 Hin1 Hr1) as (f1 & Hf1 & Hk1).
  assert (Hin2' : In r2 (tbl_ip_rib (main_iteration now1 db))) by (rewrite Hrib1; exact Hin2).
  destruct (selected_row (main_iteration now1 db) now1 now2
              (seq_bgp_features_1min (main_iteration now1 db)) r2 Hin2' Hr2)
    as (f2 & Hf2 & Hk2).
  eexists. eexists. exists f1, f2.
  split; [ rewrite Htbl2, Htbl1, <- app_assoc; reflexivity | ].
  split; [ exact Hf1 | ]. split; [ exact Hf2 | ].
  split; [ | exact Hk1 ].
  rewrite Hk1, Hk2, Hminute, Hprefix, Horigin. reflexivity.
Qed.

End AggregatorWindows.

(** The theorem at work: the polls at 90 and at 120 seconds cut the
    second minute of [example.split_minute_db]. *)
Lemma a_minute_cut_by_a_poll_gets_two_rows_witness :
  map spec.feature_key
    (store.tbl_bgp_features_1min
       (feature_aggregator.main_iteration 120000000
          (feature_aggregator.main_iteration 90000000 example.split_minute_db)))
  = [ (60000000, "203.0.113.0/24", 64500); (60000000, "203.0.113.0/24", 64500) ].
Proof.
  destruct (a_minute_cut_by_a_poll_gets_two_rows 90000000 120000000 0 example.split_minute_db
              {| ip_rib.base_attr_hash_id := "attrs-1";
                 ip_rib.peer_hash_id := "peer-1";
                 ip_rib.origin_as := 64500;
                 ip_rib.prefix := "203.0.113.0/24";
                 ip_rib.timestamp := 70000000;
                 ip_rib.iswithdrawn := false |}
              {| ip_rib.base_attr_hash_id := "attrs-1";
                 ip_rib.peer_hash_id := "peer-1";
                 ip_rib.origin_as := 64500;
                 ip_rib.prefix := "203.0.113.0/24";
                 ip_rib.timestamp := 110000000;
                 ip_rib.iswithdrawn := true |})
    as (rows1 & rows2 & f1 & f2 & _).
  - reflexivity.
  - left. reflexivity.
  - right. left. reflexivity.
  - cbn. lia.
  - cbn. lia.
  - reflexivity.
  - reflexivity.
  - reflexivity.
  - vm_compute. reflexivity.
Defined.

(** ** The ML detector: what it writes *)

Section MlInsert.

Import store ml_inference_service spec.

Variable L : py.lib.

Variable cfg : config.

Lemma ml_upsert_ids (n : Z) (d : hybrid_anomaly_detections.values)
                    (t : list hybrid_anomaly_detections.row) :
  In (hybrid_anomaly_detections.detection_id d) (detection_ids (upsert n d t))
  /\ (forall x, In x (detection_ids t) -> In x (detection_ids (upsert n d t)))
  /\ (forall x, In x (detection_ids (upsert n d t)) ->
                In x (detection_ids t) \/ x = hybrid_anomaly_detections.detection_id d).
Proof.
  unfold upsert. destruct (existsb (heuristic_detector.conflicts d) t) eqn:Hex.
  - assert (Hids : detection_ids (map (fun r => if heuristic_detector.conflicts d r
                                               then do_update d r else r) t)
                   = detection_ids t).
    { unfold detection_ids. rewrite map_map. apply map_ext. intros r.
      destruct (heuristic_detector.conflicts d r); reflexivity. }
    rewrite Hids. split; [ | split; auto ].
    apply existsb_exists in Hex. destruct Hex as (r & Hr & Hc).
    unfold heuristic_detector.conflicts in Hc. apply String.eqb_eq in Hc.
    unfold detection_ids. apply in_map_iff. exists r. split; assumption.
  - unfold detection_ids. rewrite map_app. split; [ | split ].
    + apply in_or_app. right. left. reflexivity.
    + intros x Hx. apply in_or_app. left. exact Hx.
    + intros x Hx. apply in_app_or in Hx. destruct Hx as [ Hx | [ Hx | [] ] ].
      * left. exact Hx.
      * right. symmetry. exact Hx.
Qed.

Lemma execute_insert_healthy (u : database -> database) (w : heuristic_detector.world) :
  healthy w ->
  heuristic_detector.execute_insert u w
  = (py.Ok tt, heuristic_detector.set_db (u (heuristic_detector.db w)) w).
Proof.
  intros (Hopen & Hq & Hi). destruct w as [d co fi fq lg].
  cbn [heuristic_detector.conn_open heuristic_detector.query_faults
       heuristic_detector.insert_faults] in *. subst co fq fi. reflexivity.
Qed.

(** The server takes the metadata of a detection when the scores are
    finite, and only then. *)
Lemma metadata_accepted (row : bgp_features_1min.row) (s : scores) (n : Z) :
  pg.json_accepted (hybrid_anomaly_detections.metadata
                      (ml_inference_service.detection_of L cfg row s n))
  = finite_scores cfg s.
Proof.
  unfold finite_scores. cbn.
  destruct (PrimFloat.is_finite (iso_raw s)), (PrimFloat.is_finite (lstm_raw s)),
           (PrimFloat.is_finite (z_iso s)), (PrimFloat.is_finite (z_lstm s)),
           (PrimFloat.is_finite (ANOMALY_THRESHOLD cfg)); reflexivity.
Qed.

Lemma skipn_nth_error_cons {A} (l : list A) (k : nat) (x : A) :
  nth_error l k = Some x -> skipn k l = x :: skipn (S k) l.
Proof.
  revert l. induction k as [ | k IH ]; intros [ | y l ] H; try discriminate.
  - cbn in H. injection H as ->. reflexivity.
  - cbn [nth_error] in H. cbn [skipn]. rewrite (IH l H). reflexivity.
Qed.

(** One turn of the loop on a healthy connection. *)
Lemma insert_row_healthy (scores_df : list scores) (inserted : Z) (i : nat)
                         (row : bgp_features_1min.row) (s : scores)
                         (w : heuristic_detector.world) :
  healthy w -> nth_error scores_df i = Some s ->
  let before := detection_ids (tbl_hybrid_anomaly_detections (heuristic_detector.db w)) in
  exists w',
    insert_row L cfg scores_df inserted (i, row) w
    = (py.Ok (inserted + (if storable L cfg (row, s) then 1 else 0)), w')
    /\ healthy w'
    /\ (forall x, In x before ->
                  In x (detection_ids (tbl_hybrid_anomaly_detections (heuristic_detector.db w'))))
    /\ (forall x, In x (detection_ids (tbl_hybrid_anomaly_detections (heuristic_detector.db w'))) ->
                  In x before \/ (storable L cfg (row, s) = true /\ x = ml_detection_id L row))
    /\ (storable L cfg (row, s) = true ->
        In (ml_detection_id L row)
           (detection_ids (tbl_hybrid_anomaly_detections (heuristic_detector.db w'))))
    /\ (storable L cfg (row, s) = false ->
        tbl_hybrid_anomaly_detections (heuristic_detector.db w')
        = tbl_hybrid_anomaly_detections (heuristic_detector.db w)).
Proof.
  intros Hw Hnth before. unfold insert_row, storable, length_reads. cbn [fst snd].
  rewrite Hnth.
  unfold py.bind at 1. unfold py.lift at 1. cbv zeta. unfold py.try_except.
  unfold py.bind at 1. unfold py.lift at 1.
  destruct (prefix_length_of L (bgp_features_1min.prefix row)) as [ n | e ].
  - unfold py.bind at 1. unfold execute_insert. rewrite metadata_accepted.
    destruct (finite_scores cfg s) eqn:Hfin.
    + rewrite (execute_insert_healthy _ w Hw). unfold py.ret.
      eexists. split; [ reflexivity | ].
      destruct Hw as (Hopen & Hq & Hins).
      split; [ repeat split; assumption | ].
      cbn [heuristic_detector.set_db heuristic_detector.db].
      unfold insert_or_update. cbv zeta. cbn [set_detections tbl_hybrid_anomaly_detections].
      match goal with |- context [ upsert ?n ?d ?t ] =>
        destruct (ml_upsert_ids n d t) as (Hnew & Hold & Honly) end.
      split; [ exact Hold | ]. split; [ | split; [ intros _; exact Hnew | discriminate ] ].
      intros x Hx. destruct (Honly x Hx) as [ H | H ]; [ left; exact H | right ].
      split; [ reflexivity | exact H ].
    + unfold py.bind at 1. rewrite (execute_insert_healthy _ w Hw). unfold py.raise.
      eexists. split; [ rewrite Z.add_0_r; reflexivity | ].
      destruct Hw as (Hopen & Hq & Hins).
      split; [ repeat split; assumption | ].
      cbn [heuristic_detector.set_db heuristic_detector.set_log heuristic_detector.db].
      split; [ auto | ]. split; [ auto | ]. split; [ discriminate | reflexivity ].
  - eexists. split; [ rewrite Z.add_0_r; reflexivity | ].
    cbn [heuristic_detector.set_log heuristic_detector.db].
    split; [ exact Hw | ]. split; [ auto | ]. split; [ auto | ].
    split; [ discriminate | reflexivity ].
Qed.

Lemma fold_insert_row_healthy (scores_df : list scores) (l : list bgp_features_1min.row)
                              (k : nat) (inserted : Z) (w : heuristic_detector.world) :
  healthy w -> (k + List.length l <= List.length scores_df)%nat ->
  let before := detection_ids (tbl_hybrid_anomaly_detections (heuristic_detector.db w)) in
  let stored := filter (storable L cfg) (combine l (skipn k scores_df)) in
  exists w',
    py.fold_for (combine (seq k (List.length l)) l) inserted (insert_row L cfg scores_df) w
    = (py.Ok (inserted + Z.of_nat (List.length stored)), w')
    /\ healthy w'
    /\ (forall x, In x before ->
                  In x (detection_ids (tbl_hybrid_anomaly_detections (heuristic_detector.db w'))))
    /\ (forall x, In x (detection_ids (tbl_hybrid_anomaly_detections (heuristic_detector.db w'))) ->
                  In x before \/ exists row s, In (row, s) stored /\ x = ml_detection_id L row)
    /\ (forall row s, In (row, s) stored ->
        In (ml_detection_id L row)
           (detection_ids (tbl_hybrid_anomaly_detections (heuristic_detector.db w'))))
    /\ (stored = [] ->
        tbl_hybrid_anomaly_detections (heuristic_detector.db w')
        = tbl_hybrid_anomaly_detections (heuristic_detector.db w)).
Proof.
  revert k inserted w. induction l as [ | row l IH ]; intros k inserted w Hw Hlen before stored.
  - exists w. cbn in stored. subst stored.
    cbn [List.length seq combine py.fold_for]. rewrite Z.add_0_r.
    split; [ reflexivity | ]. split; [ exact Hw | ]. split; [ auto | ].
    split; [ auto | ]. split; [ intros row s [] | reflexivity ].
  - cbn [List.length] in Hlen.
    destruct (nth_error scores_df k) as [ s | ] eqn:Hnth;
      [ | apply nth_error_None in Hnth; lia ].
    assert (Hstored : stored = ((if storable L cfg (row, s) then [ (row, s) ] else [])
                                ++ filter (storable L cfg) (combine l (skipn (S k) scores_df)))%list).
    { unfold stored. rewrite (skipn_nth_error_cons scores_df k s Hnth). cbn [combine filter].
      destruct (storable L cfg (row, s)); reflexivity. }
    clearbody stored. subst stored.
    cbn [List.length seq combine py.fold_for]. unfold py.bind at 1.
    destruct (insert_row_healthy scores_df inserted k row s w Hw Hnth)
      as (w1 & Hrun & Hw1 & Hold1 & Honly1 & Hnew1 & Hsame1).
    rewrite Hrun.
    destruct (IH (S k) (inserted + (if storable L cfg (row, s) then 1 else 0)) w1 Hw1)
      as (w' & Hrun' & Hw' & Hold' & Honly' & Hnew' & Hsame'); [ lia | ].
    exists w'. split; [ | split; [ exact Hw' | ] ].
    { rewrite Hrun'. rewrite length_app.
      destruct (storable L cfg (row, s)); cbn [List.length]; f_equal; f_equal; lia. }
    split; [ intros x Hx; apply Hold', Hold1, Hx | ].
    split.
    { intros x Hx. destruct (Honly' x Hx) as [ H | (row' & s' & Hin & ->) ].
      - destruct (Honly1 x H) as [ H1 | (Hst & ->) ]; [ left; exact H1 | right ].
        exists row, s. split; [ | reflexivity ].
        rewrite Hst. left. reflexivity.
      - right. exists row', s'. split; [ | reflexivity ].
        apply in_or_app. right. exact Hin. }
    split.
    { intros row' s' Hin. apply in_app_or in Hin. destruct Hin as [ Hin | Hin ].
      - destruct (storable L cfg (row, s)) eqn:Hst; [ | contradiction ].
        destruct Hin as [ Heq | [] ]. injection Heq as <- <-.
        apply Hold'. apply Hnew1. reflexivity.
      - apply (Hnew' row' s' Hin). }
    intros Hnil. apply app_eq_nil in Hnil. destruct Hnil as [Hhead Htail].
    rewrite (Hsame' Htail). apply Hsame1.
    destruct (storable L cfg (row, s)); [ discriminate | reflexivity ].
Qed.

(** X30: the ML detector writes a detection for every row it has
    scored, an anomaly or not, whose scores are numbers.  On a
    connection without faults, with one entry of scores for each row,
    [insert_hybrid_anomaly_detections] stores a detection for the rows
    whose prefix length it can read and whose raw scores, z-scores and
    threshold are all finite, and returns their number.  The other
    rows are logged and skipped: a row with a NaN or an infinite score
    is rejected by the server, its metadata being no JSON.  The table
    then holds the [detection_id] of each stored row, it has lost no
    [detection_id], and it has gained none but these. *)
Theorem ml_writes_a_detection_for_every_row_of_finite_scores
    (df : list bgp_features_1min.row) (scores_df : list scores) (w : heuristic_detector.world) :
  healthy w ->
  List.length scores_df = List.length df ->
  let run := insert_hybrid_anomaly_detections L cfg df scores_df w in
  let before := tbl_hybrid_anomaly_detections (heuristic_detector.db w) in
  let table := tbl_hybrid_anomaly_detections (heuristic_detector.db (snd run)) in
  let stored := filter (storable L cfg) (combine df scores_df) in
  fst run = py.Ok (Z.of_nat (List.length stored))
  /\ (forall row s, In (row, s) stored -> In (ml_detection_id L row) (detection_ids table))
  /\ (forall x, In x (detection_ids before) -> In x (detection_ids table))
  /\ (forall x, In x (detection_ids table) ->
                In x (detection_ids before)
                \/ exists row s, In (row, s) stored /\ x = ml_detection_id L row)
  /\ (stored = [] -> table = before).
Proof.
  intros Hw Hlen.
  assert (Hcur : heuristic_detector.cursor w = (py.Ok tt, w)).
  { destruct Hw as (Hopen & _). unfold heuristic_detector.cursor. rewrite Hopen. reflexivity. }
  destruct (fold_insert_row_healthy scores_df df 0 0 w Hw)
    as (w' & Hrun & _ & Hold & Honly & Hnew & Hsame); [ lia | ].
  cbn [skipn] in Hrun, Honly, Hnew, Hsame.
  assert (Hall : insert_hybrid_anomaly_detections L cfg df scores_df w
                 = (py.Ok (Z.of_nat (List.length (filter (storable L cfg) (combine df scores_df)))),
                    w')).
  { unfold insert_hybrid_anomaly_detections, iterrows. unfold py.bind at 1.
    rewrite Hcur. exact Hrun. }
  cbv zeta. rewrite Hall. cbn [fst snd].
  split; [ reflexivity | ]. split; [ exact Hnew | ]. split; [ exact Hold | ].
  split; [ exact Honly | exact Hsame ].
Qed.

End MlInsert.

(** The theorem at work on the two rows of [example.bogon_db]: the
    isolation forest gives the second row the score NaN, which makes
    it critical, and the row is not stored. *)
Lemma ml_writes_a_detection_for_every_row_of_finite_scores_witness :
  let scores_df :=
    ml_inference_service.compute_z_score_ensemble ml_inference_service.default_config
      [ (-0.14)%float; PrimFloat.nan ] [] (store.tbl_bgp_features_1min example.bogon_db) in
  let run :=
    ml_inference_service.insert_hybrid_anomaly_detections example.lib
      ml_inference_service.default_config
      (store.tbl_bgp_features_1min example.bogon_db) scores_df (example.bogon_world []) in
  map ml_inference_service.combined_severity scores_df = [ "low"; "critical" ]
  /\ fst run = py.Ok 1
  /\ List.length (store.tbl_hybrid_anomaly_detections (heuristic_detector.db (snd run))) = 1%nat.
Proof.
  cbv zeta. split; [ vm_compute; reflexivity | ].
  destruct (ml_writes_a_detection_for_every_row_of_finite_scores example.lib
              ml_inference_service.default_config
              (store.tbl_bgp_features_1min example.bogon_db)
              (ml_inference_service.compute_z_score_ensemble ml_inference_service.default_config
                 [ (-0.14)%float; PrimFloat.nan ] []
                 (store.tbl_bgp_features_1min example.bogon_db))
              (example.bogon_world []))
    as (Hcount & _).
  - repeat split; reflexivity.
  - reflexivity.
  - split; [ rewrite Hcount | ]; vm_compute; reflexivity.
Defined.
